(** * classSitTable: the seating-chart engine of [src/lib/classroom.ts] and
    the state normalization of [src/lib/storage.ts], over [src/types.ts].

    Modelling conventions.
    - A JavaScript [number] that the engine uses as a count or an index is an
      integer [Z] (or a [nat] where the source can only produce a length); the
      one sum that can leave the range in which doubles add integers exactly,
      [rotationCount + 1], is rounded as a double ([addOne]).
    - A JavaScript string is the [string] of the bytes of its UTF-8 encoding;
      the white space of [trim()] and of [\s] is that of ECMAScript, whose
      characters take one to three bytes ([spaceWidth]).
    - A seat ([string | null]) is an [option string]; [None] is [null].
      JavaScript truthiness of a seat ([if (seat)]) is [truthy]: [null] and the
      empty string are falsy.
    - A [Set<string>] is a [gset string].
    - [now()], [createId()] and [Math.random()] read the environment; the
      reading is an explicit argument of the operation that performs it.
    - [JSON.parse] and the date parser of [new Date(s)] are built-ins; they
      are parameters of the functions that call them. *)

From Stdlib Require Import ZArith Lia Ascii.
From stdpp Require Import base option list gmap sets strings pretty.

Set Default Proof Using "Type".

(** ** Data model ([src/types.ts]) *)

Module LayoutMode.
Inductive t := THREE_ROWS | GROUPS | ARC.
#[global] Instance eq_dec : EqDecision t.
Proof. solve_decision. Defined.
End LayoutMode.

Module TimeMode.
Inductive t := weekday | weekend.
#[global] Instance eq_dec : EqDecision t.
Proof. solve_decision. Defined.
End TimeMode.

Module Student.
Record t := mk { id : string; name : string }.
#[global] Instance eq_dec : EqDecision t.
Proof. solve_decision. Defined.
End Student.

(** A seat slot: [Some i] holds student id [i], [None] is [null]. *)
Abbreviation Seat := (option string).

Module TimeModeConfig.
Record t := mk {
  layoutMode : LayoutMode.t;
  rows : Z;
  cols : Z;
  seats : list Seat;
  rotationCount : Z;
  weekLabel : string;
  classTime : string;
}.
#[global] Instance eq_dec : EqDecision t.
Proof. solve_decision. Defined.
End TimeModeConfig.

Module Classroom.
Record t := mk {
  id : string;
  name : string;
  students : list Student.t;
  campus : string;
  building : string;
  room : string;
  sideNotes : string;
  updatedAt : string;
  weekday : TimeModeConfig.t;
  weekend : TimeModeConfig.t;
}.
#[global] Instance eq_dec : EqDecision t.
Proof. solve_decision. Defined.
End Classroom.

Module AppState.
Record t := mk {
  version : Z;
  classrooms : list Classroom.t;
  activeClassroomId : option string;
  activeTimeMode : TimeMode.t;
}.
#[global] Instance eq_dec : EqDecision t.
Proof. solve_decision. Defined.
End AppState.

Module LayoutMetrics.
Record t := mk {
  mode : LayoutMode.t;
  rows : Z;
  cols : Z;
  groupCount : Z;
  capacity : Z;
}.
End LayoutMetrics.

(** [classroom[timeMode]] and [{...classroom, [timeMode]: config}]. *)
Definition getConfig (classroom : Classroom.t) (timeMode : TimeMode.t) : TimeModeConfig.t :=
  match timeMode with
  | TimeMode.weekday => Classroom.weekday classroom
  | TimeMode.weekend => Classroom.weekend classroom
  end.

Definition setConfig (classroom : Classroom.t) (timeMode : TimeMode.t)
    (config : TimeModeConfig.t) : Classroom.t :=
  match timeMode with
  | TimeMode.weekday =>
      Classroom.mk (Classroom.id classroom) (Classroom.name classroom)
        (Classroom.students classroom) (Classroom.campus classroom)
        (Classroom.building classroom) (Classroom.room classroom)
        (Classroom.sideNotes classroom) (Classroom.updatedAt classroom)
        config (Classroom.weekend classroom)
  | TimeMode.weekend =>
      Classroom.mk (Classroom.id classroom) (Classroom.name classroom)
        (Classroom.students classroom) (Classroom.campus classroom)
        (Classroom.building classroom) (Classroom.room classroom)
        (Classroom.sideNotes classroom) (Classroom.updatedAt classroom)
        (Classroom.weekday classroom) config
  end.

(** [{...classroom, updatedAt: t}]. *)
Definition setUpdatedAt (classroom : Classroom.t) (t : string) : Classroom.t :=
  Classroom.mk (Classroom.id classroom) (Classroom.name classroom)
    (Classroom.students classroom) (Classroom.campus classroom)
    (Classroom.building classroom) (Classroom.room classroom)
    (Classroom.sideNotes classroom) t
    (Classroom.weekday classroom) (Classroom.weekend classroom).

(** [{...classroom, students}]. *)
Definition setStudents (classroom : Classroom.t) (students : list Student.t) : Classroom.t :=
  Classroom.mk (Classroom.id classroom) (Classroom.name classroom)
    students (Classroom.campus classroom)
    (Classroom.building classroom) (Classroom.room classroom)
    (Classroom.sideNotes classroom) (Classroom.updatedAt classroom)
    (Classroom.weekday classroom) (Classroom.weekend classroom).

(** [{...config, seats}] and [{...config, rotationCount}]. *)
Definition setSeats (config : TimeModeConfig.t) (seats : list Seat) : TimeModeConfig.t :=
  TimeModeConfig.mk (TimeModeConfig.layoutMode config) (TimeModeConfig.rows config)
    (TimeModeConfig.cols config) seats (TimeModeConfig.rotationCount config)
    (TimeModeConfig.weekLabel config) (TimeModeConfig.classTime config).

Definition setRotationCount (config : TimeModeConfig.t) (n : Z) : TimeModeConfig.t :=
  TimeModeConfig.mk (TimeModeConfig.layoutMode config) (TimeModeConfig.rows config)
    (TimeModeConfig.cols config) (TimeModeConfig.seats config) n
    (TimeModeConfig.weekLabel config) (TimeModeConfig.classTime config).

(** JavaScript truthiness of a [string | null] value. *)
Definition truthy (seat : Seat) : bool :=
  match seat with
  | Some s => negb (String.eqb s "")
  | None => false
  end.

(** ** Constants ([classroom.ts], lines 3-16) *)

Definition MIN_SIZE : Z := 1.
Definition MAX_SIZE : Z := 14.
Definition MIN_GROUPS : Z := 3.
Definition MAX_GROUPS : Z := 6.
Definition GROUP_CAPACITY : Z := 6.
Definition GROUP_ROWS : Z := 3.
Definition GROUP_ROW_SIZE : Z := 2.
Definition THREE_ROWS : Z := 3.
Definition DEFAULT_THREE_ROW_COLS : Z := 6.
Definition MAX_THREE_ROW_COLS : Z := 12.
Definition ARC_ROWS : Z := 2.
Definition ARC_COLS : Z := 18.
Definition MAX_STUDENTS : Z := 36.

(** ** Geometry calculator *)

Section Geometry.
Local Open Scope Z_scope.

(** [Math.ceil(a / b)] on integers, for a positive divisor: the ceiling of
    the exact quotient is minus the floor of its opposite. *)
Definition ceilDiv (a b : Z) : Z := - ((- a) / b).

Definition getGroupCountBySize (studentCount : Z) : Z :=
  if studentCount <=? 0 then MIN_GROUPS
  else Z.max MIN_GROUPS (Z.min MAX_GROUPS (ceilDiv studentCount GROUP_CAPACITY)).

(** [Array.from({ length: n }, (_, i) => i)]. *)
Definition range (n : Z) : list Z := Z.of_nat <$> seq 0 (Z.to_nat n).

Definition getActiveGroupIndices (groupCount : Z) : list Z :=
  if groupCount =? 4 then [0; 1; 2; 4] else range groupCount.

Definition getLayoutMetrics (layoutMode : LayoutMode.t) (studentCount : Z) : LayoutMetrics.t :=
  match layoutMode with
  | LayoutMode.GROUPS =>
      let groupCount := getGroupCountBySize studentCount in
      {| LayoutMetrics.mode := layoutMode;
         LayoutMetrics.rows := groupCount * GROUP_ROWS;
         LayoutMetrics.cols := GROUP_ROW_SIZE;
         LayoutMetrics.groupCount := groupCount;
         LayoutMetrics.capacity := MAX_GROUPS * GROUP_CAPACITY |}
  | LayoutMode.ARC =>
      {| LayoutMetrics.mode := layoutMode;
         LayoutMetrics.rows := ARC_ROWS;
         LayoutMetrics.cols := ARC_COLS;
         LayoutMetrics.groupCount := 0;
         LayoutMetrics.capacity := ARC_ROWS * ARC_COLS |}
  | LayoutMode.THREE_ROWS =>
      let basis := if 0 <? studentCount then studentCount
                   else DEFAULT_THREE_ROW_COLS * THREE_ROWS in
      let cols := Z.max MIN_SIZE (Z.min MAX_THREE_ROW_COLS (ceilDiv basis THREE_ROWS)) in
      {| LayoutMetrics.mode := layoutMode;
         LayoutMetrics.rows := THREE_ROWS;
         LayoutMetrics.cols := cols;
         LayoutMetrics.groupCount := 0;
         LayoutMetrics.capacity := THREE_ROWS * cols |}
  end.

(** The spec's wording of the group count: [clamp(ceil(n / 6), 3, 6)], where
    [clamp(x, lo, hi)] bounds [x] from below by [lo] and from above by [hi]. *)
Definition clamp (x lo hi : Z) : Z :=
  if x <? lo then lo else if hi <? x then hi else x.

Definition specGroupCount (n : Z) : Z := clamp (ceilDiv n 6) 3 6.

End Geometry.

(** ** Geometry: facts *)

Section GeometryFacts.
Local Open Scope Z_scope.

Lemma ceilDiv_bounds a b :
  0 < b -> b * (ceilDiv a b - 1) < a <= b * ceilDiv a b.
Proof.
  intros Hb. unfold ceilDiv.
  pose proof (Z.div_mod (- a) b ltac:(lia)) as Hdm.
  pose proof (Z.mod_pos_bound (- a) b Hb) as Hm.
  nia.
Qed.

Lemma ceilDiv_small n : 0 <= n -> n <= 6 * ceilDiv n 6 /\ (n = 0 -> ceilDiv n 6 = 0).
Proof.
  intros Hn. pose proof (ceilDiv_bounds n 6 ltac:(lia)). split; [lia|].
  intros ->. reflexivity.
Qed.

Lemma getLayoutMetrics_mode layoutMode n :
  LayoutMetrics.mode (getLayoutMetrics layoutMode n) = layoutMode.
Proof. by destruct layoutMode. Qed.

Lemma getLayoutMetrics_capacity_nonneg layoutMode n :
  0 <= LayoutMetrics.capacity (getLayoutMetrics layoutMode n).
Proof.
  destruct layoutMode; cbn; unfold THREE_ROWS, MIN_SIZE, MAX_THREE_ROW_COLS,
    MAX_GROUPS, GROUP_CAPACITY, ARC_ROWS, ARC_COLS; lia.
Qed.

Lemma three_rows_capacity n :
  LayoutMetrics.capacity (getLayoutMetrics LayoutMode.THREE_ROWS n) =
  3 * LayoutMetrics.cols (getLayoutMetrics LayoutMode.THREE_ROWS n).
Proof. reflexivity. Qed.

(** C3: for every layout mode and every student count [n >= 0] the capacity
    computed by [getLayoutMetrics] is at least [min n 36]; in [GROUPS] mode
    it is exactly 36 whatever [n] is, and [groupCount] is [ceil(n/6)] clamped
    to [3, 6], which is 3 for [n = 0]. *)
Theorem getLayoutMetrics_capacity_invariant (layoutMode : LayoutMode.t) (n : Z) :
  0 <= n ->
  Z.min n 36 <= LayoutMetrics.capacity (getLayoutMetrics layoutMode n) /\
  LayoutMetrics.capacity (getLayoutMetrics LayoutMode.GROUPS n) = 36 /\
  LayoutMetrics.groupCount (getLayoutMetrics LayoutMode.GROUPS n) = specGroupCount n /\
  LayoutMetrics.groupCount (getLayoutMetrics LayoutMode.GROUPS 0) = 3.
Proof.
  intros Hn. split; [|split; [reflexivity|split; [|reflexivity]]].
  - destruct layoutMode; cbn.
    + unfold THREE_ROWS, MIN_SIZE, MAX_THREE_ROW_COLS, DEFAULT_THREE_ROW_COLS.
      destruct (Z.ltb_spec 0 n) as [Hpos|Hz].
      * pose proof (ceilDiv_bounds n 3 ltac:(lia)). lia.
      * assert (n = 0) as -> by lia. vm_compute. discriminate.
    + unfold MAX_GROUPS, GROUP_CAPACITY. lia.
    + unfold ARC_ROWS, ARC_COLS. lia.
  - cbn. unfold getGroupCountBySize, specGroupCount, clamp,
      MIN_GROUPS, MAX_GROUPS, GROUP_CAPACITY.
    destruct (Z.leb_spec n 0) as [Hz|Hpos].
    + assert (n = 0) as -> by lia. reflexivity.
    + pose proof (ceilDiv_bounds n 6 ltac:(lia)).
      destruct (Z.ltb_spec (ceilDiv n 6) 3), (Z.ltb_spec 6 (ceilDiv n 6)); lia.
Qed.

Lemma getLayoutMetrics_capacity_invariant_witness :
  (Z.min 20 36 <= LayoutMetrics.capacity (getLayoutMetrics LayoutMode.THREE_ROWS 20) /\
   LayoutMetrics.capacity (getLayoutMetrics LayoutMode.GROUPS 20) = 36 /\
   LayoutMetrics.groupCount (getLayoutMetrics LayoutMode.GROUPS 20) = specGroupCount 20 /\
   LayoutMetrics.groupCount (getLayoutMetrics LayoutMode.GROUPS 0) = 3)%Z.
Proof. apply (getLayoutMetrics_capacity_invariant LayoutMode.THREE_ROWS 20). lia. Defined.

End GeometryFacts.

(** ** Arrays and strings: the JavaScript primitives the engine relies on *)

Section Arrays.
Local Open Scope Z_scope.

(** [seats[i]] read on an array of seats. An index outside the array reads
    [undefined] in JavaScript; the seat type has no such value and the model
    returns [None] there. Every read the engine performs is within bounds
    (see [withLayout_seats_length] and the rotation lemmas). *)
Definition arrayRead (seats : list Seat) (i : Z) : Seat :=
  if i <? 0 then None else default None (seats !! Z.to_nat i).

(** [seats[i] = v]. Inside the array the slot is replaced. Past the end
    JavaScript extends the array, leaving holes before the written slot (the
    model fills them with [None]); a negative index creates a property that is
    not an element, so the elements are unchanged. *)
Definition arrayWrite (seats : list Seat) (i : Z) (v : Seat) : list Seat :=
  if i <? 0 then seats
  else if i <? Z.of_nat (length seats) then <[Z.to_nat i := v]> seats
  else seats ++ replicate (Z.to_nat i - length seats)%nat None ++ [v].

(** [l.slice(start, end)] with JavaScript's relative (negative) indices. *)
Definition slice {A} (l : list A) (start end_ : Z) : list A :=
  let len := Z.of_nat (length l) in
  let k := if start <? 0 then Z.max (len + start) 0 else Z.min start len in
  let final := if end_ <? 0 then Z.max (len + end_) 0 else Z.min end_ len in
  take (Z.to_nat (final - k)) (drop (Z.to_nat k) l).

(** [l.slice(start)]. *)
Definition sliceFrom {A} (l : list A) (start : Z) : list A :=
  slice l start (Z.of_nat (length l)).

(** [[...l.slice(1), l[0]]] for a non-empty [l]; the engine evaluates it only
    under the guard [l.length > 1]. *)
Definition firstToLast {A} (l : list A) : list A :=
  sliceFrom l 1 ++ take 1 l.

Definition createEmptySeats (capacity : Z) : list Seat :=
  replicate (Z.to_nat (Z.max 0 capacity)) None.

End Arrays.

Section Strings.

(** A JavaScript string is represented by the bytes of its UTF-8 encoding (a
    lone surrogate by the three bytes of its code unit), so that equal
    strings are equal byte sequences. The white space of [\s] and of
    [String.prototype.trim] is the WhiteSpace and LineTerminator of
    ECMAScript: U+0009..U+000D and U+0020 (one byte), U+00A0 (two bytes),
    U+1680, U+2000..U+200A, U+2028, U+2029, U+202F, U+205F, U+3000 and
    U+FEFF (three bytes). *)
Definition isSpace1 (a : N) : bool := ((9 <=? a) && (a <=? 13) || (a =? 32))%N.

Definition isSpace2 (a b : N) : bool := ((a =? 194) && (b =? 160))%N.

Definition isSpace3 (a b c : N) : bool :=
  ((a =? 225) && (b =? 154) && (c =? 128)
   || (a =? 226) && (b =? 128) &&
      ((128 <=? c) && (c <=? 138) || (c =? 168) || (c =? 169) || (c =? 175))
   || (a =? 226) && (b =? 129) && (c =? 159)
   || (a =? 227) && (b =? 128) && (c =? 128)
   || (a =? 239) && (b =? 187) && (c =? 191))%N.

(** The number of bytes of the white space character that the bytes start
    with, 0 when they start with none. *)
Definition spaceWidth (l : list ascii) : nat :=
  match l with
  | a :: r =>
      if isSpace1 (N_of_ascii a) then 1
      else
        match r with
        | b :: r' =>
            if isSpace2 (N_of_ascii a) (N_of_ascii b) then 2
            else
              match r' with
              | c :: _ =>
                  if isSpace3 (N_of_ascii a) (N_of_ascii b) (N_of_ascii c) then 3 else 0
              | [] => 0
              end
        | [] => 0
        end
  | [] => 0
  end%nat.

(** The bytes cut into characters as far as white space is concerned: a
    white space character is one item, every other byte an item of its own. *)
Fixpoint glyphs (l : list ascii) : list (list ascii) :=
  match l with
  | [] => []
  | a :: r =>
      match spaceWidth l, r with
      | 3%nat, b :: c :: r' => [a; b; c] :: glyphs r'
      | 2%nat, b :: r' => [a; b] :: glyphs r'
      | _, _ => [a] :: glyphs r
      end
  end.

Definition isSpace (c : list ascii) : bool := negb (spaceWidth c =? 0)%nat.

Fixpoint dropSpaces (l : list (list ascii)) : list (list ascii) :=
  match l with
  | c :: r => if isSpace c then dropSpaces r else l
  | [] => []
  end.

(** [s.trim()]. *)
Definition trim (s : string) : string :=
  String.string_of_list_ascii
    (concat (reverse (dropSpaces (reverse (dropSpaces
       (glyphs (String.list_ascii_of_string s))))))).

Fixpoint collapseRuns (inRun : bool) (l : list (list ascii)) : list (list ascii) :=
  match l with
  | c :: r =>
      if isSpace c then
        if inRun then collapseRuns true r else [" "%char] :: collapseRuns true r
      else c :: collapseRuns false r
  | [] => []
  end.

(** [s.replace(/\s+/g, ' ')]. *)
Definition collapseWhitespace (s : string) : string :=
  String.string_of_list_ascii
    (concat (collapseRuns false (glyphs (String.list_ascii_of_string s)))).

End Strings.

Section Numbers.
Local Open Scope Z_scope.

(** A [number] is a double. The counts and indices that the engine computes
    stay far below 2^53, where the doubles hold every integer and add them
    exactly. [rotationCount] is read from a backup as it is, so
    [rotationCount + 1] is the sum rounded to the nearest double, a tie going
    to the even significand: exact up to 2^53, and 2^53 + 1 is 2^53 again. *)
Definition roundToDouble (x : Z) : Z :=
  let magnitude := Z.abs x in
  if magnitude <=? 2 ^ 53 then x
  else
    let ulp := 2 ^ (Z.log2 magnitude - 52) in
    let q := magnitude / ulp in
    let r := magnitude mod ulp in
    let rounded :=
      if 2 * r <? ulp then q
      else if ulp <? 2 * r then q + 1
      else if Z.even q then q else q + 1 in
    Z.sgn x * (rounded * ulp).

(** [n + 1]. *)
Definition addOne (n : Z) : Z := roundToDouble (n + 1).

End Numbers.

(** ** Seat-order utilities *)

Section SeatOrder.
Local Open Scope Z_scope.

Definition uniqueNames (input : list string) : list string :=
  fst (foldl (fun '(names, seen) rawName =>
      let name := trim (collapseWhitespace rawName) in
      if String.eqb name "" then (names, seen)
      else if bool_decide (name ∈ seen) then (names, seen)
      else (names ++ [name], {[name]} ∪ seen))
    ([], (∅ : gset string)) input).

(** The body of the first loop of [getOrderedStudentIds], over the seats. *)
Definition orderSeat (validIds : gset string) (acc : list string * gset string)
    (studentId : Seat) : list string * gset string :=
  let '(ordered, seen) := acc in
  match studentId with
  | Some s =>
      if truthy studentId && bool_decide (s ∈ validIds) && negb (bool_decide (s ∈ seen))
      then (ordered ++ [s], {[s]} ∪ seen)
      else (ordered, seen)
  | None => (ordered, seen)
  end.

(** The body of its second loop, over the roster. *)
Definition orderStudent (acc : list string * gset string) (student : Student.t)
    : list string * gset string :=
  let '(ordered, seen) := acc in
  if negb (bool_decide (Student.id student ∈ seen))
  then (ordered ++ [Student.id student], {[Student.id student]} ∪ seen)
  else (ordered, seen).

Definition getOrderedStudentIds (students : list Student.t) (seats : list Seat) : list string :=
  let validIds : gset string := list_to_set (Student.id <$> students) in
  let afterSeats := foldl (orderSeat validIds) ([], ∅) seats in
  let afterStudents := foldl orderStudent afterSeats students in
  fst afterStudents.

Definition buildSeatsFromOrder (studentIds : list string) (capacity : Z) : list Seat :=
  foldl (fun seats '(index, studentId) => arrayWrite seats (Z.of_nat index) (Some studentId))
    (createEmptySeats capacity)
    (imap pair (slice studentIds 0 capacity)).

End SeatOrder.

(** ** Centered placement *)

Section Centered.
Local Open Scope Z_scope.

(** The variables of the [while] loop of [placeCentered]. *)
Record PlaceState := mkPlace {
  pSeats : list Seat;
  centerLeft : Z;
  centerRight : Z;
  useLeft : bool;
  idx : nat;
}.

(** The loop condition. *)
Definition placeGuard (studentIds : list string) (rowWidth : Z) (st : PlaceState) : bool :=
  (idx st <? length studentIds)%nat && ((0 <=? centerLeft st) || (centerRight st <? rowWidth)).

(** One execution of the loop body. *)
Definition placeBody (studentIds : list string) (startIndex rowWidth : Z)
    (st : PlaceState) : PlaceState :=
  if useLeft st && (0 <=? centerLeft st) then
    mkPlace (arrayWrite (pSeats st) (startIndex + centerLeft st) (studentIds !! idx st))
      (centerLeft st - 1) (centerRight st) (negb (useLeft st)) (S (idx st))
  else if negb (useLeft st) && (centerRight st <? rowWidth) then
    mkPlace (arrayWrite (pSeats st) (startIndex + centerRight st) (studentIds !! idx st))
      (centerLeft st) (centerRight st + 1) (negb (useLeft st)) (S (idx st))
  else
    mkPlace (pSeats st) (centerLeft st) (centerRight st) (negb (useLeft st)) (idx st).

(** The loop, run for at most [fuel] iterations: [Some] final state once the
    condition fails, [None] when the fuel is used up first. *)
Fixpoint placeLoop (fuel : nat) (studentIds : list string) (startIndex rowWidth : Z)
    (st : PlaceState) : option PlaceState :=
  if placeGuard studentIds rowWidth st then
    match fuel with
    | O => None
    | S fuel' => placeLoop fuel' studentIds startIndex rowWidth
                   (placeBody studentIds startIndex rowWidth st)
    end
  else Some st.

Definition placeInit (seats : list Seat) (rowWidth : Z) : PlaceState :=
  let centerLeft := (rowWidth - 1) / 2 in
  mkPlace seats centerLeft (centerLeft + 1) true 0.

(** [placeCentered] mutates [seats]; the model returns the array after the
    call. Two iterations place at least one id, so [2 * length + 1] iterations
    always suffice ([placeLoop_terminates]). *)
Definition placeCentered (seats : list Seat) (studentIds : list string)
    (startIndex rowWidth : Z) : list Seat :=
  match placeLoop (2 * length studentIds + 1) studentIds startIndex rowWidth
          (placeInit seats rowWidth) with
  | Some st => pSeats st
  | None => seats
  end.

(** The column of the [k]-th placed id in the spec's wording: outward from
    [centerLeft = floor((rowWidth-1)/2)] and [centerRight = centerLeft+1],
    alternating sides and starting with the left. *)
Definition centeredColumn (rowWidth : Z) (k : nat) : Z :=
  let centerLeft := (rowWidth - 1) / 2 in
  let centerRight := centerLeft + 1 in
  if Z.of_nat k mod 2 =? 0 then centerLeft - Z.of_nat k / 2
  else centerRight + Z.of_nat k / 2.

(** The writes the spec describes: id number [k] goes to [centeredColumn k],
    for as long as ids remain and a column of [[0, rowWidth)] is left. *)
Definition placeCenteredSpec (seats : list Seat) (studentIds : list string)
    (startIndex rowWidth : Z) : list Seat :=
  foldl (fun seats '(k, studentId) =>
      arrayWrite seats (startIndex + centeredColumn rowWidth k) (Some studentId))
    seats (imap pair (take (Z.to_nat rowWidth) studentIds)).

End Centered.

(** ** Generic facts about folds and array writes *)

Section FoldFacts.

Lemma foldl_ext_in {A B} (f g : A -> B -> A) (l : list B) (a : A) :
  (forall a x, x ∈ l -> f a x = g a x) -> foldl f a l = foldl g a l.
Proof.
  revert a. induction l as [|x l IH]; intros a Hfg; [done|].
  cbn. rewrite Hfg by left. apply IH. intros a' y Hy. apply Hfg. by right.
Qed.

(** A fold over the indexed elements of a list is a fold over its indices. *)
Lemma foldl_imap_pair {A B} (g : A -> nat -> option B -> A) (l : list B) (a : A) :
  foldl (fun a '(k, x) => g a k (Some x)) a (imap pair l) =
  foldl (fun a k => g a k (l !! k)) a (seq 0 (length l)).
Proof.
  induction l as [|x l IH] using rev_ind; [done|].
  rewrite imap_app, length_app, seq_app, !foldl_app. cbn.
  rewrite Nat.add_0_r, lookup_app_r, Nat.sub_diag by lia. cbn.
  rewrite IH. f_equal.
  apply foldl_ext_in. intros b k Hk. apply elem_of_seq in Hk.
  by rewrite lookup_app_l by lia.
Qed.

End FoldFacts.

(** ** Centered placement: the loop computes the spec's placement *)

Section CenteredFacts.
Local Open Scope Z_scope.

(** The loop variables after [k] ids have been placed on [seats]. *)
Definition placeStateAt (seats : list Seat) (rowWidth : Z) (k : nat) : PlaceState :=
  let centerLeft := (rowWidth - 1) / 2 in
  mkPlace seats (centerLeft - (Z.of_nat k + 1) / 2) (centerLeft + 1 + Z.of_nat k / 2)
    (Z.of_nat k mod 2 =? 0) k.

Lemma placeInit_stateAt seats rowWidth :
  placeInit seats rowWidth = placeStateAt seats rowWidth 0.
Proof.
  unfold placeInit, placeStateAt. change (Z.of_nat 0) with 0.
  change ((0 + 1) / 2) with 0. change (0 / 2) with 0. change (0 mod 2 =? 0) with true.
  f_equal; lia.
Qed.

Lemma placeGuard_continue ids rowWidth seats k :
  (k < length ids)%nat -> Z.of_nat k < rowWidth ->
  placeGuard ids rowWidth (placeStateAt seats rowWidth k) = true.
Proof.
  intros Hk Hw. unfold placeGuard, placeStateAt. cbn.
  apply andb_true_iff. split; [by apply Nat.ltb_lt|].
  apply orb_true_iff.
  destruct (Z.eqb_spec (Z.of_nat k mod 2) 0).
  - left. apply Z.leb_le. Z.to_euclidean_division_equations. lia.
  - right. apply Z.ltb_lt. Z.to_euclidean_division_equations. lia.
Qed.

Lemma placeGuard_exit ids rowWidth seats k :
  (length ids <= k)%nat \/ rowWidth <= Z.of_nat k ->
  placeGuard ids rowWidth (placeStateAt seats rowWidth k) = false.
Proof.
  intros Hk. unfold placeGuard, placeStateAt. cbn.
  apply andb_false_iff.
  destruct Hk as [Hk|Hk]; [left; by apply Nat.ltb_ge|right].
  apply orb_false_iff. split.
  - apply Z.leb_gt. Z.to_euclidean_division_equations. lia.
  - apply Z.ltb_ge. Z.to_euclidean_division_equations. lia.
Qed.

Lemma placeBody_step ids startIndex rowWidth seats k :
  (k < length ids)%nat -> Z.of_nat k < rowWidth ->
  placeBody ids startIndex rowWidth (placeStateAt seats rowWidth k) =
  placeStateAt
    (arrayWrite seats (startIndex + centeredColumn rowWidth k) (ids !! k))
    rowWidth (S k).
Proof.
  intros Hk Hw. unfold placeBody, placeStateAt, centeredColumn. cbn [useLeft centerLeft centerRight idx pSeats].
  rewrite Nat2Z.inj_succ.
  destruct (Z.eqb_spec (Z.of_nat k mod 2) 0) as [Hev|Hodd].
  - assert ((0 <=? (rowWidth - 1) / 2 - (Z.of_nat k + 1) / 2) = true) as ->.
    { apply Z.leb_le. Z.to_euclidean_division_equations. lia. }
    cbn [andb negb].
    assert ((Z.succ (Z.of_nat k) mod 2 =? 0) = false) as ->.
    { apply Z.eqb_neq. Z.to_euclidean_division_equations. lia. }
    f_equal.
    + f_equal. Z.to_euclidean_division_equations. lia.
    + Z.to_euclidean_division_equations. lia.
    + Z.to_euclidean_division_equations. lia.
  - cbn [andb negb].
    assert (((rowWidth - 1) / 2 + 1 + Z.of_nat k / 2 <? rowWidth) = true) as ->.
    { apply Z.ltb_lt. Z.to_euclidean_division_equations. lia. }
    assert ((Z.succ (Z.of_nat k) mod 2 =? 0) = true) as ->.
    { apply Z.eqb_eq. Z.to_euclidean_division_equations. lia. }
    f_equal.
    + Z.to_euclidean_division_equations. lia.
    + Z.to_euclidean_division_equations. lia.
Qed.

(** The writes of ids number [k], [k+1], ..., [k+n-1]. *)
Definition placeWrites (ids : list string) (startIndex rowWidth : Z)
    (seats : list Seat) (k n : nat) : list Seat :=
  foldl (fun seats j => arrayWrite seats (startIndex + centeredColumn rowWidth j) (ids !! j))
    seats (seq k n).

Lemma placeLoop_run ids startIndex rowWidth n : forall k seats fuel,
  (k + n = Nat.min (length ids) (Z.to_nat rowWidth))%nat ->
  (n <= fuel)%nat ->
  placeLoop fuel ids startIndex rowWidth (placeStateAt seats rowWidth k) =
  Some (placeStateAt (placeWrites ids startIndex rowWidth seats k n) rowWidth (k + n)).
Proof.
  induction n as [|n IH]; intros k seats fuel Hkn Hfuel.
  - rewrite Nat.add_0_r. unfold placeWrites. cbn [seq foldl].
    destruct fuel; cbn [placeLoop]; rewrite placeGuard_exit; try done; lia.
  - destruct fuel as [|fuel]; [lia|]. cbn [placeLoop].
    rewrite placeGuard_continue by lia.
    rewrite placeBody_step by lia.
    rewrite IH by lia.
    unfold placeWrites. cbn [seq foldl]. do 2 f_equal. lia.
Qed.

Lemma placeLoop_terminates seats ids startIndex rowWidth :
  is_Some (placeLoop (2 * length ids + 1) ids startIndex rowWidth (placeInit seats rowWidth)).
Proof.
  rewrite placeInit_stateAt.
  erewrite (placeLoop_run ids startIndex rowWidth
              (Nat.min (length ids) (Z.to_nat rowWidth)) 0%nat); [done|lia|lia].
Qed.

Lemma placeCentered_writes seats ids startIndex rowWidth :
  placeCentered seats ids startIndex rowWidth =
  placeWrites ids startIndex rowWidth seats 0 (Nat.min (length ids) (Z.to_nat rowWidth)).
Proof.
  unfold placeCentered. rewrite placeInit_stateAt.
  by erewrite (placeLoop_run ids startIndex rowWidth
              (Nat.min (length ids) (Z.to_nat rowWidth)) 0%nat) by lia.
Qed.

(** C6: [placeCentered] fills the row outward from
    [centerLeft = floor((rowWidth-1)/2)] and [centerRight = centerLeft + 1],
    alternating sides and starting with the left (the [k]-th id lands in
    column [centeredColumn rowWidth k]), until the ids are exhausted or no
    column of [[0, rowWidth)] is left; the loop always terminates. For
    [rowWidth = 18] and four ids at offset 0 the ids land in columns 8, 9, 7
    and 10, in that order. *)
Theorem placeCentered_centered_out :
  (forall seats ids startIndex rowWidth,
     is_Some (placeLoop (2 * length ids + 1) ids startIndex rowWidth (placeInit seats rowWidth)) /\
     placeCentered seats ids startIndex rowWidth =
     placeCenteredSpec seats ids startIndex rowWidth) /\
  (centeredColumn 18 0 = 8 /\ centeredColumn 18 1 = 9 /\
   centeredColumn 18 2 = 7 /\ centeredColumn 18 3 = 10) /\
  (forall a b c d : string,
     placeCentered (createEmptySeats 18) [a; b; c; d] 0 18 =
     replicate 7 None ++ [Some c; Some a; Some b; Some d] ++ replicate 7 None).
Proof.
  split; [|split; [by vm_compute|reflexivity]].
  intros seats ids startIndex rowWidth. split; [apply placeLoop_terminates|].
  rewrite placeCentered_writes. unfold placeCenteredSpec, placeWrites.
  rewrite (foldl_imap_pair
    (fun seats k x => arrayWrite seats (startIndex + centeredColumn rowWidth k) x)).
  rewrite length_take, Nat.min_comm.
  apply foldl_ext_in. intros s k Hk. apply elem_of_seq in Hk.
  by rewrite lookup_take_lt by lia.
Qed.

End CenteredFacts.

(** ** Config helpers and the layout reconciler *)

Section Layout.
Local Open Scope Z_scope.

Definition createEmptyConfig (layoutMode : LayoutMode.t) (studentCount : Z) : TimeModeConfig.t :=
  let metrics := getLayoutMetrics layoutMode studentCount in
  {| TimeModeConfig.layoutMode := layoutMode;
     TimeModeConfig.rows := LayoutMetrics.rows metrics;
     TimeModeConfig.cols := LayoutMetrics.cols metrics;
     TimeModeConfig.seats := createEmptySeats (LayoutMetrics.capacity metrics);
     TimeModeConfig.rotationCount := 0;
     TimeModeConfig.weekLabel := "第1周";
     TimeModeConfig.classTime := "" |}.

Definition withLayout (config : TimeModeConfig.t) (layoutMode : LayoutMode.t)
    (students : list Student.t) : TimeModeConfig.t :=
  let metrics := getLayoutMetrics layoutMode (Z.of_nat (length students)) in
  match layoutMode with
  | LayoutMode.ARC =>
      let ordered := getOrderedStudentIds students (TimeModeConfig.seats config) in
      let seats := createEmptySeats (LayoutMetrics.capacity metrics) in
      let half := ceilDiv (Z.of_nat (length ordered)) 2 in
      let firstRow := slice ordered 0 half in
      let secondRow := sliceFrom ordered half in
      let seats := placeCentered seats firstRow 0 ARC_COLS in
      let seats := placeCentered seats secondRow ARC_COLS ARC_COLS in
      {| TimeModeConfig.layoutMode := layoutMode;
         TimeModeConfig.rows := LayoutMetrics.rows metrics;
         TimeModeConfig.cols := LayoutMetrics.cols metrics;
         TimeModeConfig.seats := seats;
         TimeModeConfig.rotationCount := TimeModeConfig.rotationCount config;
         TimeModeConfig.weekLabel := TimeModeConfig.weekLabel config;
         TimeModeConfig.classTime := TimeModeConfig.classTime config |}
  | _ =>
      let seats :=
        buildSeatsFromOrder (getOrderedStudentIds students (TimeModeConfig.seats config))
          (LayoutMetrics.capacity metrics) in
      {| TimeModeConfig.layoutMode := layoutMode;
         TimeModeConfig.rows := LayoutMetrics.rows metrics;
         TimeModeConfig.cols := LayoutMetrics.cols metrics;
         TimeModeConfig.seats := seats;
         TimeModeConfig.rotationCount := TimeModeConfig.rotationCount config;
         TimeModeConfig.weekLabel := TimeModeConfig.weekLabel config;
         TimeModeConfig.classTime := TimeModeConfig.classTime config |}
  end.

End Layout.

(** ** Rotation engine *)

Section Rotation.
Local Open Scope Z_scope.

(** [l.filter((s): s is string => s !== null)]. *)
Definition nonNull (l : list Seat) : list Seat := filter (fun s : Seat => s <> None) l.

(** [for (let i = 0; i < n; i++) l[off + i] = i < rotated.length ? rotated[i] : null]. *)
Definition refill (l : list Seat) (off : Z) (n : Z) (rotated : list Seat) : list Seat :=
  foldl (fun l i =>
      arrayWrite l (off + i)
        (if i <? Z.of_nat (length rotated) then arrayRead rotated i else None))
    l (range n).

Definition rotateGroupLayout (config : TimeModeConfig.t) (students : list Student.t)
    : TimeModeConfig.t :=
  let normalized := withLayout config LayoutMode.GROUPS students in
  let groupCount := getGroupCountBySize (Z.of_nat (length students)) in
  let activeIndices := getActiveGroupIndices groupCount in
  let nextSeats :=
    foldl (fun nextSeats groupIdx =>
        let start := groupIdx * GROUP_CAPACITY in
        let groupStudents :=
          foldl (fun groupStudents i => groupStudents ++ [arrayRead nextSeats (start + i)])
            [] (range GROUP_CAPACITY) in
        let nonEmpty := nonNull groupStudents in
        if 1 <? Z.of_nat (length nonEmpty) then
          let rotated := firstToLast nonEmpty in
          refill nextSeats start GROUP_CAPACITY rotated
        else nextSeats)
      (TimeModeConfig.seats normalized) activeIndices in
  setRotationCount (setSeats normalized nextSeats)
    (addOne (TimeModeConfig.rotationCount normalized)).

(** The body of the first loop of [rotateThreeRows]: the rotated row [row]
    ([left_] and [right_] are the source's [left] and [right]). *)
Definition rotateRow (seats : list Seat) (cols : Z) (row : Z) : list Seat :=
  let start := row * cols in
  let leftSize := ceilDiv cols 2 in
  let '(left_, right_) :=
    foldl (fun '(left_, right_) c =>
        if c <? leftSize then (left_ ++ [arrayRead seats (start + c)], right_)
        else (left_, right_ ++ [arrayRead seats (start + c)]))
      ([], []) (range cols) in
  let leftNonEmpty := nonNull left_ in
  let left_ :=
    if 1 <? Z.of_nat (length leftNonEmpty) then
      refill left_ 0 (Z.of_nat (length left_)) (firstToLast leftNonEmpty)
    else left_ in
  let rightNonEmpty := nonNull right_ in
  let right_ :=
    if 1 <? Z.of_nat (length rightNonEmpty) then
      refill right_ 0 (Z.of_nat (length right_)) (firstToLast rightNonEmpty)
    else right_ in
  left_ ++ right_.

Definition rotateThreeRows (config : TimeModeConfig.t) (students : list Student.t)
    : TimeModeConfig.t :=
  let normalized := withLayout config LayoutMode.THREE_ROWS students in
  let cols := TimeModeConfig.cols normalized in
  let nextSeats := createEmptySeats (Z.of_nat (length (TimeModeConfig.seats normalized))) in
  let rotatedRows :=
    foldl (fun rotatedRows row =>
        rotatedRows ++ [rotateRow (TimeModeConfig.seats normalized) cols row])
      [] (range THREE_ROWS) in
  let shifted :=
    [default [] (rotatedRows !! 1%nat); default [] (rotatedRows !! 2%nat);
     default [] (rotatedRows !! 0%nat)] in
  let nextSeats :=
    foldl (fun nextSeats row =>
        foldl (fun nextSeats c =>
            arrayWrite nextSeats (row * cols + c)
              (arrayRead (default [] (shifted !! Z.to_nat row)) c))
          nextSeats (range cols))
      nextSeats (range THREE_ROWS) in
  setRotationCount (setSeats normalized nextSeats)
    (addOne (TimeModeConfig.rotationCount normalized)).

(** [rowStudents]: the truthy entries of a row, as ids. *)
Definition collectRow (seats : list Seat) (start : Z) : list string :=
  foldl (fun rowStudents col =>
      let id := arrayRead seats (start + col) in
      match id with
      | Some s => if truthy id then rowStudents ++ [s] else rowStudents
      | None => rowStudents
      end)
    [] (range ARC_COLS).

Definition rotateArcLayout (config : TimeModeConfig.t) (students : list Student.t)
    : TimeModeConfig.t :=
  let normalized := withLayout config LayoutMode.ARC students in
  let nextSeats := createEmptySeats (Z.of_nat (length (TimeModeConfig.seats normalized))) in
  let nextSeats :=
    foldl (fun nextSeats row =>
        let start := row * ARC_COLS in
        let rowStudents := collectRow (TimeModeConfig.seats normalized) start in
        if 1 <? Z.of_nat (length rowStudents) then
          placeCentered nextSeats (firstToLast rowStudents) start ARC_COLS
        else
          placeCentered nextSeats rowStudents start ARC_COLS)
      nextSeats (range ARC_ROWS) in
  setRotationCount (setSeats normalized nextSeats)
    (addOne (TimeModeConfig.rotationCount normalized)).

End Rotation.

(** ** Public operations *)

Section Operations.
Local Open Scope Z_scope.

Definition getAssignedCount (config : TimeModeConfig.t) : Z :=
  foldl (fun total seat => if truthy seat then total + 1 else total) 0
    (TimeModeConfig.seats config).

Definition getUnassignedStudents (classroom : Classroom.t) (timeMode : TimeMode.t)
    : list Student.t :=
  let config := getConfig classroom timeMode in
  let assignedIds : gset string :=
    list_to_set (omap id (filter (fun seat => truthy seat = true) (TimeModeConfig.seats config))) in
  filter (fun student => Student.id student ∉ assignedIds) (Classroom.students classroom).

(** [createClassroom]: [newId] is the value of [createId()], [now] the value
    of [now()]. *)
Definition createClassroom (newId now : string) (name : string) : Classroom.t :=
  let defaultConfig := createEmptyConfig LayoutMode.GROUPS 0 in
  {| Classroom.id := newId;
     Classroom.name := name;
     Classroom.students := [];
     Classroom.campus := "";
     Classroom.building := "";
     Classroom.room := "";
     Classroom.sideNotes := "";
     Classroom.updatedAt := now;
     Classroom.weekday := defaultConfig;
     Classroom.weekend := defaultConfig |}.

(** [replaceStudents]: [createId k] is the value of the [k]-th call of
    [createId()] made by the [map] over the sanitized names. *)
Definition replaceStudents (createId : nat -> string) (now : string)
    (classroom : Classroom.t) (names : list string) (timeMode : TimeMode.t) : Classroom.t :=
  let sanitizedNames := slice (uniqueNames names) 0 MAX_STUDENTS in
  let students := imap (fun k name => Student.mk (createId k) name) sanitizedNames in
  let config := getConfig classroom timeMode in
  let metrics := getLayoutMetrics (TimeModeConfig.layoutMode config) (Z.of_nat (length students)) in
  let seats := buildSeatsFromOrder (Student.id <$> students) (LayoutMetrics.capacity metrics) in
  setUpdatedAt
    (setConfig (setStudents classroom students) timeMode
       {| TimeModeConfig.layoutMode := TimeModeConfig.layoutMode config;
          TimeModeConfig.rows := LayoutMetrics.rows metrics;
          TimeModeConfig.cols := LayoutMetrics.cols metrics;
          TimeModeConfig.seats := seats;
          TimeModeConfig.rotationCount := 0;
          TimeModeConfig.weekLabel := TimeModeConfig.weekLabel config;
          TimeModeConfig.classTime := TimeModeConfig.classTime config |})
    now.

Definition changeLayoutMode (now : string) (classroom : Classroom.t)
    (layoutMode : LayoutMode.t) (timeMode : TimeMode.t) : Classroom.t :=
  let config := getConfig classroom timeMode in
  let nextConfig := withLayout config layoutMode (Classroom.students classroom) in
  setUpdatedAt (setConfig classroom timeMode nextConfig) now.

Definition normalizeClassroomLayout (classroom : Classroom.t) (timeMode : TimeMode.t)
    : Classroom.t :=
  let config := getConfig classroom timeMode in
  let nextConfig :=
    withLayout config (TimeModeConfig.layoutMode config) (Classroom.students classroom) in
  setConfig classroom timeMode nextConfig.

Definition swapSeatAssignments (now : string) (classroom : Classroom.t)
    (first second : Z) (timeMode : TimeMode.t) : Classroom.t :=
  let config := getConfig classroom timeMode in
  let len := Z.of_nat (length (TimeModeConfig.seats config)) in
  if (first =? second) || (first <? 0) || (second <? 0) || (len <=? first) || (len <=? second)
  then classroom
  else
    let seats := TimeModeConfig.seats config in
    let atFirst := arrayRead seats second in
    let atSecond := arrayRead seats first in
    let seats := arrayWrite (arrayWrite seats first atFirst) second atSecond in
    setUpdatedAt (setConfig classroom timeMode (setSeats config seats)) now.

Definition clearSeat (now : string) (classroom : Classroom.t) (seatIndex : Z)
    (timeMode : TimeMode.t) : Classroom.t :=
  let config := getConfig classroom timeMode in
  if (seatIndex <? 0) || (Z.of_nat (length (TimeModeConfig.seats config)) <=? seatIndex)
  then classroom
  else
    let seats := arrayWrite (TimeModeConfig.seats config) seatIndex None in
    setUpdatedAt (setConfig classroom timeMode (setSeats config seats)) now.

Definition placeStudentInSeat (now : string) (classroom : Classroom.t) (studentId : string)
    (seatIndex : Z) (timeMode : TimeMode.t) : Classroom.t :=
  let config := getConfig classroom timeMode in
  if (seatIndex <? 0) || (Z.of_nat (length (TimeModeConfig.seats config)) <=? seatIndex)
  then classroom
  else if negb (existsb (fun student => String.eqb (Student.id student) studentId)
                  (Classroom.students classroom))
  then classroom
  else
    let seats :=
      (fun seat : Seat => if decide (seat = Some studentId) then None else seat)
        <$> TimeModeConfig.seats config in
    let seats := arrayWrite seats seatIndex (Some studentId) in
    setUpdatedAt (setConfig classroom timeMode (setSeats config seats)) now.

Definition rotateSeatsOnce (now : string) (classroom : Classroom.t) (timeMode : TimeMode.t)
    : Classroom.t :=
  let config := getConfig classroom timeMode in
  if getAssignedCount config <=? 1 then classroom
  else
    let nextConfig :=
      match TimeModeConfig.layoutMode config with
      | LayoutMode.THREE_ROWS => rotateThreeRows config (Classroom.students classroom)
      | LayoutMode.ARC => rotateArcLayout config (Classroom.students classroom)
      | LayoutMode.GROUPS => rotateGroupLayout config (Classroom.students classroom)
      end in
    setUpdatedAt (setConfig classroom timeMode nextConfig) now.

(** [[a[i], a[j]] = [a[j], a[i]]] on an array of ids, both indices in range. *)
Definition swapIds (ids : list string) (i j : nat) : list string :=
  match ids !! i, ids !! j with
  | Some x, Some y => <[j := x]> (<[i := y]> ids)
  | _, _ => ids
  end.

(** The Fisher-Yates loop of [randomizeSeats], [i] running from
    [length - 1] down to 1. [draw i] stands for the reading of
    [Math.random()] at step [i]: [Math.floor(Math.random() * (i + 1))] is an
    index of [[0, i]], modelled as [draw i mod (i + 1)]. *)
Fixpoint shuffleFrom (draw : nat -> nat) (i : nat) (ids : list string) : list string :=
  match i with
  | O => ids
  | S i' =>
      let randomIndex := (draw i mod (i + 1))%nat in
      shuffleFrom draw i' (swapIds ids i randomIndex)
  end.

Definition randomizeSeats (draw : nat -> nat) (now : string) (classroom : Classroom.t)
    (timeMode : TimeMode.t) : Classroom.t :=
  let config := getConfig classroom timeMode in
  let normalized :=
    withLayout config (TimeModeConfig.layoutMode config) (Classroom.students classroom) in
  let randomizedIds :=
    shuffleFrom draw (length (Classroom.students classroom) - 1)%nat
      (Student.id <$> Classroom.students classroom) in
  let nextSeats :=
    match TimeModeConfig.layoutMode config with
    | LayoutMode.ARC =>
        let nextSeats :=
          createEmptySeats (Z.of_nat (length (TimeModeConfig.seats normalized))) in
        let half := ceilDiv (Z.of_nat (length randomizedIds)) 2 in
        let nextSeats := placeCentered nextSeats (slice randomizedIds 0 half) 0 ARC_COLS in
        placeCentered nextSeats (sliceFrom randomizedIds half) ARC_COLS ARC_COLS
    | _ =>
        buildSeatsFromOrder randomizedIds (Z.of_nat (length (TimeModeConfig.seats normalized)))
    end in
  setUpdatedAt (setConfig classroom timeMode (setSeats normalized nextSeats)) now.

End Operations.

(** ** Facts about the array primitives *)

Section ArrayFacts.
Local Open Scope Z_scope.

Lemma arrayWrite_in_range (l : list Seat) (i : Z) (v : Seat) :
  0 <= i < Z.of_nat (length l) -> arrayWrite l i v = <[Z.to_nat i := v]> l.
Proof.
  intros Hi. unfold arrayWrite.
  destruct (Z.ltb_spec i 0); [lia|].
  destruct (Z.ltb_spec i (Z.of_nat (length l))); [done|lia].
Qed.

Lemma arrayWrite_nat (l : list Seat) (k : nat) (v : Seat) :
  (k < length l)%nat -> arrayWrite l (Z.of_nat k) v = <[k := v]> l.
Proof. intros Hk. rewrite arrayWrite_in_range by lia. by rewrite Nat2Z.id. Qed.

Lemma arrayRead_nat (l : list Seat) (k : nat) :
  arrayRead l (Z.of_nat k) = default None (l !! k).
Proof.
  unfold arrayRead. destruct (Z.ltb_spec (Z.of_nat k) 0); [lia|]. by rewrite Nat2Z.id.
Qed.

Lemma range_nat (n : nat) : range (Z.of_nat n) = Z.of_nat <$> seq 0 n.
Proof. unfold range. by rewrite Nat2Z.id. Qed.

Lemma range_length (n : Z) : length (range n) = Z.to_nat n.
Proof. unfold range. by rewrite length_fmap, length_seq. Qed.

Lemma slice_take {A} (l : list A) (n : Z) :
  0 <= n -> slice l 0 n = take (Z.to_nat n) l.
Proof.
  intros Hn. unfold slice.
  destruct (Z.ltb_spec 0 0); [lia|]. destruct (Z.ltb_spec n 0); [lia|].
  rewrite (Z.min_l 0) by lia. change (Z.to_nat 0) with 0%nat. rewrite drop_0, Z.sub_0_r.
  destruct (Z.le_ge_cases n (Z.of_nat (length l))).
  - by rewrite Z.min_l by lia.
  - rewrite Z.min_r, Nat2Z.id by lia. by rewrite !take_ge by lia.
Qed.

Lemma sliceFrom_drop {A} (l : list A) (n : Z) :
  0 <= n -> sliceFrom l n = drop (Z.to_nat n) l.
Proof.
  intros Hn. unfold sliceFrom, slice.
  destruct (Z.ltb_spec n 0); [lia|].
  destruct (Z.ltb_spec (Z.of_nat (length l)) 0); [lia|].
  rewrite (Z.min_l (Z.of_nat (length l))) by lia.
  destruct (Z.le_ge_cases n (Z.of_nat (length l))).
  - rewrite Z.min_l by lia. apply take_ge. rewrite length_drop. lia.
  - rewrite Z.min_r by lia. rewrite Nat2Z.id, !drop_ge by lia. by rewrite take_nil.
Qed.

Lemma firstToLast_eq {A} (l : list A) : firstToLast l = drop 1 l ++ take 1 l.
Proof. unfold firstToLast. by rewrite sliceFrom_drop by lia. Qed.

Lemma firstToLast_length {A} (l : list A) : length (firstToLast l) = length l.
Proof. rewrite firstToLast_eq, length_app, length_drop, length_take. lia. Qed.

Lemma firstToLast_perm {A} (l : list A) : firstToLast l ≡ₚ l.
Proof.
  rewrite firstToLast_eq. rewrite Permutation_app_comm. by rewrite take_drop.
Qed.

(** A loop that pushes [g i] for [i = 0 .. n-1] builds the list of the [g i]. *)
Lemma foldl_push {A} (g : Z -> A) (l : list Z) (acc : list A) :
  foldl (fun acc i => acc ++ [g i]) acc l = acc ++ (g <$> l).
Proof.
  revert acc. induction l as [|i l IH]; intros acc; cbn.
  - by rewrite app_nil_r.
  - rewrite IH. by rewrite <- app_assoc.
Qed.

(** Reading [n] consecutive seats starting at [off]. *)
Lemma read_segment (l : list Seat) (off n : nat) :
  (off + n <= length l)%nat ->
  (fun i => arrayRead l (Z.of_nat off + i)) <$> range (Z.of_nat n) = take n (drop off l).
Proof.
  intros Hlen. rewrite range_nat. rewrite <- list_fmap_compose.
  apply list_eq. intros k. rewrite list_lookup_fmap.
  destruct (decide (k < n)%nat) as [Hk|Hk].
  - rewrite lookup_seq_lt by done. cbn.
    rewrite <- Nat2Z.inj_add, arrayRead_nat.
    rewrite lookup_take_lt, lookup_drop by done.
    destruct (lookup_lt_is_Some_2 l (off + k)%nat ltac:(lia)) as [x Hx].
    by rewrite Hx.
  - rewrite lookup_seq_ge by lia. cbn. symmetry. apply lookup_ge_None.
    rewrite length_take, length_drop. lia.
Qed.

(** Writing [f i] to slot [off + i] for [i = 0 .. n-1], all within the array. *)
Lemma write_segment (f : Z -> Seat) (off n : nat) : forall (l : list Seat),
  (off + n <= length l)%nat ->
  foldl (fun l i => arrayWrite l (Z.of_nat off + i) (f i)) l (range (Z.of_nat n)) =
  take off l ++ (f <$> range (Z.of_nat n)) ++ drop (off + n) l.
Proof.
  induction n as [|n IH]; intros l Hlen.
  - rewrite Nat.add_0_r. change (range (Z.of_nat 0)) with (@nil Z). cbn [foldl fmap list_fmap app].
    by rewrite take_drop.
  - rewrite range_nat, seq_S, fmap_app, foldl_app, <- range_nat. cbn [fmap list_fmap foldl].
    rewrite IH by lia. rewrite fmap_app. cbn [fmap list_fmap].
    rewrite Nat.add_0_l, <- Nat2Z.inj_add.
    rewrite arrayWrite_nat.
    2:{ rewrite !length_app, length_take, length_fmap, range_length, length_drop. lia. }
    rewrite insert_app_r_alt by (rewrite length_take; lia).
    rewrite length_take, Nat.min_l by lia.
    rewrite insert_app_r_alt by (rewrite length_fmap, range_length; lia).
    rewrite length_fmap, range_length, Nat2Z.id.
    replace (off + n - off - n)%nat with 0%nat by lia.
    destruct (lookup_lt_is_Some_2 l (off + n)%nat ltac:(lia)) as [x Hx].
    rewrite (drop_S _ _ _ Hx). cbn.
    rewrite <- !app_assoc. cbn. do 3 f_equal. f_equal. lia.
Qed.

Lemma refill_eq (l rotated : list Seat) (off n : nat) :
  (off + n <= length l)%nat -> (length rotated <= n)%nat ->
  refill l (Z.of_nat off) (Z.of_nat n) rotated =
  take off l ++ (rotated ++ replicate (n - length rotated) None) ++ drop (off + n) l.
Proof.
  intros Hlen Hrot. unfold refill. rewrite write_segment by done.
  do 2 f_equal. rewrite range_nat, <- list_fmap_compose.
  apply list_eq. intros k. rewrite list_lookup_fmap.
  destruct (decide (k < n)%nat) as [Hk|Hk].
  - rewrite lookup_seq_lt by done. cbn.
    destruct (Z.ltb_spec (Z.of_nat k) (Z.of_nat (length rotated))).
    + rewrite arrayRead_nat, lookup_app_l by lia.
      destruct (lookup_lt_is_Some_2 rotated k ltac:(lia)) as [x Hx]. by rewrite Hx.
    + rewrite lookup_app_r by lia. symmetry. apply lookup_replicate_2. lia.
  - rewrite lookup_seq_ge by lia. cbn. symmetry. apply lookup_ge_None.
    rewrite length_app, length_replicate. lia.
Qed.

Lemma createEmptySeats_nat (n : nat) : createEmptySeats (Z.of_nat n) = replicate n None.
Proof. unfold createEmptySeats. by rewrite Z.max_r, Nat2Z.id by lia. Qed.

End ArrayFacts.

(** ** Seat building: closed forms *)

Section BuildFacts.
Local Open Scope Z_scope.

Lemma write_prefix_ids (ids : list string) : forall (l : list Seat),
  (length ids <= length l)%nat ->
  foldl (fun s k => arrayWrite s (Z.of_nat k) (ids !! k)) l (seq 0 (length ids)) =
  (Some <$> ids) ++ drop (length ids) l.
Proof.
  induction ids as [|x ids IH] using rev_ind; intros l Hlen; [done|].
  rewrite length_app in *. cbn [length] in *.
  rewrite seq_app, foldl_app. cbn [seq foldl]. rewrite Nat.add_0_l.
  rewrite (foldl_ext_in _ (fun s k => arrayWrite s (Z.of_nat k) (ids !! k))).
  2:{ intros s k Hk. apply elem_of_seq in Hk. by rewrite lookup_app_l by lia. }
  rewrite IH by lia.
  rewrite lookup_app_r, Nat.sub_diag by lia. cbn [lookup list_lookup].
  rewrite arrayWrite_nat by (rewrite length_app, length_fmap, length_drop; lia).
  rewrite insert_app_r_alt by (rewrite length_fmap; lia).
  rewrite length_fmap, Nat.sub_diag.
  destruct (lookup_lt_is_Some_2 l (length ids) ltac:(lia)) as [y Hy].
  rewrite (drop_S _ _ _ Hy). cbn. rewrite fmap_app. cbn.
  rewrite <- app_assoc. cbn. do 3 f_equal. lia.
Qed.

(** [buildSeatsFromOrder] fills the ids from the left and truncates at
    the capacity. *)
Lemma buildSeatsFromOrder_eq (ids : list string) (capacity : nat) :
  buildSeatsFromOrder ids (Z.of_nat capacity) =
  (Some <$> take capacity ids) ++ replicate (capacity - length ids) None.
Proof.
  unfold buildSeatsFromOrder.
  rewrite slice_take, Nat2Z.id, createEmptySeats_nat by lia.
  rewrite (foldl_imap_pair (fun s k x => arrayWrite s (Z.of_nat k) x)).
  rewrite write_prefix_ids by (rewrite length_take, length_replicate; lia).
  rewrite drop_replicate, length_take. do 2 f_equal. lia.
Qed.

Lemma buildSeatsFromOrder_length (ids : list string) (capacity : nat) :
  length (buildSeatsFromOrder ids (Z.of_nat capacity)) = capacity.
Proof.
  rewrite buildSeatsFromOrder_eq, length_app, length_fmap, length_take, length_replicate. lia.
Qed.

End BuildFacts.

(** ** THREE_ROWS rotation: the code against the spec's two steps *)

Section ThreeRowsSpec.
Local Open Scope Z_scope.

(** Rotating the non-empty occupants of a run of seats by one position
    (first to last): the occupants are collected in seat order; when there
    are at least two, the first moves behind the others and the trailing
    slots are left empty. *)
Definition shiftOccupants (half : list Seat) : list Seat :=
  match nonNull half with
  | first :: (second :: others) =>
      (second :: others) ++ [first] ++
        replicate (length half - length (first :: second :: others)) None
  | _ => half
  end.

(** Step 1 on one row: the left half of [ceil(cols/2)] seats and the right
    half are shifted independently. *)
Definition shiftRow (cols : nat) (row : list Seat) : list Seat :=
  let leftSize := Z.to_nat (ceilDiv (Z.of_nat cols) 2) in
  shiftOccupants (take leftSize row) ++ shiftOccupants (drop leftSize row).

(** Row [r] of a grid with [cols] columns. *)
Definition gridRow (cols : nat) (seats : list Seat) (r : nat) : list Seat :=
  take cols (drop (r * cols) seats).

(** Step 2: new row 0 is old row 1, new row 1 is old row 2, new row 2 is
    old row 0 (the old rows taken after step 1). *)
Definition threeRowsSpec (cols : nat) (seats : list Seat) : list Seat :=
  shiftRow cols (gridRow cols seats 1) ++
  shiftRow cols (gridRow cols seats 2) ++
  shiftRow cols (gridRow cols seats 0).

End ThreeRowsSpec.

Section ThreeRowsFacts.
Local Open Scope Z_scope.

Lemma split_loop (g : Z -> Seat) (k : nat) (n : nat) :
  foldl (fun '(left_, right_) c =>
      if c <? Z.of_nat k then (left_ ++ [g c], right_) else (left_, right_ ++ [g c]))
    ([], []) (range (Z.of_nat n)) =
  (take k (g <$> range (Z.of_nat n)), drop k (g <$> range (Z.of_nat n))).
Proof.
  induction n as [|n IH].
  { change (range (Z.of_nat 0)) with (@nil Z). cbn. by rewrite take_nil, drop_nil. }
  rewrite range_nat, seq_S, !fmap_app, foldl_app, <- range_nat, IH.
  cbn [fmap list_fmap foldl]. rewrite Nat.add_0_l.
  assert (length (g <$> range (Z.of_nat n)) = n) as Hlen
    by (by rewrite length_fmap, range_length, Nat2Z.id).
  destruct (Z.ltb_spec (Z.of_nat n) (Z.of_nat k)).
  - rewrite (take_ge (_ ++ _)) by (rewrite length_app, Hlen; cbn; lia).
    rewrite (take_ge (g <$> _)) by lia.
    rewrite !drop_ge; [done|rewrite length_app, Hlen; cbn; lia|lia].
  - rewrite take_app_le, drop_app_le by lia. done.
Qed.

Lemma refill_whole (l rotated : list Seat) :
  (length rotated <= length l)%nat ->
  refill l 0 (Z.of_nat (length l)) rotated =
  rotated ++ replicate (length l - length rotated) None.
Proof.
  intros Hlen. change 0 with (Z.of_nat 0).
  rewrite refill_eq by (cbn; lia). cbn. rewrite drop_all. by rewrite app_nil_r.
Qed.

Lemma nonNull_length_le (l : list Seat) : (length (nonNull l) <= length l)%nat.
Proof. apply length_filter. Qed.

(** The code's rotation of one half is the spec's shift of its occupants. *)
Lemma rotate_half_eq (half : list Seat) :
  (if 1 <? Z.of_nat (length (nonNull half))
   then refill half 0 (Z.of_nat (length half)) (firstToLast (nonNull half))
   else half) = shiftOccupants half.
Proof.
  unfold shiftOccupants. pose proof (nonNull_length_le half) as Hle.
  destruct (nonNull half) as [|x [|y others]] eqn:Hocc; [done|done|].
  destruct (Z.ltb_spec 1 (Z.of_nat (length (x :: y :: others)))); [|cbn in *; lia].
  rewrite refill_whole by (by rewrite firstToLast_length).
  rewrite firstToLast_length, firstToLast_eq. cbn [drop take].
  by rewrite <- app_assoc.
Qed.

Lemma rotateRow_eq (seats : list Seat) (cols r : nat) :
  (r * cols + cols <= length seats)%nat ->
  rotateRow seats (Z.of_nat cols) (Z.of_nat r) = shiftRow cols (gridRow cols seats r).
Proof.
  intros Hlen. unfold rotateRow, shiftRow, gridRow.
  assert (0 <= ceilDiv (Z.of_nat cols) 2) as Hnn.
  { pose proof (ceilDiv_bounds (Z.of_nat cols) 2 ltac:(lia)). lia. }
  cbv zeta. set (leftSize := Z.to_nat (ceilDiv (Z.of_nat cols) 2)).
  replace (ceilDiv (Z.of_nat cols) 2) with (Z.of_nat leftSize) by lia.
  rewrite (split_loop (fun c => arrayRead seats (Z.of_nat r * Z.of_nat cols + c))).
  rewrite <- Nat2Z.inj_mul, read_segment by done.
  by rewrite !rotate_half_eq.
Qed.

Lemma shiftOccupants_length (half : list Seat) :
  length (shiftOccupants half) = length half.
Proof.
  unfold shiftOccupants. pose proof (nonNull_length_le half) as Hle.
  destruct (nonNull half) as [|x [|y others]]; [done|done|].
  rewrite !length_app, length_replicate. cbn in *. lia.
Qed.

Lemma shiftRow_length (cols : nat) (row : list Seat) :
  length (shiftRow cols row) = length row.
Proof.
  unfold shiftRow. rewrite length_app, !shiftOccupants_length, length_take, length_drop. lia.
Qed.

Lemma gridRow_length (cols : nat) (seats : list Seat) (r : nat) :
  (r * cols + cols <= length seats)%nat -> length (gridRow cols seats r) = cols.
Proof. intros Hlen. unfold gridRow. rewrite length_take, length_drop. lia. Qed.

Lemma read_whole (l : list Seat) :
  arrayRead l <$> range (Z.of_nat (length l)) = l.
Proof.
  pose proof (read_segment l 0 (length l) ltac:(lia)) as H.
  cbn in H. rewrite firstn_all in H. rewrite <- H at 3.
  apply list_fmap_ext. intros i x Hx. done.
Qed.

Lemma read_whole' (l : list Seat) (n : nat) :
  length l = n -> arrayRead l <$> range (Z.of_nat n) = l.
Proof. intros <-. apply read_whole. Qed.

(** Writing a row of [cols] seats behind a prefix [before]. *)
Lemma write_row_at (before row rest : list Seat) (cols : nat) :
  length row = cols -> (cols <= length rest)%nat ->
  foldl (fun nextSeats c =>
      arrayWrite nextSeats (Z.of_nat (length before) + c) (arrayRead row c))
    (before ++ rest) (range (Z.of_nat cols)) =
  before ++ row ++ drop cols rest.
Proof.
  intros Hrow Hrest.
  rewrite (write_segment (arrayRead row)) by (rewrite length_app; lia).
  rewrite read_whole' by done.
  by rewrite take_app_length, drop_app_add.
Qed.

(** Writing three rows of [cols] seats into a grid of [3 * cols] seats. *)
Lemma write_rows (cols : nat) (r0 r1 r2 grid : list Seat) :
  length r0 = cols -> length r1 = cols -> length r2 = cols ->
  length grid = (3 * cols)%nat ->
  foldl (fun nextSeats row =>
      foldl (fun nextSeats c =>
          arrayWrite nextSeats (row * Z.of_nat cols + c)
            (arrayRead (default [] ([r0; r1; r2] !! Z.to_nat row)) c))
        nextSeats (range (Z.of_nat cols)))
    grid (range THREE_ROWS) = r0 ++ r1 ++ r2.
Proof.
  intros H0 H1 H2 Hg.
  change (range THREE_ROWS) with [0; 1; 2]. cbn [foldl].
  change (Z.to_nat 0) with 0%nat. change (Z.to_nat 1) with 1%nat.
  change (Z.to_nat 2) with 2%nat. cbn [lookup list_lookup default from_option]. unfold id.
  replace (0 * Z.of_nat cols) with (Z.of_nat (length (@nil Seat))) by (cbn; lia).
  replace (1 * Z.of_nat cols) with (Z.of_nat (length r0)) by lia.
  replace (2 * Z.of_nat cols) with (Z.of_nat (length (r0 ++ r1)))
    by (rewrite length_app; lia).
  change grid with ([] ++ grid) at 1.
  rewrite write_row_at by lia. cbn [app].
  rewrite write_row_at by (rewrite ?length_drop; lia).
  rewrite (app_assoc r0 r1).
  rewrite write_row_at by (rewrite ?length_drop; lia).
  rewrite !drop_drop, drop_ge by lia.
  by rewrite app_nil_r, <- app_assoc.
Qed.

End ThreeRowsFacts.

Section ThreeRowsTheorem.
Local Open Scope Z_scope.

Lemma withLayout_three_rows_shape (config : TimeModeConfig.t) (students : list Student.t) :
  let normalized := withLayout config LayoutMode.THREE_ROWS students in
  exists cols : nat,
    TimeModeConfig.cols normalized = Z.of_nat cols /\
    length (TimeModeConfig.seats normalized) = (3 * cols)%nat.
Proof.
  cbn.
  set (cols := Z.max MIN_SIZE (Z.min MAX_THREE_ROW_COLS _)).
  assert (0 <= cols) as Hcols by (unfold cols, MIN_SIZE; lia).
  exists (Z.to_nat cols). split; [lia|].
  replace (THREE_ROWS * cols) with (Z.of_nat (3 * Z.to_nat cols)) by (unfold THREE_ROWS; lia).
  apply buildSeatsFromOrder_length.
Qed.

Lemma withLayout_rotationCount config layoutMode students :
  TimeModeConfig.rotationCount (withLayout config layoutMode students) =
  TimeModeConfig.rotationCount config.
Proof. by destruct layoutMode. Qed.

Lemma withLayout_layoutMode config layoutMode students :
  TimeModeConfig.layoutMode (withLayout config layoutMode students) = layoutMode.
Proof. by destruct layoutMode. Qed.


(** [rotateThreeRows] is the spec's two-step rotation of the re-normalized
    config. *)
Lemma rotateThreeRows_spec (config : TimeModeConfig.t) (students : list Student.t) :
  let normalized := withLayout config LayoutMode.THREE_ROWS students in
  rotateThreeRows config students =
  setRotationCount
    (setSeats normalized
       (threeRowsSpec (Z.to_nat (TimeModeConfig.cols normalized))
          (TimeModeConfig.seats normalized)))
    (addOne (TimeModeConfig.rotationCount config)).
Proof.
  intros normalized. subst normalized. unfold rotateThreeRows.
  pose proof (withLayout_three_rows_shape config students) as Hshape.
  cbv zeta in Hshape. destruct Hshape as (cols & Hcols & Hlen).
  rewrite withLayout_rotationCount. f_equal. f_equal.
  rewrite Hcols, Nat2Z.id, foldl_push.
  change (range THREE_ROWS) with [Z.of_nat 0; Z.of_nat 1; Z.of_nat 2].
  cbn [fmap list_fmap app lookup list_lookup default from_option]. unfold id.
  rewrite !rotateRow_eq by lia.
  rewrite createEmptySeats_nat.
  apply write_rows; rewrite ?shiftRow_length, ?gridRow_length, ?length_replicate; lia.
Qed.


End ThreeRowsTheorem.

(** ** Seat order: what [getOrderedStudentIds] returns *)

Section OrderFacts.

(** The ids of the roster, in roster order. *)
Definition rosterIds (students : list Student.t) : list string := Student.id <$> students.

(** The ids held by the non-null seats, in seat order. *)
Definition occupants (seats : list Seat) : list string := omap id seats.

(** The loop invariant: [seen] is the set of the ids pushed so far, and no
    id was pushed twice. *)
Definition orderAcc (acc : list string * gset string) : Prop :=
  acc.2 = list_to_set acc.1 /\ NoDup acc.1.

Lemma orderAcc_push (ordered : list string) (seen : gset string) (s : string) :
  orderAcc (ordered, seen) -> s ∉ seen -> orderAcc (ordered ++ [s], {[s]} ∪ seen).
Proof.
  intros [Hseen Hnd] Hs. cbn in *. subst seen. split; cbn.
  - rewrite list_to_set_app_L. cbn. rewrite (right_id_L ∅ (∪)). apply (comm_L (∪)).
  - apply NoDup_app. split; [done|]. split; [|apply NoDup_singleton].
    intros x Hx Hx'. apply list_elem_of_singleton in Hx'. subst x.
    apply Hs. by apply elem_of_list_to_set.
Qed.

Lemma orderSeat_step (validIds : gset string) acc (seat : Seat) :
  orderAcc acc ->
  orderAcc (orderSeat validIds acc seat) /\
  (forall x, x ∈ (orderSeat validIds acc seat).1 -> x ∈ acc.1 \/ x ∈ validIds) /\
  (forall x, x ∈ acc.1 -> x ∈ (orderSeat validIds acc seat).1).
Proof.
  intros Hacc. destruct acc as [ordered seen]. unfold orderSeat.
  destruct seat as [s|]; [|by auto].
  destruct (truthy (Some s)); cbn [andb]; [|by auto].
  case_bool_decide as Hvalid; cbn [andb]; [|by auto].
  case_bool_decide as Hseen; cbn [negb]; [by auto|].
  split; [by apply orderAcc_push|]. cbn. split.
  - intros x Hx. apply elem_of_app in Hx as [Hx|Hx]; [by left|].
    apply list_elem_of_singleton in Hx. subst x. by right.
  - intros x Hx. apply elem_of_app. by left.
Qed.

Lemma orderSeat_loop (validIds : gset string) (seats : list Seat) : forall acc,
  orderAcc acc ->
  orderAcc (foldl (orderSeat validIds) acc seats) /\
  (forall x, x ∈ (foldl (orderSeat validIds) acc seats).1 -> x ∈ acc.1 \/ x ∈ validIds) /\
  (forall x, x ∈ acc.1 -> x ∈ (foldl (orderSeat validIds) acc seats).1).
Proof.
  induction seats as [|seat seats IH]; intros acc Hacc; cbn [foldl]; [by auto|].
  destruct (orderSeat_step validIds acc seat Hacc) as (Hacc' & Hin & Hkeep).
  destruct (IH _ Hacc') as (Hacc'' & Hin' & Hkeep').
  split; [done|]. split.
  - intros x Hx. destruct (Hin' x Hx) as [Hx'|Hx']; [by apply Hin|by right].
  - intros x Hx. by apply Hkeep', Hkeep.
Qed.

Lemma orderStudent_step acc (student : Student.t) :
  orderAcc acc ->
  orderAcc (orderStudent acc student) /\
  (forall x, x ∈ (orderStudent acc student).1 -> x ∈ acc.1 \/ x = Student.id student) /\
  (forall x, x ∈ acc.1 -> x ∈ (orderStudent acc student).1) /\
  Student.id student ∈ (orderStudent acc student).1.
Proof.
  intros Hacc. destruct acc as [ordered seen]. unfold orderStudent.
  case_bool_decide as Hseen; cbn [negb].
  - split; [done|]. split; [by auto|]. split; [by auto|].
    destruct Hacc as [Hs _]. cbn in *. subst seen. by apply elem_of_list_to_set in Hseen.
  - split; [by apply orderAcc_push|]. cbn. split; [|split].
    + intros x Hx. apply elem_of_app in Hx as [Hx|Hx]; [by left|].
      apply list_elem_of_singleton in Hx. by right.
    + intros x Hx. apply elem_of_app. by left.
    + apply elem_of_app. right. by apply list_elem_of_singleton.
Qed.

Lemma orderStudent_loop (students : list Student.t) : forall acc,
  orderAcc acc ->
  orderAcc (foldl orderStudent acc students) /\
  (forall x, x ∈ (foldl orderStudent acc students).1 -> x ∈ acc.1 \/ x ∈ rosterIds students) /\
  (forall x, x ∈ acc.1 -> x ∈ (foldl orderStudent acc students).1) /\
  (forall x, x ∈ rosterIds students -> x ∈ (foldl orderStudent acc students).1).
Proof.
  induction students as [|student students IH]; intros acc Hacc; cbn [foldl].
  - split; [done|]. split; [by auto|]. split; [by auto|].
    intros x Hx. by apply elem_of_nil in Hx.
  - destruct (orderStudent_step acc student Hacc) as (Hacc' & Hin & Hkeep & Hid).
    destruct (IH _ Hacc') as (Hacc'' & Hin' & Hkeep' & Hall).
    split; [done|]. unfold rosterIds in *. cbn [fmap list_fmap]. split; [|split].
    + intros x Hx. destruct (Hin' x Hx) as [Hx'|Hx'].
      * destruct (Hin x Hx') as [?| ->]; [by left|right; left].
      * right. by right.
    + intros x Hx. by apply Hkeep', Hkeep.
    + intros x Hx. apply elem_of_cons in Hx as [->|Hx]; [by apply Hkeep'|by apply Hall].
Qed.

Lemma orderAcc_init : orderAcc ([], ∅).
Proof. split; cbn; [done|apply NoDup_nil_2]. Qed.

(** The ordered ids have no repeats and are exactly the ids of the roster. *)
Lemma getOrderedStudentIds_NoDup students seats :
  NoDup (getOrderedStudentIds students seats).
Proof.
  unfold getOrderedStudentIds.
  destruct (orderSeat_loop (list_to_set (Student.id <$> students)) seats _ orderAcc_init)
    as (Hacc & _).
  destruct (orderStudent_loop students _ Hacc) as ([_ Hnd] & _). done.
Qed.

Lemma getOrderedStudentIds_elem students seats x :
  x ∈ getOrderedStudentIds students seats <-> x ∈ rosterIds students.
Proof.
  unfold getOrderedStudentIds.
  destruct (orderSeat_loop (list_to_set (Student.id <$> students)) seats _ orderAcc_init)
    as (Hacc & Hin & _).
  destruct (orderStudent_loop students _ Hacc) as (_ & Hin' & _ & Hall).
  split; [|apply Hall].
  intros Hx. destruct (Hin' x Hx) as [Hx'|Hx']; [|done].
  destruct (Hin x Hx') as [Hx''|Hx'']; [by apply elem_of_nil in Hx''|].
  by apply elem_of_list_to_set in Hx''.
Qed.

Lemma getOrderedStudentIds_length students seats :
  length (getOrderedStudentIds students seats) <= length students.
Proof.
  rewrite <- (length_fmap Student.id students).
  apply submseteq_length, NoDup_submseteq; [apply getOrderedStudentIds_NoDup|].
  intros x. apply getOrderedStudentIds_elem.
Qed.

Lemma occupants_app (l k : list Seat) : occupants (l ++ k) = occupants l ++ occupants k.
Proof. apply omap_app. Qed.

Lemma occupants_replicate_None (n : nat) : occupants (replicate n None) = [].
Proof. induction n; cbn; done. Qed.

Lemma occupants_Some (ids : list string) : occupants (Some <$> ids) = ids.
Proof. induction ids as [|x ids IH]; [done|]. cbn. f_equal. apply IH. Qed.

Lemma elem_of_occupants (seats : list Seat) (s : string) :
  s ∈ occupants seats <-> Some s ∈ seats.
Proof.
  unfold occupants. rewrite list_elem_of_omap. split.
  - intros (seat & Hseat & Hid). cbn in Hid. by subst seat.
  - intros Hs. by exists (Some s).
Qed.

Lemma occupants_nonNull (l : list Seat) : occupants (nonNull l) = occupants l.
Proof.
  induction l as [|[s|] l IH]; [done| |].
  - unfold nonNull in *. rewrite filter_cons_True by done. cbn. f_equal. apply IH.
  - unfold nonNull in *. rewrite filter_cons_False by (intros H; by apply H). apply IH.
Qed.

Lemma occupants_buildSeats (ids : list string) (capacity : nat) :
  occupants (buildSeatsFromOrder ids (Z.of_nat capacity)) = take capacity ids.
Proof.
  rewrite buildSeatsFromOrder_eq, occupants_app, occupants_Some, occupants_replicate_None.
  apply app_nil_r.
Qed.

End OrderFacts.

(** ** Centered placement keeps every id it places *)

Section CenteredOccupants.
Local Open Scope Z_scope.

Lemma occupants_insert_empty (l : list Seat) (i : nat) (x : string) :
  l !! i = Some None -> occupants (<[i := Some x]> l) ≡ₚ x :: occupants l.
Proof.
  intros Hi. pose proof (lookup_lt_Some _ _ _ Hi) as Hlt.
  rewrite insert_take_drop by done.
  rewrite <- (take_drop_middle l i None Hi) at 3.
  rewrite !occupants_app. cbn. by rewrite Permutation_middle.
Qed.

Lemma centeredColumn_range (rowWidth : Z) (k : nat) :
  Z.of_nat k < rowWidth -> 0 <= centeredColumn rowWidth k < rowWidth.
Proof.
  intros Hk. unfold centeredColumn.
  destruct (Z.eqb_spec (Z.of_nat k mod 2) 0); Z.to_euclidean_division_equations; lia.
Qed.

Lemma centeredColumn_inj (rowWidth : Z) (j k : nat) :
  centeredColumn rowWidth j = centeredColumn rowWidth k -> j = k.
Proof.
  unfold centeredColumn.
  destruct (Z.eqb_spec (Z.of_nat j mod 2) 0), (Z.eqb_spec (Z.of_nat k mod 2) 0);
    Z.to_euclidean_division_equations; lia.
Qed.

Lemma placeWrites_S ids startIndex rowWidth l k n :
  placeWrites ids startIndex rowWidth l k (S n) =
  placeWrites ids startIndex rowWidth
    (arrayWrite l (startIndex + centeredColumn rowWidth k) (ids !! k)) (S k) n.
Proof. reflexivity. Qed.

(** The writes of [placeCentered] into a row whose target slots are empty:
    the length is kept, the placed ids are added to the occupants, and every
    slot that is not a target is left as it was. *)
Lemma placeWrites_inv (ids : list string) (start : nat) (rowWidth : nat) (n : nat) :
  forall (k : nat) (l : list Seat),
  (start + rowWidth <= length l)%nat ->
  (k + n <= Nat.min (length ids) rowWidth)%nat ->
  (forall j, (k <= j < k + n)%nat ->
     l !! Z.to_nat (Z.of_nat start + centeredColumn (Z.of_nat rowWidth) j) = Some None) ->
  let l' := placeWrites ids (Z.of_nat start) (Z.of_nat rowWidth) l k n in
  length l' = length l /\
  occupants l' ≡ₚ occupants l ++ take n (drop k ids) /\
  (forall i : nat,
     (forall j, (k <= j < k + n)%nat ->
        i <> Z.to_nat (Z.of_nat start + centeredColumn (Z.of_nat rowWidth) j)) ->
     l' !! i = l !! i).
Proof.
  induction n as [|n IH]; intros k l Hlen Hkn Hempty; cbn zeta.
  - unfold placeWrites. cbn [seq foldl]. rewrite take_0, app_nil_r. done.
  - rewrite placeWrites_S.
    destruct (lookup_lt_is_Some_2 ids k ltac:(lia)) as [x Hx]. rewrite Hx.
    pose proof (centeredColumn_range (Z.of_nat rowWidth) k ltac:(lia)) as Hcol.
    rewrite arrayWrite_in_range by lia.
    set (ck := Z.to_nat (Z.of_nat start + centeredColumn (Z.of_nat rowWidth) k)).
    specialize (IH (S k) (<[ck := Some x]> l)).
    destruct IH as (Hlen' & Hocc & Hother).
    { by rewrite length_insert. }
    { lia. }
    { intros j Hj. rewrite list_lookup_insert_ne; [apply Hempty; lia|].
      unfold ck. intros Heq.
      pose proof (centeredColumn_range (Z.of_nat rowWidth) j ltac:(lia)).
      assert (centeredColumn (Z.of_nat rowWidth) k = centeredColumn (Z.of_nat rowWidth) j) as Hc by lia.
      apply centeredColumn_inj in Hc. lia. }
    split; [by rewrite Hlen', length_insert|]. split.
    + rewrite Hocc. rewrite occupants_insert_empty by (apply Hempty; lia).
      rewrite (drop_S _ _ _ Hx). cbn [take]. by rewrite <- Permutation_middle.
    + intros i Hi. rewrite Hother by (intros j Hj; apply Hi; lia).
      apply list_lookup_insert_ne. intros <-. by apply (Hi k ltac:(lia)).
Qed.

Lemma placeCentered_empty_row (seats : list Seat) (ids : list string) (start : nat) :
  (start + 18 <= length seats)%nat ->
  (forall i, (start <= i < start + 18)%nat -> seats !! i = Some None) ->
  let seats' := placeCentered seats ids (Z.of_nat start) ARC_COLS in
  length seats' = length seats /\
  occupants seats' ≡ₚ occupants seats ++ take 18 ids /\
  (forall i : nat, (i < start \/ start + 18 <= i)%nat -> seats' !! i = seats !! i).
Proof.
  intros Hlen Hempty. cbn zeta. rewrite placeCentered_writes.
  change ARC_COLS with (Z.of_nat 18). rewrite Nat2Z.id.
  destruct (placeWrites_inv ids start 18 (Nat.min (length ids) 18) 0%nat seats)
    as (Hlen' & Hocc & Hother); [done|lia| |].
  { intros j Hj. apply Hempty.
    pose proof (centeredColumn_range (Z.of_nat 18) j ltac:(lia)). lia. }
  split; [done|]. split.
  - rewrite Hocc, drop_0. f_equal.
    destruct (Nat.le_ge_cases (length ids) 18).
    + rewrite Nat.min_l by done. by rewrite !take_ge by lia.
    + by rewrite Nat.min_r by done.
  - intros i Hi. apply Hother. intros j Hj.
    pose proof (centeredColumn_range (Z.of_nat 18) j ltac:(lia)). lia.
Qed.

(** Filling the two arc rows from one list of ids, as [withLayout] and
    [randomizeSeats] do for [ARC]. *)
Definition arcFill (ids : list string) : list Seat :=
  let half := ceilDiv (Z.of_nat (length ids)) 2 in
  placeCentered
    (placeCentered (createEmptySeats (ARC_ROWS * ARC_COLS)) (slice ids 0 half) 0 ARC_COLS)
    (sliceFrom ids half) ARC_COLS ARC_COLS.

Lemma arcFill_spec (ids : list string) :
  let half := Z.to_nat (ceilDiv (Z.of_nat (length ids)) 2) in
  length (arcFill ids) = 36%nat /\
  occupants (arcFill ids) ≡ₚ take 18 (take half ids) ++ take 18 (drop half ids).
Proof.
  cbn zeta. unfold arcFill.
  assert (0 <= ceilDiv (Z.of_nat (length ids)) 2) as Hhalf.
  { pose proof (ceilDiv_bounds (Z.of_nat (length ids)) 2 ltac:(lia)). lia. }
  rewrite slice_take, sliceFrom_drop by done.
  set (half := Z.to_nat (ceilDiv (Z.of_nat (length ids)) 2)).
  change (createEmptySeats (ARC_ROWS * ARC_COLS)) with (replicate 36 (@None string)).
  change 0 with (Z.of_nat 0). change ARC_COLS with (Z.of_nat 18) at 2 4.
  change (Z.of_nat 18) with ARC_COLS at 2.
  destruct (placeCentered_empty_row (replicate 36 None) (take half ids) 0)
    as (Hlen1 & Hocc1 & Hother1).
  { rewrite length_replicate. lia. }
  { intros i Hi. apply lookup_replicate_2. lia. }
  change (Z.of_nat 18) with ARC_COLS at 1.
  change ARC_COLS with (Z.of_nat 18) at 2.
  destruct (placeCentered_empty_row
              (placeCentered (replicate 36 None) (take half ids) (Z.of_nat 0) ARC_COLS)
              (drop half ids) 18) as (Hlen2 & Hocc2 & Hother2).
  { rewrite Hlen1, length_replicate. lia. }
  { intros i Hi. rewrite Hother1 by lia. apply lookup_replicate_2. lia. }
  split.
  - by rewrite Hlen2, Hlen1, length_replicate.
  - rewrite Hocc2, Hocc1, occupants_replicate_None. done.
Qed.

Lemma arcFill_NoDup (ids : list string) : NoDup ids -> NoDup (occupants (arcFill ids)).
Proof.
  intros Hnd. destruct (arcFill_spec ids) as [_ Hocc]. rewrite Hocc.
  apply (sublist_NoDup _ ids Hnd).
  set (half := Z.to_nat (ceilDiv (Z.of_nat (length ids)) 2)).
  assert (take 18 (take half ids) ++ take 18 (drop half ids)
            `sublist_of` take half ids ++ drop half ids) as Hsub
    by (apply sublist_app; apply sublist_take).
  by rewrite take_drop in Hsub.
Qed.

Lemma arcFill_all (ids : list string) :
  (length ids <= 36)%nat -> occupants (arcFill ids) ≡ₚ ids.
Proof.
  intros Hlen. destruct (arcFill_spec ids) as [_ Hocc]. rewrite Hocc.
  pose proof (ceilDiv_bounds (Z.of_nat (length ids)) 2 ltac:(lia)).
  rewrite !(take_ge _ 18) by (rewrite ?length_take, ?length_drop; lia).
  by rewrite take_drop.
Qed.

End CenteredOccupants.

(** ** The reconciler and the rotations keep the occupants *)

Section OccupantFacts.
Local Open Scope Z_scope.

(** The ids held by the truthy seats, in seat order. *)
Definition truthyIds (seats : list Seat) : list string :=
  omap (fun seat : Seat => if truthy seat then seat else None) seats.

Lemma truthyIds_app (l k : list Seat) : truthyIds (l ++ k) = truthyIds l ++ truthyIds k.
Proof. apply omap_app. Qed.

Lemma truthyIds_length (l : list Seat) : (length (truthyIds l) <= length l)%nat.
Proof.
  induction l as [|seat l IH]; [done|]. unfold truthyIds in *. cbn.
  destruct (if truthy seat then seat else None); cbn; lia.
Qed.

Lemma truthyIds_sublist (l : list Seat) : truthyIds l `sublist_of` occupants l.
Proof.
  induction l as [|[s|] l IH]; cbn; [done| |done].
  destruct (negb (String.eqb s "")); [by apply sublist_skip|by apply sublist_cons].
Qed.

Lemma truthyIds_nonempty (l : list Seat) :
  (forall s, Some s ∈ l -> s <> "") -> truthyIds l = occupants l.
Proof.
  induction l as [|[s|] l IH]; intros Hne; cbn; [done| |].
  - destruct (String.eqb_spec s "") as [->|_].
    + exfalso. by apply (Hne ""); [left|].
    + cbn. f_equal. apply IH. intros s' Hs'. apply Hne. by right.
  - apply IH. intros s' Hs'. apply Hne. by right.
Qed.

Lemma elem_of_truthyIds (l : list Seat) (s : string) :
  s ∈ truthyIds l <-> Some s ∈ l /\ s <> "".
Proof.
  unfold truthyIds. rewrite list_elem_of_omap. split.
  - intros ([s'|] & Hin & Heq); cbn in Heq; [|done].
    destruct (String.eqb_spec s' ""); cbn in Heq; [done|]. by simplify_eq.
  - intros [Hin Hne]. exists (Some s). split; [done|]. cbn.
    by destruct (String.eqb_spec s "").
Qed.

Lemma withLayout_seats config layoutMode students :
  TimeModeConfig.seats (withLayout config layoutMode students) =
  match layoutMode with
  | LayoutMode.ARC => arcFill (getOrderedStudentIds students (TimeModeConfig.seats config))
  | _ => buildSeatsFromOrder (getOrderedStudentIds students (TimeModeConfig.seats config))
           (LayoutMetrics.capacity (getLayoutMetrics layoutMode (Z.of_nat (length students))))
  end.
Proof. by destruct layoutMode. Qed.

Lemma capacity_nat layoutMode n :
  LayoutMetrics.capacity (getLayoutMetrics layoutMode n) =
  Z.of_nat (Z.to_nat (LayoutMetrics.capacity (getLayoutMetrics layoutMode n))).
Proof. pose proof (getLayoutMetrics_capacity_nonneg layoutMode n). lia. Qed.

(** The seat array of a reconciled config has the length of the capacity. *)
Lemma withLayout_seats_length config layoutMode students :
  length (TimeModeConfig.seats (withLayout config layoutMode students)) =
  Z.to_nat (LayoutMetrics.capacity (getLayoutMetrics layoutMode (Z.of_nat (length students)))).
Proof.
  rewrite withLayout_seats. destruct layoutMode.
  - rewrite capacity_nat at 1. apply buildSeatsFromOrder_length.
  - rewrite capacity_nat at 1. apply buildSeatsFromOrder_length.
  - by destruct (arcFill_spec (getOrderedStudentIds students (TimeModeConfig.seats config))).
Qed.

Lemma withLayout_occupants_NoDup config layoutMode students :
  NoDup (occupants (TimeModeConfig.seats (withLayout config layoutMode students))).
Proof.
  rewrite withLayout_seats.
  pose proof (getOrderedStudentIds_NoDup students (TimeModeConfig.seats config)) as Hnd.
  destruct layoutMode; [| |by apply arcFill_NoDup];
    rewrite capacity_nat, occupants_buildSeats;
    apply (sublist_NoDup _ _ Hnd), sublist_take.
Qed.

Lemma withLayout_occupants_roster config layoutMode students s :
  s ∈ occupants (TimeModeConfig.seats (withLayout config layoutMode students)) ->
  s ∈ rosterIds students.
Proof.
  rewrite withLayout_seats. intros Hs.
  apply (getOrderedStudentIds_elem students (TimeModeConfig.seats config)).
  destruct layoutMode.
  - rewrite capacity_nat, occupants_buildSeats in Hs. by apply subseteq_take in Hs.
  - rewrite capacity_nat, occupants_buildSeats in Hs. by apply subseteq_take in Hs.
  - destruct (arcFill_spec (getOrderedStudentIds students (TimeModeConfig.seats config)))
      as [_ Hocc].
    rewrite Hocc in Hs. apply elem_of_app in Hs as [Hs|Hs].
    + by do 2 apply subseteq_take in Hs.
    + apply subseteq_take in Hs. by apply subseteq_drop in Hs.
Qed.

(** When the roster fits the capacity, reconciling seats every student. *)
Lemma withLayout_occupants_all config layoutMode students :
  Z.of_nat (length students) <=
    LayoutMetrics.capacity (getLayoutMetrics layoutMode (Z.of_nat (length students))) ->
  occupants (TimeModeConfig.seats (withLayout config layoutMode students)) ≡ₚ
  getOrderedStudentIds students (TimeModeConfig.seats config).
Proof.
  intros Hcap. rewrite withLayout_seats.
  pose proof (getOrderedStudentIds_length students (TimeModeConfig.seats config)) as Hlen.
  destruct layoutMode.
  - rewrite capacity_nat, occupants_buildSeats. by rewrite take_ge by lia.
  - rewrite capacity_nat, occupants_buildSeats. by rewrite take_ge by lia.
  - apply arcFill_all. cbn in Hcap. unfold ARC_ROWS, ARC_COLS in Hcap. lia.
Qed.

Lemma shiftOccupants_occupants (half : list Seat) :
  occupants (shiftOccupants half) ≡ₚ occupants half.
Proof.
  unfold shiftOccupants.
  destruct (nonNull half) as [|x [|y others]] eqn:Hocc; [done|done|].
  rewrite <- (occupants_nonNull half), Hocc.
  rewrite !occupants_app, occupants_replicate_None, app_nil_r.
  rewrite <- occupants_app. change (x :: y :: others) with ([x] ++ (y :: others)).
  rewrite (occupants_app [x]). rewrite (occupants_app (y :: others)).
  apply Permutation_app_comm.
Qed.

Lemma shiftRow_occupants (cols : nat) (row : list Seat) :
  occupants (shiftRow cols row) ≡ₚ occupants row.
Proof.
  unfold shiftRow. rewrite occupants_app, !shiftOccupants_occupants, <- occupants_app.
  by rewrite take_drop.
Qed.

Lemma grid_rows (cols : nat) (seats : list Seat) :
  length seats = (3 * cols)%nat ->
  seats = gridRow cols seats 0 ++ gridRow cols seats 1 ++ gridRow cols seats 2.
Proof.
  intros Hlen. unfold gridRow. cbn [Nat.mul]. rewrite drop_0, Nat.add_0_r.
  rewrite <- (take_drop cols seats) at 1. f_equal.
  rewrite <- (take_drop cols (drop cols seats)) at 1. f_equal.
  rewrite drop_drop. symmetry. apply take_ge. rewrite length_drop. lia.
Qed.

Lemma threeRowsSpec_occupants (cols : nat) (seats : list Seat) :
  length seats = (3 * cols)%nat ->
  occupants (threeRowsSpec cols seats) ≡ₚ occupants seats.
Proof.
  intros Hlen. unfold threeRowsSpec. rewrite !occupants_app, !shiftRow_occupants.
  rewrite (f_equal occupants (grid_rows cols seats Hlen)), !occupants_app.
  rewrite (Permutation_app_comm (occupants (gridRow cols seats 0))).
  by rewrite <- app_assoc.
Qed.

Lemma rotateThreeRows_occupants config students :
  occupants (TimeModeConfig.seats (rotateThreeRows config students)) ≡ₚ
  occupants (TimeModeConfig.seats (withLayout config LayoutMode.THREE_ROWS students)).
Proof.
  rewrite (rotateThreeRows_spec config students). cbn [setRotationCount setSeats TimeModeConfig.seats].
  pose proof (withLayout_three_rows_shape config students) as Hshape.
  cbv zeta in Hshape. destruct Hshape as (cols & Hcols & Hlen).
  rewrite Hcols, Nat2Z.id. by apply threeRowsSpec_occupants.
Qed.

(** One iteration of the loop of [rotateGroupLayout] over the active groups. *)
Definition rotateGroup (nextSeats : list Seat) (groupIdx : Z) : list Seat :=
  let start := groupIdx * GROUP_CAPACITY in
  let groupStudents :=
    foldl (fun groupStudents i => groupStudents ++ [arrayRead nextSeats (start + i)])
      [] (range GROUP_CAPACITY) in
  let nonEmpty := nonNull groupStudents in
  if 1 <? Z.of_nat (length nonEmpty) then
    refill nextSeats start GROUP_CAPACITY (firstToLast nonEmpty)
  else nextSeats.

Lemma rotateGroupLayout_seats config students :
  TimeModeConfig.seats (rotateGroupLayout config students) =
  foldl rotateGroup
    (TimeModeConfig.seats (withLayout config LayoutMode.GROUPS students))
    (getActiveGroupIndices (getGroupCountBySize (Z.of_nat (length students)))).
Proof. reflexivity. Qed.

(** Rotating group [g] replaces its six seats by the shifted occupants. *)
Lemma rotateGroup_eq (seats : list Seat) (g : nat) :
  (6 * g + 6 <= length seats)%nat ->
  rotateGroup seats (Z.of_nat g) =
  take (6 * g) seats ++ shiftOccupants (take 6 (drop (6 * g) seats)) ++ drop (6 * g + 6) seats.
Proof.
  intros Hlen. unfold rotateGroup. cbv zeta.
  replace (Z.of_nat g * GROUP_CAPACITY) with (Z.of_nat (6 * g)) by (unfold GROUP_CAPACITY; lia).
  change GROUP_CAPACITY with (Z.of_nat 6).
  rewrite foldl_push, app_nil_l, read_segment by lia.
  set (grp := take 6 (drop (6 * g) seats)).
  assert (length grp = 6%nat) as Hgrp
    by (unfold grp; rewrite length_take, length_drop; lia).
  pose proof (nonNull_length_le grp) as Hle.
  destruct (Z.ltb_spec 1 (Z.of_nat (length (nonNull grp)))) as [Hlt|Hge].
  - rewrite refill_eq by (rewrite ?firstToLast_length; lia).
    rewrite <- (rotate_half_eq grp).
    destruct (Z.ltb_spec 1 (Z.of_nat (length (nonNull grp)))); [|lia].
    rewrite refill_whole by (rewrite firstToLast_length; lia).
    by rewrite Hgrp.
  - rewrite <- (rotate_half_eq grp).
    destruct (Z.ltb_spec 1 (Z.of_nat (length (nonNull grp)))); [lia|].
    unfold grp. rewrite <- drop_drop.
    by rewrite (take_drop 6 (drop (6 * g) seats)), take_drop.
Qed.

Lemma rotateGroup_inv (seats : list Seat) (g : nat) :
  (6 * g + 6 <= length seats)%nat ->
  length (rotateGroup seats (Z.of_nat g)) = length seats /\
  occupants (rotateGroup seats (Z.of_nat g)) ≡ₚ occupants seats.
Proof.
  intros Hlen. rewrite rotateGroup_eq by done. split.
  - rewrite !length_app, shiftOccupants_length, !length_take, !length_drop. lia.
  - rewrite !occupants_app, shiftOccupants_occupants, <- !occupants_app.
    rewrite <- drop_drop.
    by rewrite (take_drop 6 (drop (6 * g) seats)), take_drop.
Qed.

Lemma activeGroupIndices_bound (n : Z) (g : Z) :
  g ∈ getActiveGroupIndices (getGroupCountBySize n) -> 0 <= g <= 5.
Proof.
  unfold getActiveGroupIndices.
  assert (3 <= getGroupCountBySize n <= 6) as Hgc.
  { unfold getGroupCountBySize, MIN_GROUPS, MAX_GROUPS.
    destruct (n <=? 0); lia. }
  destruct (getGroupCountBySize n =? 4).
  - rewrite !elem_of_cons, elem_of_nil. lia.
  - unfold range. rewrite list_elem_of_fmap. intros (k & -> & Hk).
    apply elem_of_seq in Hk. lia.
Qed.

Lemma rotateGroups_inv (groups : list Z) : forall (seats : list Seat),
  length seats = 36%nat ->
  (forall g, g ∈ groups -> 0 <= g <= 5) ->
  length (foldl rotateGroup seats groups) = 36%nat /\
  occupants (foldl rotateGroup seats groups) ≡ₚ occupants seats.
Proof.
  induction groups as [|g groups IH]; intros seats Hlen Hg; cbn [foldl]; [done|].
  pose proof (Hg g ltac:(left)) as Hg0.
  destruct (rotateGroup_inv seats (Z.to_nat g) ltac:(lia)) as [Hlen' Hocc].
  rewrite Z2Nat.id in Hlen', Hocc by lia.
  destruct (IH (rotateGroup seats g)) as [Hlen'' Hocc''].
  { by rewrite Hlen'. }
  { intros g' Hg'. apply Hg. by right. }
  split; [done|]. by rewrite Hocc''.
Qed.

Lemma rotateGroupLayout_occupants config students :
  occupants (TimeModeConfig.seats (rotateGroupLayout config students)) ≡ₚ
  occupants (TimeModeConfig.seats (withLayout config LayoutMode.GROUPS students)).
Proof.
  rewrite rotateGroupLayout_seats.
  apply rotateGroups_inv; [by rewrite withLayout_seats_length|].
  apply activeGroupIndices_bound.
Qed.

Lemma collect_loop (g : Z -> Seat) (l : list Z) : forall (acc : list string),
  foldl (fun rowStudents col =>
      let id := g col in
      match id with
      | Some s => if truthy id then rowStudents ++ [s] else rowStudents
      | None => rowStudents
      end) acc l = acc ++ truthyIds (g <$> l).
Proof.
  induction l as [|c l IH]; intros acc; cbn [foldl fmap list_fmap].
  - by rewrite app_nil_r.
  - rewrite IH. cbn zeta. unfold truthyIds at 2. cbn [omap list_omap].
    destruct (g c) as [s|]; [|done].
    destruct (truthy (Some s)); [|done]. cbn. by rewrite <- app_assoc.
Qed.

Lemma collectRow_eq (seats : list Seat) (start : nat) :
  (start + 18 <= length seats)%nat ->
  collectRow seats (Z.of_nat start) = truthyIds (take 18 (drop start seats)).
Proof.
  intros Hlen. unfold collectRow.
  rewrite (collect_loop (fun col => arrayRead seats (Z.of_nat start + col))).
  change ARC_COLS with (Z.of_nat 18). by rewrite read_segment.
Qed.

Lemma if_placeCentered (b : bool) (base : list Seat) (ids ids' : list string) start width :
  (if b then placeCentered base ids start width else placeCentered base ids' start width) =
  placeCentered base (if b then ids else ids') start width.
Proof. by destruct b. Qed.

(** The arc rotation keeps exactly the truthy occupants of the re-normalized
    config. *)
Lemma rotateArcLayout_occupants config students :
  occupants (TimeModeConfig.seats (rotateArcLayout config students)) ≡ₚ
  truthyIds (TimeModeConfig.seats (withLayout config LayoutMode.ARC students)).
Proof.
  unfold rotateArcLayout. cbn [setRotationCount setSeats TimeModeConfig.seats].
  pose proof (withLayout_seats_length config LayoutMode.ARC students) as Hlen.
  change (Z.to_nat _) with 36%nat in Hlen.
  set (seats := TimeModeConfig.seats (withLayout config LayoutMode.ARC students)) in *.
  rewrite Hlen, createEmptySeats_nat.
  change (range ARC_ROWS) with [Z.of_nat 0; Z.of_nat 1]. cbn [foldl].
  replace (Z.of_nat 0 * ARC_COLS) with (Z.of_nat 0) by done.
  replace (Z.of_nat 1 * ARC_COLS) with (Z.of_nat 18) by done.
  rewrite !collectRow_eq by lia. rewrite drop_0.
  set (row0 := truthyIds (take 18 seats)).
  set (row1 := truthyIds (take 18 (drop 18 seats))).
  rewrite !if_placeCentered.
  set (ids0 := if 1 <? Z.of_nat (length row0) then firstToLast row0 else row0).
  set (ids1 := if 1 <? Z.of_nat (length row1) then firstToLast row1 else row1).
  assert (ids0 ≡ₚ row0 /\ (length ids0 <= 18)%nat) as [Hp0 Hl0].
  { pose proof (truthyIds_length (take 18 seats)) as Hl. rewrite length_take in Hl.
    unfold ids0. destruct (1 <? Z.of_nat (length row0));
      rewrite ?firstToLast_length; split; try done; try (fold row0 in Hl; lia).
    apply firstToLast_perm. }
  assert (ids1 ≡ₚ row1 /\ (length ids1 <= 18)%nat) as [Hp1 Hl1].
  { pose proof (truthyIds_length (take 18 (drop 18 seats))) as Hl. rewrite length_take in Hl.
    unfold ids1. destruct (1 <? Z.of_nat (length row1));
      rewrite ?firstToLast_length; split; try done; try (fold row1 in Hl; lia).
    apply firstToLast_perm. }
  destruct (placeCentered_empty_row (replicate 36 None) ids0 0)
    as (Hlen1 & Hocc1 & Hother1).
  { rewrite length_replicate. lia. }
  { intros i Hi. apply lookup_replicate_2. lia. }
  destruct (placeCentered_empty_row
              (placeCentered (replicate 36 None) ids0 (Z.of_nat 0) ARC_COLS) ids1 18)
    as (Hlen2 & Hocc2 & Hother2).
  { rewrite Hlen1, length_replicate. lia. }
  { intros i Hi. rewrite Hother1 by lia. apply lookup_replicate_2. lia. }
  rewrite Hocc2, Hocc1, occupants_replicate_None, !take_ge by lia. cbn [app].
  rewrite Hp0, Hp1. unfold row0, row1. rewrite <- truthyIds_app.
  rewrite (take_ge (drop 18 seats)) by (rewrite length_drop; lia).
  by rewrite take_drop.
Qed.

End OccupantFacts.

(** ** Seat uniqueness *)

Section Uniqueness.
Local Open Scope Z_scope.

(** No student id occurs in two different seats. *)
Definition seatsUnique (seats : list Seat) : Prop :=
  forall (i j : nat) (s : string),
    seats !! i = Some (Some s) -> seats !! j = Some (Some s) -> i = j.

Lemma seatsUnique_NoDup (seats : list Seat) :
  seatsUnique seats <-> NoDup (occupants seats).
Proof.
  induction seats as [|seat seats IH].
  - split; [intros _; apply NoDup_nil_2|]. intros _ i j s Hi. by rewrite lookup_nil in Hi.
  - assert (seatsUnique (seat :: seats) -> seatsUnique seats) as Htail.
    { intros Hu i j s Hi Hj. by injection (Hu (S i) (S j) s Hi Hj). }
    split.
    + intros Hu. destruct seat as [s|]; cbn; [|by apply IH, Htail].
      apply NoDup_cons. split; [|by apply IH, Htail].
      intros Hs. apply elem_of_occupants, list_elem_of_lookup in Hs as [j Hj].
      by specialize (Hu 0%nat (S j) s eq_refl Hj).
    + intros Hnd i j s Hi Hj.
      assert (NoDup (occupants seats)) as Hnd'.
      { destruct seat; cbn in Hnd; [by apply NoDup_cons in Hnd as [_ ?]|done]. }
      assert (forall k, seat = Some s -> seats !! k = Some (Some s) -> False) as Hhead.
      { intros k -> Hk. cbn in Hnd. apply NoDup_cons in Hnd as [Hnotin _].
        apply Hnotin, elem_of_occupants, list_elem_of_lookup. by exists k. }
      destruct i as [|i], j as [|j]; cbn in Hi, Hj.
      * done.
      * exfalso. injection Hi as ->. by apply (Hhead j).
      * exfalso. injection Hj as ->. by apply (Hhead i).
      * f_equal. by apply (proj2 IH Hnd' i j s).
Qed.

Lemma seatsUnique_perm (seats seats' : list Seat) :
  occupants seats' ≡ₚ occupants seats -> seatsUnique seats -> seatsUnique seats'.
Proof. rewrite !seatsUnique_NoDup. by intros ->. Qed.

Lemma getConfig_setConfig classroom timeMode config timeMode' :
  getConfig (setConfig classroom timeMode config) timeMode' =
  if decide (timeMode = timeMode') then config else getConfig classroom timeMode'.
Proof. by destruct timeMode, timeMode'. Qed.

Lemma getConfig_setUpdatedAt classroom now timeMode :
  getConfig (setUpdatedAt classroom now) timeMode = getConfig classroom timeMode.
Proof. by destruct timeMode. Qed.

Lemma getConfig_setStudents classroom students timeMode :
  getConfig (setStudents classroom students) timeMode = getConfig classroom timeMode.
Proof. by destruct timeMode. Qed.

Lemma students_setUpdatedAt classroom now :
  Classroom.students (setUpdatedAt classroom now) = Classroom.students classroom.
Proof. done. Qed.

Lemma students_setConfig classroom timeMode config :
  Classroom.students (setConfig classroom timeMode config) = Classroom.students classroom.
Proof. by destruct timeMode. Qed.

Lemma updatedAt_setUpdatedAt classroom now :
  Classroom.updatedAt (setUpdatedAt classroom now) = now.
Proof. done. Qed.

(** A new config for one time mode: the other time mode keeps its seats. *)
Lemma unique_setConfig classroom timeMode config now :
  (forall tm, seatsUnique (TimeModeConfig.seats (getConfig classroom tm))) ->
  seatsUnique (TimeModeConfig.seats config) ->
  forall tm, seatsUnique (TimeModeConfig.seats
    (getConfig (setUpdatedAt (setConfig classroom timeMode config) now) tm)).
Proof.
  intros Hall Hcfg tm. rewrite getConfig_setUpdatedAt, getConfig_setConfig.
  by destruct (decide (timeMode = tm)).
Qed.

Lemma fmap_id_imap (createId : nat -> string) (names : list string) :
  Student.id <$> imap (fun k name => Student.mk (createId k) name) names =
  createId <$> seq 0 (length names).
Proof.
  apply list_eq. intros k. rewrite !list_lookup_fmap, list_lookup_imap.
  destruct (names !! k) as [name|] eqn:Hk; cbn.
  - rewrite lookup_seq_lt by (by apply lookup_lt_Some in Hk). done.
  - rewrite lookup_seq_ge by (by apply lookup_ge_None in Hk). done.
Qed.

Lemma seatsUnique_swap (seats : list Seat) (first second : Z) :
  0 <= first < Z.of_nat (length seats) -> 0 <= second < Z.of_nat (length seats) ->
  seatsUnique seats ->
  seatsUnique
    (arrayWrite (arrayWrite seats first (arrayRead seats second)) second (arrayRead seats first)).
Proof.
  intros Hf Hs Hu.
  rewrite (arrayWrite_in_range seats) by done.
  rewrite arrayWrite_in_range by (by rewrite length_insert).
  rewrite <- (Z2Nat.id first), <- (Z2Nat.id second), !arrayRead_nat, !Nat2Z.id by lia.
  set (a := Z.to_nat first). set (b := Z.to_nat second).
  destruct (lookup_lt_is_Some_2 seats a ltac:(lia)) as [x Hx].
  destruct (lookup_lt_is_Some_2 seats b ltac:(lia)) as [y Hy].
  rewrite Hx, Hy. cbn [default from_option id].
  assert (forall k v, <[b := x]> (<[a := y]> seats) !! k = Some v ->
            exists k', seats !! k' = Some v /\
              (k' = if decide (k = b) then a else if decide (k = a) then b else k)) as Hsw.
  { intros k v Hk. destruct (decide (k = b)) as [->|Hkb].
    - rewrite list_lookup_insert_eq in Hk by (rewrite length_insert; lia).
      exists a. by simplify_eq.
    - rewrite list_lookup_insert_ne in Hk by done.
      destruct (decide (k = a)) as [->|Hka].
      + rewrite list_lookup_insert_eq in Hk by lia. exists b. by simplify_eq.
      + rewrite list_lookup_insert_ne in Hk by done. by exists k. }
  intros i j s Hi Hj.
  apply Hsw in Hi as (i' & Hi' & Hie). apply Hsw in Hj as (j' & Hj' & Hje).
  pose proof (Hu i' j' s Hi' Hj') as Heq. subst i' j'.
  repeat case_decide; lia.
Qed.

Lemma seatsUnique_clear (seats : list Seat) (seatIndex : Z) :
  0 <= seatIndex < Z.of_nat (length seats) ->
  seatsUnique seats -> seatsUnique (arrayWrite seats seatIndex None).
Proof.
  intros Hi Hu. rewrite arrayWrite_in_range by done.
  intros i j s Hi' Hj'.
  destruct (decide (i = Z.to_nat seatIndex)) as [->|Hne];
    [by rewrite list_lookup_insert_eq in Hi' by lia|].
  destruct (decide (j = Z.to_nat seatIndex)) as [->|Hne'];
    [by rewrite list_lookup_insert_eq in Hj' by lia|].
  rewrite list_lookup_insert_ne in Hi', Hj' by done. by apply (Hu i j s).
Qed.

Lemma seatsUnique_place (seats : list Seat) (studentId : string) (seatIndex : Z) :
  0 <= seatIndex < Z.of_nat (length seats) ->
  seatsUnique seats ->
  seatsUnique
    (arrayWrite
       ((fun seat : Seat => if decide (seat = Some studentId) then None else seat) <$> seats)
       seatIndex (Some studentId)).
Proof.
  intros Hi Hu. rewrite arrayWrite_in_range by (by rewrite length_fmap).
  set (k := Z.to_nat seatIndex).
  assert (forall i s,
    <[k := Some studentId]>
      ((fun seat : Seat => if decide (seat = Some studentId) then None else seat) <$> seats) !! i
      = Some (Some s) ->
    (i = k /\ s = studentId) \/ (i <> k /\ s <> studentId /\ seats !! i = Some (Some s))) as Hcase.
  { intros i s Hs. destruct (decide (i = k)) as [->|Hne].
    - rewrite list_lookup_insert_eq in Hs by (rewrite length_fmap; lia).
      left. by simplify_eq.
    - rewrite list_lookup_insert_ne, list_lookup_fmap in Hs by done. right.
      destruct (seats !! i) as [seat|]; cbn in Hs; [|done].
      case_decide; simplify_eq. split; [done|]. split; [|done]. congruence. }
  intros i j s Hi' Hj'.
  apply Hcase in Hi' as [[-> ->]|(? & ? & Hi')], Hj' as [[? ?]|(? & ? & Hj')]; try congruence.
  by apply (Hu i j s).
Qed.

Lemma insert_head_perm {A} (l : list A) (j : nat) (x y : A) :
  l !! j = Some y -> y :: <[j := x]> l ≡ₚ x :: l.
Proof.
  intros Hj. pose proof (lookup_lt_Some _ _ _ Hj) as Hlt.
  rewrite insert_take_drop by done.
  rewrite <- (take_drop_middle l j y Hj) at 3.
  rewrite <- !Permutation_middle. apply perm_swap.
Qed.

Lemma swap_perm {A} (l : list A) : forall (i j : nat) (x y : A),
  l !! i = Some x -> l !! j = Some y -> <[j := x]> (<[i := y]> l) ≡ₚ l.
Proof.
  induction l as [|a l IH]; intros i j x y Hi Hj; [done|].
  destruct i as [|i], j as [|j]; cbn in *; simplify_eq.
  - done.
  - by apply insert_head_perm.
  - by apply insert_head_perm.
  - apply perm_skip. by apply IH.
Qed.

Lemma swapIds_perm (ids : list string) (i j : nat) : swapIds ids i j ≡ₚ ids.
Proof.
  unfold swapIds. destruct (ids !! i) as [x|] eqn:Hi; [|done].
  destruct (ids !! j) as [y|] eqn:Hj; [|done]. by apply swap_perm.
Qed.

(** The Fisher-Yates loop permutes the ids, whatever the random draws are. *)
Lemma shuffleFrom_perm (draw : nat -> nat) (i : nat) : forall ids,
  shuffleFrom draw i ids ≡ₚ ids.
Proof.
  induction i as [|i IH]; intros ids; cbn [shuffleFrom]; [done|].
  by rewrite IH, swapIds_perm.
Qed.

End Uniqueness.

(** ** The public operations: guards, timestamps, uniqueness, re-seating *)

Section OperationFacts.
Local Open Scope Z_scope.

(** The config [rotateSeatsOnce] installs when its guard lets the call through. *)
Definition rotatedConfig (config : TimeModeConfig.t) (students : list Student.t)
    : TimeModeConfig.t :=
  match TimeModeConfig.layoutMode config with
  | LayoutMode.THREE_ROWS => rotateThreeRows config students
  | LayoutMode.ARC => rotateArcLayout config students
  | LayoutMode.GROUPS => rotateGroupLayout config students
  end.

Lemma rotateSeatsOnce_eq now classroom timeMode :
  rotateSeatsOnce now classroom timeMode =
  if getAssignedCount (getConfig classroom timeMode) <=? 1 then classroom
  else setUpdatedAt
         (setConfig classroom timeMode
            (rotatedConfig (getConfig classroom timeMode) (Classroom.students classroom)))
         now.
Proof. reflexivity. Qed.

(** [getAssignedCount] counts the truthy seats, and looks at nothing else. *)
Lemma getAssignedCount_count (config : TimeModeConfig.t) :
  getAssignedCount config = Z.of_nat (length (truthyIds (TimeModeConfig.seats config))).
Proof.
  unfold getAssignedCount.
  enough (forall seats total,
    foldl (fun total seat => if truthy seat then total + 1 else total) total seats =
    total + Z.of_nat (length (truthyIds seats))) as H by (by rewrite H).
  induction seats as [|seat seats IH]; intros total; cbn [foldl]; [cbn; lia|].
  rewrite IH. unfold truthyIds. cbn [omap list_omap].
  destruct seat as [s|]; cbn [truthy]; [|lia].
  destruct (negb (String.eqb s "")); cbn [length]; lia.
Qed.

Lemma rotatedConfig_rotationCount config students :
  TimeModeConfig.rotationCount (rotatedConfig config students) =
  addOne (TimeModeConfig.rotationCount config).
Proof.
  unfold rotatedConfig.
  destruct (TimeModeConfig.layoutMode config);
    unfold rotateThreeRows, rotateArcLayout, rotateGroupLayout;
    cbn [setRotationCount TimeModeConfig.rotationCount];
    by rewrite withLayout_rotationCount.
Qed.

Lemma rotatedConfig_occupants config students :
  occupants (TimeModeConfig.seats (rotatedConfig config students)) ≡ₚ
  match TimeModeConfig.layoutMode config with
  | LayoutMode.ARC =>
      truthyIds (TimeModeConfig.seats (withLayout config LayoutMode.ARC students))
  | layoutMode => occupants (TimeModeConfig.seats (withLayout config layoutMode students))
  end.
Proof.
  unfold rotatedConfig. destruct (TimeModeConfig.layoutMode config).
  - apply rotateThreeRows_occupants.
  - apply rotateGroupLayout_occupants.
  - apply rotateArcLayout_occupants.
Qed.

Lemma rotatedConfig_unique config students :
  seatsUnique (TimeModeConfig.seats (rotatedConfig config students)).
Proof.
  apply seatsUnique_NoDup. rewrite rotatedConfig_occupants.
  destruct (TimeModeConfig.layoutMode config);
    try apply withLayout_occupants_NoDup.
  eapply sublist_NoDup; [apply withLayout_occupants_NoDup|apply truthyIds_sublist].
Qed.

(** After a rotation every seat holds [null] or the id of a roster student. *)
Lemma rotatedConfig_roster config students s :
  Some s ∈ TimeModeConfig.seats (rotatedConfig config students) -> s ∈ rosterIds students.
Proof.
  intros Hs. apply elem_of_occupants in Hs. rewrite rotatedConfig_occupants in Hs.
  destruct (TimeModeConfig.layoutMode config) eqn:Hmode.
  - by apply withLayout_occupants_roster in Hs.
  - by apply withLayout_occupants_roster in Hs.
  - eapply withLayout_occupants_roster, elem_of_sublist; [exact Hs|apply truthyIds_sublist].
Qed.

(** The seats [randomizeSeats] installs, from the shuffled ids. *)
Lemma randomizeSeats_seats draw now classroom timeMode :
  let config := getConfig classroom timeMode in
  let randomizedIds :=
    shuffleFrom draw (length (Classroom.students classroom) - 1)%nat
      (rosterIds (Classroom.students classroom)) in
  TimeModeConfig.seats (getConfig (randomizeSeats draw now classroom timeMode) timeMode) =
  match TimeModeConfig.layoutMode config with
  | LayoutMode.ARC => arcFill randomizedIds
  | layoutMode =>
      buildSeatsFromOrder randomizedIds
        (LayoutMetrics.capacity
           (getLayoutMetrics layoutMode (Z.of_nat (length (Classroom.students classroom)))))
  end.
Proof.
  cbn zeta. unfold randomizeSeats.
  rewrite getConfig_setUpdatedAt, getConfig_setConfig, decide_True by done.
  cbn [setSeats TimeModeConfig.seats].
  rewrite withLayout_seats_length.
  destruct (TimeModeConfig.layoutMode (getConfig classroom timeMode));
    by rewrite <- capacity_nat.
Qed.

Lemma randomizeSeats_unique draw now classroom timeMode :
  NoDup (rosterIds (Classroom.students classroom)) ->
  seatsUnique
    (TimeModeConfig.seats (getConfig (randomizeSeats draw now classroom timeMode) timeMode)).
Proof.
  intros Hnd. apply seatsUnique_NoDup. rewrite randomizeSeats_seats.
  assert (NoDup (shuffleFrom draw (length (Classroom.students classroom) - 1)%nat
                   (rosterIds (Classroom.students classroom)))) as Hsh
    by (by rewrite shuffleFrom_perm).
  destruct (TimeModeConfig.layoutMode (getConfig classroom timeMode));
    [| |by apply arcFill_NoDup];
    rewrite capacity_nat, occupants_buildSeats;
    apply (sublist_NoDup _ _ Hsh), sublist_take.
Qed.

(** A classroom without duplicate ids: the roster ids are pairwise distinct
    and, in each time mode, no id sits in two seats. *)
Definition classroomUnique (classroom : Classroom.t) : Prop :=
  NoDup (rosterIds (Classroom.students classroom)) /\
  forall tm, seatsUnique (TimeModeConfig.seats (getConfig classroom tm)).

Lemma classroomUnique_setConfig classroom timeMode config now :
  classroomUnique classroom ->
  seatsUnique (TimeModeConfig.seats config) ->
  classroomUnique (setUpdatedAt (setConfig classroom timeMode config) now).
Proof.
  intros [Hroster Hseats] Hcfg. split.
  - by rewrite students_setUpdatedAt, students_setConfig.
  - by apply unique_setConfig.
Qed.

Lemma slice_take_length {A} (l : list A) (n : Z) :
  0 <= n -> (length (slice l 0 n) <= Z.to_nat n)%nat.
Proof. intros Hn. rewrite slice_take, length_take by done. lia. Qed.

Lemma replaceStudents_unique createId now classroom names timeMode :
  NoDup (createId <$> seq 0 (Z.to_nat MAX_STUDENTS)) ->
  (forall tm, seatsUnique (TimeModeConfig.seats (getConfig classroom tm))) ->
  classroomUnique (replaceStudents createId now classroom names timeMode).
Proof.
  intros Hfresh Hseats. unfold replaceStudents.
  set (sanitizedNames := slice (uniqueNames names) 0 MAX_STUDENTS).
  set (students := imap (fun k name => Student.mk (createId k) name) sanitizedNames).
  assert (NoDup (Student.id <$> students)) as Hids.
  { unfold students. rewrite fmap_id_imap.
    pose proof (slice_take_length (uniqueNames names) MAX_STUDENTS ltac:(done)) as Hlen.
    fold sanitizedNames in Hlen.
    apply (sublist_NoDup _ _ Hfresh).
    replace (Z.to_nat MAX_STUDENTS) with
      (length sanitizedNames + (Z.to_nat MAX_STUDENTS - length sanitizedNames))%nat by lia.
    rewrite seq_app, fmap_app. by apply sublist_inserts_r. }
  split.
  - by rewrite students_setUpdatedAt, students_setConfig.
  - apply unique_setConfig.
    + intros tm. by rewrite getConfig_setStudents.
    + cbn [TimeModeConfig.seats]. apply seatsUnique_NoDup.
      rewrite capacity_nat, occupants_buildSeats.
      apply (sublist_NoDup _ _ Hids), sublist_take.
Qed.

Lemma swapSeatAssignments_unique now classroom first second timeMode :
  classroomUnique classroom ->
  classroomUnique (swapSeatAssignments now classroom first second timeMode).
Proof.
  intros Hu. unfold swapSeatAssignments.
  set (config := getConfig classroom timeMode).
  set (len := Z.of_nat (length (TimeModeConfig.seats config))).
  destruct (Z.eqb_spec first second); [done|].
  destruct (Z.ltb_spec first 0); [done|]. destruct (Z.ltb_spec second 0); [done|].
  destruct (Z.leb_spec len first); [done|]. destruct (Z.leb_spec len second); [done|].
  cbn [orb]. apply classroomUnique_setConfig; [done|]. cbn [setSeats TimeModeConfig.seats].
  apply seatsUnique_swap; [unfold len in *; lia..|apply Hu].
Qed.

Lemma clearSeat_unique now classroom seatIndex timeMode :
  classroomUnique classroom -> classroomUnique (clearSeat now classroom seatIndex timeMode).
Proof.
  intros Hu. unfold clearSeat.
  destruct (Z.ltb_spec seatIndex 0); [done|].
  destruct (Z.leb_spec (Z.of_nat (length (TimeModeConfig.seats (getConfig classroom timeMode))))
              seatIndex); [done|].
  cbn [orb]. apply classroomUnique_setConfig; [done|]. cbn [setSeats TimeModeConfig.seats].
  apply seatsUnique_clear; [lia|apply Hu].
Qed.

Lemma placeStudentInSeat_unique now classroom studentId seatIndex timeMode :
  classroomUnique classroom ->
  classroomUnique (placeStudentInSeat now classroom studentId seatIndex timeMode).
Proof.
  intros Hu. unfold placeStudentInSeat.
  destruct (Z.ltb_spec seatIndex 0); [done|].
  destruct (Z.leb_spec (Z.of_nat (length (TimeModeConfig.seats (getConfig classroom timeMode))))
              seatIndex); [done|].
  cbn [orb]. destruct (negb _); [done|].
  apply classroomUnique_setConfig; [done|]. cbn [setSeats TimeModeConfig.seats].
  apply seatsUnique_place; [lia|apply Hu].
Qed.

Lemma rotateSeatsOnce_unique now classroom timeMode :
  classroomUnique classroom -> classroomUnique (rotateSeatsOnce now classroom timeMode).
Proof.
  intros Hu. rewrite rotateSeatsOnce_eq.
  destruct (_ <=? 1); [done|].
  apply classroomUnique_setConfig; [done|apply rotatedConfig_unique].
Qed.

Lemma changeLayoutMode_unique now classroom layoutMode timeMode :
  classroomUnique classroom ->
  classroomUnique (changeLayoutMode now classroom layoutMode timeMode).
Proof.
  intros Hu. unfold changeLayoutMode.
  apply classroomUnique_setConfig; [done|].
  apply seatsUnique_NoDup, withLayout_occupants_NoDup.
Qed.

Lemma randomizeSeats_classroomUnique draw now classroom timeMode :
  classroomUnique classroom ->
  classroomUnique (randomizeSeats draw now classroom timeMode).
Proof.
  intros Hu. split.
  { unfold randomizeSeats. rewrite students_setUpdatedAt, students_setConfig. apply Hu. }
  intros tm. destruct (decide (timeMode = tm)) as [<-|Hne].
  - apply randomizeSeats_unique, Hu.
  - unfold randomizeSeats.
    rewrite getConfig_setUpdatedAt, getConfig_setConfig, decide_False by done. apply Hu.
Qed.

End OperationFacts.

(** ** State normalization ([src/lib/storage.ts]) *)

(** A parsed JSON document, the [unknown] value that the normalizers inspect.
    Numbers are the integers (the only numbers the application writes); an
    object is the list of its properties, one entry per key. *)
#[local] Unset Elimination Schemes.
Inductive json :=
| JNull
| JBool (b : bool)
| JNum (n : Z)
| JStr (s : string)
| JArr (items : list json)
| JObj (fields : list (string * json)).
#[local] Set Elimination Schemes.

Section JsonAccess.

(** [candidate.key]: [None] is [undefined]. Only objects have the properties
    the normalizers read (none of the keys is [length] or an index). *)
Fixpoint lookupField (fields : list (string * json)) (key : string) : option json :=
  match fields with
  | (name, value) :: rest => if String.eqb name key then Some value else lookupField rest key
  | [] => None
  end.

Definition prop (value : json) (key : string) : option json :=
  match value with
  | JObj fields => lookupField fields key
  | _ => None
  end.

(** [!(!value || typeof value !== 'object')]: a non-null object or array. *)
Definition isObject (value : json) : bool :=
  match value with
  | JArr _ | JObj _ => true
  | _ => false
  end.

(** JavaScript truthiness of a property that may be missing. *)
Definition jsTruthy (value : option json) : bool :=
  match value with
  | None | Some JNull => false
  | Some (JBool b) => b
  | Some (JNum n) => negb (n =? 0)%Z
  | Some (JStr s) => negb (String.eqb s "")
  | Some (JArr _) | Some (JObj _) => true
  end.

(** [typeof v === 'string' ? v : fallback]. *)
Definition toStringOrDefault (value : option json) (fallback : string) : string :=
  match value with
  | Some (JStr s) => s
  | _ => fallback
  end.

(** [typeof v === 'number' ? v : fallback]. *)
Definition toNumberOrDefault (value : option json) (fallback : Z) : Z :=
  match value with
  | Some (JNum n) => n
  | _ => fallback
  end.

(** [isLayoutMode(v) ? v : fallback]. *)
Definition toLayoutMode (value : option json) (fallback : LayoutMode.t) : LayoutMode.t :=
  match value with
  | Some (JStr s) =>
      if String.eqb s "THREE_ROWS" then LayoutMode.THREE_ROWS
      else if String.eqb s "GROUPS" then LayoutMode.GROUPS
      else if String.eqb s "ARC" then LayoutMode.ARC
      else fallback
  | _ => fallback
  end.

Definition isLayoutMode (value : option json) : bool :=
  match value with
  | Some (JStr s) => String.eqb s "THREE_ROWS" || String.eqb s "GROUPS" || String.eqb s "ARC"
  | _ => false
  end.

(** [isTimeMode(v) ? v : 'weekday']. *)
Definition toTimeMode (value : option json) : TimeMode.t :=
  match value with
  | Some (JStr s) => if String.eqb s "weekend" then TimeMode.weekend else TimeMode.weekday
  | _ => TimeMode.weekday
  end.

(** [isStudent(value)], returning the student it recognizes. *)
Definition toStudent (value : json) : option Student.t :=
  if isObject value then
    match prop value "id", prop value "name" with
    | Some (JStr id), Some (JStr name) => Some (Student.mk id name)
    | _, _ => None
    end
  else None.

(** [Array.isArray(v) ? v.filter(isStudent) : []]. *)
Definition toStudents (value : option json) : list Student.t :=
  match value with
  | Some (JArr items) => omap toStudent items
  | _ => []
  end.

(** [Array.isArray(v) ? v.map(seat => typeof seat === 'string' &&
    studentIds.has(seat) ? seat : null) : []]. *)
Definition toSeats (value : option json) (studentIds : gset string) : list Seat :=
  match value with
  | Some (JArr items) =>
      (fun seat =>
         match seat with
         | JStr s => if bool_decide (s ∈ studentIds) then Some s else None
         | _ => None
         end) <$> items
  | _ => []
  end.

End JsonAccess.

Definition APP_VERSION : Z := 3.

Section Normalize.
Local Open Scope Z_scope.

(** The environment of a normalization: [now] is the value of
    [new Date().toISOString()], and [dateValid s] tells whether
    [new Date(s).valueOf()] is a number other than NaN. *)
Variable now : string.
Variable dateValid : string -> bool.

Definition createDefaultTimeModeConfig (students : list Student.t) : TimeModeConfig.t :=
  let metrics := getLayoutMetrics LayoutMode.GROUPS (Z.of_nat (length students)) in
  {| TimeModeConfig.layoutMode := LayoutMode.GROUPS;
     TimeModeConfig.rows := LayoutMetrics.rows metrics;
     TimeModeConfig.cols := LayoutMetrics.cols metrics;
     TimeModeConfig.seats := replicate (Z.to_nat (LayoutMetrics.capacity metrics)) None;
     TimeModeConfig.rotationCount := 0;
     TimeModeConfig.weekLabel := "第1周";
     TimeModeConfig.classTime := "" |}.

Definition normalizeTimeModeConfig (value : option json) (students : list Student.t)
    (fallbackMode : LayoutMode.t) : option TimeModeConfig.t :=
  match value with
  | Some candidate =>
      if isObject candidate then
        let layoutMode := toLayoutMode (prop candidate "layoutMode") fallbackMode in
        let studentIds : gset string := list_to_set (Student.id <$> students) in
        let seats := toSeats (prop candidate "seats") studentIds in
        let metrics := getLayoutMetrics layoutMode (Z.of_nat (length students)) in
        Some
          {| TimeModeConfig.layoutMode := layoutMode;
             TimeModeConfig.rows :=
               toNumberOrDefault (prop candidate "rows") (LayoutMetrics.rows metrics);
             TimeModeConfig.cols :=
               toNumberOrDefault (prop candidate "cols") (LayoutMetrics.cols metrics);
             TimeModeConfig.seats := seats;
             TimeModeConfig.rotationCount :=
               toNumberOrDefault (prop candidate "rotationCount") 0;
             TimeModeConfig.weekLabel := toStringOrDefault (prop candidate "weekLabel") "第1周";
             TimeModeConfig.classTime := toStringOrDefault (prop candidate "classTime") "" |}
      else None
  | None => None
  end.

(** [name.trim() || '未命名班级']. *)
Definition normalizeName (name : string) : string :=
  let trimmed := trim name in
  if String.eqb trimmed "" then "未命名班级" else trimmed.

(** The [updatedAt] expression shared by [normalizeClassroom] and
    [migrateV2Classroom]. *)
Definition normalizeUpdatedAt (value : option json) : string :=
  match value with
  | Some (JStr s) => if dateValid s then s else now
  | _ => now
  end.

Definition migrateV2Classroom (candidate : json) (students : list Student.t)
    : option Classroom.t :=
  match prop candidate "id", prop candidate "name" with
  | Some (JStr id), Some (JStr name) =>
      let rawStudents :=
        match prop candidate "students" with
        | Some (JArr items) => omap toStudent items
        | _ => students
        end in
      let studentIds : gset string := list_to_set (Student.id <$> rawStudents) in
      let inferredMode :=
        if isLayoutMode (prop candidate "layoutMode")
        then toLayoutMode (prop candidate "layoutMode") LayoutMode.GROUPS
        else match prop candidate "rows" with
             | Some (JNum rows) =>
                 if rows <=? 3 then LayoutMode.THREE_ROWS else LayoutMode.GROUPS
             | _ => LayoutMode.GROUPS
             end in
      let seats := toSeats (prop candidate "seats") studentIds in
      let metrics := getLayoutMetrics inferredMode (Z.of_nat (length rawStudents)) in
      let config :=
        {| TimeModeConfig.layoutMode := inferredMode;
           TimeModeConfig.rows :=
             toNumberOrDefault (prop candidate "rows") (LayoutMetrics.rows metrics);
           TimeModeConfig.cols :=
             toNumberOrDefault (prop candidate "cols") (LayoutMetrics.cols metrics);
           TimeModeConfig.seats := seats;
           TimeModeConfig.rotationCount :=
             toNumberOrDefault (prop candidate "rotationCount") 0;
           TimeModeConfig.weekLabel := toStringOrDefault (prop candidate "weekLabel") "第1周";
           TimeModeConfig.classTime := toStringOrDefault (prop candidate "classTime") "" |} in
      let emptyConfig := createDefaultTimeModeConfig rawStudents in
      let classroom :=
        {| Classroom.id := id;
           Classroom.name := normalizeName name;
           Classroom.students := rawStudents;
           Classroom.campus := toStringOrDefault (prop candidate "campus") "";
           Classroom.building := toStringOrDefault (prop candidate "building") "";
           Classroom.room := toStringOrDefault (prop candidate "room") "";
           Classroom.sideNotes := toStringOrDefault (prop candidate "sideNotes") "";
           Classroom.updatedAt := normalizeUpdatedAt (prop candidate "updatedAt");
           Classroom.weekday := config;
           Classroom.weekend := emptyConfig |} in
      Some (normalizeClassroomLayout (normalizeClassroomLayout classroom TimeMode.weekday)
              TimeMode.weekend)
  | _, _ => None
  end.

Definition normalizeClassroom (value : json) : option Classroom.t :=
  if isObject value then
    match prop value "id", prop value "name" with
    | Some (JStr id), Some (JStr name) =>
        let students := toStudents (prop value "students") in
        if (length students =? 0)%nat && negb (jsTruthy (prop value "weekday"))
           && negb (jsTruthy (prop value "weekend"))
           && match prop value "seats" with Some (JArr _) => true | _ => false end
        then migrateV2Classroom value students
        else
          let weekday :=
            default (createDefaultTimeModeConfig students)
              (normalizeTimeModeConfig (prop value "weekday") students LayoutMode.GROUPS) in
          let weekend :=
            default (createDefaultTimeModeConfig students)
              (normalizeTimeModeConfig (prop value "weekend") students LayoutMode.GROUPS) in
          let classroom :=
            {| Classroom.id := id;
               Classroom.name := normalizeName name;
               Classroom.students := students;
               Classroom.campus := toStringOrDefault (prop value "campus") "";
               Classroom.building := toStringOrDefault (prop value "building") "";
               Classroom.room := toStringOrDefault (prop value "room") "";
               Classroom.sideNotes := toStringOrDefault (prop value "sideNotes") "";
               Classroom.updatedAt := normalizeUpdatedAt (prop value "updatedAt");
               Classroom.weekday := weekday;
               Classroom.weekend := weekend |} in
          Some (normalizeClassroomLayout (normalizeClassroomLayout classroom TimeMode.weekday)
                  TimeMode.weekend)
    | _, _ => None
    end
  else None.

Definition getEmptyState : AppState.t :=
  {| AppState.version := APP_VERSION;
     AppState.classrooms := [];
     AppState.activeClassroomId := None;
     AppState.activeTimeMode := TimeMode.weekday |}.

Definition normalizeState (value : json) : option AppState.t :=
  if isObject value then
    match prop value "classrooms" with
    | Some (JArr items) =>
        let classrooms := omap normalizeClassroom items in
        let activeClassroomId :=
          match prop value "activeClassroomId" with
          | Some (JStr activeId) =>
              if existsb (fun classroom => String.eqb (Classroom.id classroom) activeId) classrooms
              then Some activeId
              else Classroom.id <$> head classrooms
          | _ => Classroom.id <$> head classrooms
          end in
        let activeTimeMode := toTimeMode (prop value "activeTimeMode") in
        Some
          {| AppState.version := APP_VERSION;
             AppState.classrooms := classrooms;
             AppState.activeClassroomId := activeClassroomId;
             AppState.activeTimeMode := activeTimeMode |}
    | _ => None
    end
  else None.

(** [parseBackup]: [JSON_parse rawText] is [None] when [JSON.parse] throws. *)
Definition parseBackup (JSON_parse : string -> option json) (rawText : string)
    : option AppState.t :=
  match JSON_parse rawText with
  | Some parsed => normalizeState parsed
  | None => None
  end.

End Normalize.

(** ** Serialization: the JSON value of a state, as [JSON.stringify] writes it
    and [JSON.parse] reads it back. *)

Section Serialize.

Definition layoutModeName (layoutMode : LayoutMode.t) : string :=
  match layoutMode with
  | LayoutMode.THREE_ROWS => "THREE_ROWS"
  | LayoutMode.GROUPS => "GROUPS"
  | LayoutMode.ARC => "ARC"
  end.

Definition timeModeName (timeMode : TimeMode.t) : string :=
  match timeMode with
  | TimeMode.weekday => "weekday"
  | TimeMode.weekend => "weekend"
  end.

Definition seatToJson (seat : Seat) : json :=
  match seat with
  | Some s => JStr s
  | None => JNull
  end.

Definition studentToJson (student : Student.t) : json :=
  JObj [("id", JStr (Student.id student)); ("name", JStr (Student.name student))].

Definition configToJson (config : TimeModeConfig.t) : json :=
  JObj [("layoutMode", JStr (layoutModeName (TimeModeConfig.layoutMode config)));
        ("rows", JNum (TimeModeConfig.rows config));
        ("cols", JNum (TimeModeConfig.cols config));
        ("seats", JArr (seatToJson <$> TimeModeConfig.seats config));
        ("rotationCount", JNum (TimeModeConfig.rotationCount config));
        ("weekLabel", JStr (TimeModeConfig.weekLabel config));
        ("classTime", JStr (TimeModeConfig.classTime config))].

Definition classroomToJson (classroom : Classroom.t) : json :=
  JObj [("id", JStr (Classroom.id classroom));
        ("name", JStr (Classroom.name classroom));
        ("students", JArr (studentToJson <$> Classroom.students classroom));
        ("campus", JStr (Classroom.campus classroom));
        ("building", JStr (Classroom.building classroom));
        ("room", JStr (Classroom.room classroom));
        ("sideNotes", JStr (Classroom.sideNotes classroom));
        ("updatedAt", JStr (Classroom.updatedAt classroom));
        ("weekday", configToJson (Classroom.weekday classroom));
        ("weekend", configToJson (Classroom.weekend classroom))].

Definition stateToJson (state : AppState.t) : json :=
  JObj [("version", JNum (AppState.version state));
        ("classrooms", JArr (classroomToJson <$> AppState.classrooms state));
        ("activeClassroomId",
         match AppState.activeClassroomId state with
         | Some activeId => JStr activeId
         | None => JNull
         end);
        ("activeTimeMode", JStr (timeModeName (AppState.activeTimeMode state)))].

End Serialize.

(** ** Normalization: what it returns, and when it is the identity *)

Section NormalizeFacts.
Local Open Scope Z_scope.

Variable now : string.
Variable dateValid : string -> bool.

(** A config that the reconciler leaves as it is. *)
Definition reconciled (classroom : Classroom.t) (timeMode : TimeMode.t) : Prop :=
  let config := getConfig classroom timeMode in
  withLayout config (TimeModeConfig.layoutMode config) (Classroom.students classroom) = config.

(** What every reconciled config satisfies. *)
Definition configWellFormed (students : list Student.t) (config : TimeModeConfig.t) : Prop :=
  let metrics :=
    getLayoutMetrics (TimeModeConfig.layoutMode config) (Z.of_nat (length students)) in
  TimeModeConfig.rows config = LayoutMetrics.rows metrics /\
  TimeModeConfig.cols config = LayoutMetrics.cols metrics /\
  Z.of_nat (length (TimeModeConfig.seats config)) = LayoutMetrics.capacity metrics /\
  seatsUnique (TimeModeConfig.seats config) /\
  (forall s, Some s ∈ TimeModeConfig.seats config -> s ∈ rosterIds students).

Lemma withLayout_wellFormed config layoutMode students :
  configWellFormed students (withLayout config layoutMode students).
Proof.
  unfold configWellFormed. cbv zeta. rewrite withLayout_layoutMode.
  split; [by destruct layoutMode|]. split; [by destruct layoutMode|]. split; [|split].
  - rewrite withLayout_seats_length. symmetry. apply capacity_nat.
  - apply seatsUnique_NoDup, withLayout_occupants_NoDup.
  - intros s Hs. apply elem_of_occupants in Hs. by apply withLayout_occupants_roster in Hs.
Qed.

Lemma normalizeClassroomLayout_twice classroom :
  let classroom' :=
    normalizeClassroomLayout (normalizeClassroomLayout classroom TimeMode.weekday)
      TimeMode.weekend in
  Classroom.students classroom' = Classroom.students classroom /\
  Classroom.id classroom' = Classroom.id classroom /\
  forall tm,
    getConfig classroom' tm =
    withLayout (getConfig classroom tm) (TimeModeConfig.layoutMode (getConfig classroom tm))
      (Classroom.students classroom).
Proof.
  cbv zeta. split; [done|]. split; [done|]. by intros [].
Qed.

Lemma normalizeClassroomLayout_twice_id classroom :
  (forall tm, reconciled classroom tm) ->
  normalizeClassroomLayout (normalizeClassroomLayout classroom TimeMode.weekday)
    TimeMode.weekend = classroom.
Proof.
  intros Hrec. pose proof (Hrec TimeMode.weekday) as Hd. pose proof (Hrec TimeMode.weekend) as He.
  unfold reconciled in Hd, He. cbn [getConfig] in Hd, He.
  destruct classroom. unfold normalizeClassroomLayout. cbn in *. by rewrite Hd, He.
Qed.

(** A classroom that normalization returns is reconciled with its roster in
    both time modes. *)
Definition classroomWellFormed (classroom : Classroom.t) : Prop :=
  forall tm, configWellFormed (Classroom.students classroom) (getConfig classroom tm).

Lemma normalizeClassroomLayout_twice_wellFormed classroom :
  classroomWellFormed
    (normalizeClassroomLayout (normalizeClassroomLayout classroom TimeMode.weekday)
       TimeMode.weekend).
Proof.
  intros tm. destruct (normalizeClassroomLayout_twice classroom) as (Hst & _ & Hcfg).
  rewrite Hst, Hcfg. apply withLayout_wellFormed.
Qed.

Lemma migrateV2Classroom_wellFormed candidate students classroom :
  migrateV2Classroom now dateValid candidate students = Some classroom ->
  classroomWellFormed classroom.
Proof.
  unfold migrateV2Classroom. intros H.
  destruct (prop candidate "id") as [[| | |id| |]|]; try done.
  destruct (prop candidate "name") as [[| | |name| |]|]; try done.
  cbv zeta in H. apply (inj Some) in H. rewrite <- H.
  apply normalizeClassroomLayout_twice_wellFormed.
Qed.

Lemma normalizeClassroom_wellFormed value classroom :
  normalizeClassroom now dateValid value = Some classroom -> classroomWellFormed classroom.
Proof.
  unfold normalizeClassroom. intros H.
  destruct (isObject value); [|done].
  destruct (prop value "id") as [[| | |id| |]|]; try done.
  destruct (prop value "name") as [[| | |name| |]|]; try done.
  cbv zeta in H. destruct (_ && _) in H.
  - by apply migrateV2Classroom_wellFormed in H.
  - apply (inj Some) in H. rewrite <- H. apply normalizeClassroomLayout_twice_wellFormed.
Qed.

(** The active classroom id of a state names one of its classrooms, or is
    [null] when there is none. *)
Definition activeIdOk (state : AppState.t) : Prop :=
  match AppState.activeClassroomId state with
  | Some activeId =>
      exists classroom,
        classroom ∈ AppState.classrooms state /\ Classroom.id classroom = activeId
  | None => AppState.classrooms state = []
  end.

Definition stateWellFormed (state : AppState.t) : Prop :=
  AppState.version state = APP_VERSION /\
  activeIdOk state /\
  forall classroom, classroom ∈ AppState.classrooms state -> classroomWellFormed classroom.

(** The value is an object (or array) whose [classrooms] property is an array. *)
Definition hasClassroomsArray (value : json) : Prop :=
  isObject value = true /\ exists items, prop value "classrooms" = Some (JArr items).

Lemma normalizeState_None value :
  normalizeState now dateValid value = None <-> ~ hasClassroomsArray value.
Proof.
  unfold normalizeState, hasClassroomsArray. split.
  - intros H [Hobj (items & Hitems)]. by rewrite Hobj, Hitems in H.
  - intros H. destruct (isObject value); [|done].
    destruct (prop value "classrooms") as [[| | | |items|]|]; try done.
    exfalso. apply H. eauto.
Qed.

Lemma head_id_ok (classrooms : list Classroom.t) :
  match Classroom.id <$> head classrooms with
  | Some activeId =>
      exists classroom, classroom ∈ classrooms /\ Classroom.id classroom = activeId
  | None => classrooms = []
  end.
Proof.
  destruct classrooms as [|classroom rest]; cbn; [done|].
  exists classroom. split; [left|done].
Qed.

Lemma normalizeState_wellFormed value state :
  normalizeState now dateValid value = Some state -> stateWellFormed state.
Proof.
  unfold normalizeState. intros H.
  destruct (isObject value); [|done].
  destruct (prop value "classrooms") as [[| | | |items|]|]; try done.
  cbv zeta in H. apply (inj Some) in H. rewrite <- H. split; [done|]. split.
  - unfold activeIdOk. cbn [AppState.activeClassroomId AppState.classrooms].
    set (classrooms := omap (normalizeClassroom now dateValid) items).
    destruct (prop value "activeClassroomId") as [[| | |activeId| |]|];
      try apply head_id_ok.
    destruct (existsb _ classrooms) eqn:Hex; [|apply head_id_ok].
    apply existsb_exists in Hex as (classroom & Hin & Heq).
    exists classroom. split; [by apply list_elem_of_In|].
    by apply String.eqb_eq in Heq.
  - cbn [AppState.classrooms]. intros classroom Hin.
    apply list_elem_of_omap in Hin as (item & _ & Hitem).
    by apply normalizeClassroom_wellFormed in Hitem.
Qed.

(** *** Round trip *)

Lemma toStudents_roundtrip (students : list Student.t) :
  toStudents (Some (JArr (studentToJson <$> students))) = students.
Proof.
  cbn. induction students as [|[id name] students IH]; [done|].
  cbn. f_equal. apply IH.
Qed.

Lemma toSeats_roundtrip (seats : list Seat) (studentIds : gset string) :
  (forall s, Some s ∈ seats -> s ∈ studentIds) ->
  toSeats (Some (JArr (seatToJson <$> seats))) studentIds = seats.
Proof.
  intros Hin. cbn. induction seats as [|seat seats IH]; [done|].
  cbn [fmap list_fmap]. f_equal.
  - destruct seat as [s|]; [|done]. cbn. rewrite bool_decide_eq_true_2; [done|].
    apply Hin. left.
  - apply IH. intros s Hs. apply Hin. by right.
Qed.

Lemma toLayoutMode_roundtrip layoutMode fallback :
  toLayoutMode (Some (JStr (layoutModeName layoutMode))) fallback = layoutMode.
Proof. by destruct layoutMode. Qed.


Lemma normalizeTimeModeConfig_roundtrip config students fallback :
  (forall s, Some s ∈ TimeModeConfig.seats config -> s ∈ rosterIds students) ->
  normalizeTimeModeConfig (Some (configToJson config)) students fallback = Some config.
Proof.
  intros Hin. destruct config as [layoutMode rows cols seats rotationCount weekLabel classTime].
  unfold normalizeTimeModeConfig, configToJson.
  cbn [isObject prop lookupField String.eqb Ascii.eqb Bool.eqb
       toNumberOrDefault toStringOrDefault TimeModeConfig.layoutMode TimeModeConfig.rows
       TimeModeConfig.cols TimeModeConfig.seats TimeModeConfig.rotationCount
       TimeModeConfig.weekLabel TimeModeConfig.classTime].
  rewrite toLayoutMode_roundtrip, toSeats_roundtrip; [done|].
  intros s Hs. apply elem_of_list_to_set. by apply Hin.
Qed.

(** A classroom that normalization leaves as it is: its name is what
    [name.trim() || '未命名班级'] gives, its timestamp is a valid date, and both
    configs are reconciled with the roster. *)
Definition classroomNormal (classroom : Classroom.t) : Prop :=
  normalizeName (Classroom.name classroom) = Classroom.name classroom /\
  dateValid (Classroom.updatedAt classroom) = true /\
  forall tm, reconciled classroom tm.

Lemma reconciled_roster classroom timeMode s :
  reconciled classroom timeMode ->
  Some s ∈ TimeModeConfig.seats (getConfig classroom timeMode) ->
  s ∈ rosterIds (Classroom.students classroom).
Proof.
  unfold reconciled. cbv zeta. intros Hrec Hs. rewrite <- Hrec in Hs.
  apply elem_of_occupants in Hs. by apply withLayout_occupants_roster in Hs.
Qed.

Lemma normalizeClassroom_roundtrip classroom :
  classroomNormal classroom ->
  normalizeClassroom now dateValid (classroomToJson classroom) = Some classroom.
Proof.
  intros (Hname & Hdate & Hrec).
  pose proof (fun s => reconciled_roster classroom TimeMode.weekday s (Hrec TimeMode.weekday)) as Hd.
  pose proof (fun s => reconciled_roster classroom TimeMode.weekend s (Hrec TimeMode.weekend)) as He.
  pose proof (normalizeClassroomLayout_twice_id classroom Hrec) as Hid.
  destruct classroom as [id name students campus building room sideNotes updatedAt weekday weekend].
  cbn [getConfig Classroom.weekday Classroom.weekend Classroom.students Classroom.name
       Classroom.updatedAt] in *.
  unfold normalizeClassroom, classroomToJson.
  cbn [isObject prop lookupField String.eqb Ascii.eqb Bool.eqb
       Classroom.id Classroom.name Classroom.students Classroom.campus Classroom.building
       Classroom.room Classroom.sideNotes Classroom.updatedAt Classroom.weekday
       Classroom.weekend].
  rewrite toStudents_roundtrip.
  replace (jsTruthy (Some (configToJson weekday))) with true by done.
  rewrite andb_false_r. cbn [andb negb].
  rewrite !normalizeTimeModeConfig_roundtrip by done.
  cbn [default from_option toStringOrDefault normalizeUpdatedAt].
  unfold Datatypes.id. rewrite Hname, Hdate. by rewrite Hid.
Qed.

Lemma normalizeClassrooms_roundtrip (classrooms : list Classroom.t) :
  (forall classroom, classroom ∈ classrooms -> classroomNormal classroom) ->
  omap (normalizeClassroom now dateValid) (classroomToJson <$> classrooms) = classrooms.
Proof.
  induction classrooms as [|classroom classrooms IH]; intros Hall; [done|].
  cbn [fmap list_fmap omap list_omap].
  rewrite normalizeClassroom_roundtrip by (apply Hall; left).
  f_equal. apply IH. intros c Hc. apply Hall. by right.
Qed.

End NormalizeFacts.

(** ** Rotation guard, timestamps, uniqueness and re-seating: the theorems *)

Section OperationTheorems.
Local Open Scope Z_scope.

Lemma rotateSeatsOnce_guarded (now : string) (classroom : Classroom.t)
    (timeMode : TimeMode.t) :
  getAssignedCount (getConfig classroom timeMode) <= 1 ->
  rotateSeatsOnce now classroom timeMode = classroom.
Proof.
  intros Hcount. rewrite rotateSeatsOnce_eq.
  by destruct (Z.leb_spec (getAssignedCount (getConfig classroom timeMode)) 1); [|lia].
Qed.

(** C4: when at most one seat of the chosen time mode's config is occupied
    ([getAssignedCount] is at most 1), [rotateSeatsOnce] returns the classroom
    it was given: same seats, same [rotationCount], no other field changed. *)
Theorem rotateSeatsOnce_noop (now : string) (classroom : Classroom.t)
    (timeMode : TimeMode.t) :
  getAssignedCount (getConfig classroom timeMode) <= 1 ->
  rotateSeatsOnce now classroom timeMode = classroom /\
  TimeModeConfig.seats (getConfig (rotateSeatsOnce now classroom timeMode) timeMode) =
    TimeModeConfig.seats (getConfig classroom timeMode) /\
  TimeModeConfig.rotationCount (getConfig (rotateSeatsOnce now classroom timeMode) timeMode) =
    TimeModeConfig.rotationCount (getConfig classroom timeMode).
Proof.
  intros Hcount. by rewrite rotateSeatsOnce_guarded.
Qed.

(** The seats that are not [null]. *)
Lemma nonNull_count_noop (now : string) (classroom : Classroom.t) (timeMode : TimeMode.t) :
  (length (nonNull (TimeModeConfig.seats (getConfig classroom timeMode))) <= 1)%nat ->
  rotateSeatsOnce now classroom timeMode = classroom.
Proof.
  intros Hcount. apply rotateSeatsOnce_guarded. rewrite getAssignedCount_count.
  pose proof (sublist_length _ _
    (truthyIds_sublist (TimeModeConfig.seats (getConfig classroom timeMode)))) as Hle.
  rewrite <- occupants_nonNull in Hle.
  assert (length (occupants (nonNull (TimeModeConfig.seats (getConfig classroom timeMode))))
          <= length (nonNull (TimeModeConfig.seats (getConfig classroom timeMode))))%nat.
  { unfold occupants. generalize (nonNull (TimeModeConfig.seats (getConfig classroom timeMode))).
    induction l as [|[s|] l IH]; cbn; lia. }
  lia.
Qed.

(** C8, as the code has it: every operation refreshes [updatedAt] with the
    clock reading of the call, except on its no-op path, where it returns its
    input (old timestamp included). [replaceStudents], [changeLayoutMode] and
    [randomizeSeats] have no such path; [swapSeatAssignments] has one for
    equal or out-of-range indices, [clearSeat] for an out-of-range index,
    [placeStudentInSeat] for an out-of-range index or an id that is not in
    the roster, [rotateSeatsOnce] for at most one occupied seat. *)
Theorem updatedAt_refreshed_unless_noop (now : string) (classroom : Classroom.t)
    (timeMode : TimeMode.t) :
  let len := Z.of_nat (length (TimeModeConfig.seats (getConfig classroom timeMode))) in
  (forall createId names,
     Classroom.updatedAt (replaceStudents createId now classroom names timeMode) = now) /\
  (forall layoutMode,
     Classroom.updatedAt (changeLayoutMode now classroom layoutMode timeMode) = now) /\
  (forall draw, Classroom.updatedAt (randomizeSeats draw now classroom timeMode) = now) /\
  (forall first second,
     (first = second \/ first < 0 \/ second < 0 \/ len <= first \/ len <= second ->
      swapSeatAssignments now classroom first second timeMode = classroom) /\
     (first <> second /\ 0 <= first < len /\ 0 <= second < len ->
      Classroom.updatedAt (swapSeatAssignments now classroom first second timeMode) = now)) /\
  (forall seatIndex,
     (seatIndex < 0 \/ len <= seatIndex ->
      clearSeat now classroom seatIndex timeMode = classroom) /\
     (0 <= seatIndex < len ->
      Classroom.updatedAt (clearSeat now classroom seatIndex timeMode) = now)) /\
  (forall studentId seatIndex,
     (seatIndex < 0 \/ len <= seatIndex \/ studentId ∉ rosterIds (Classroom.students classroom) ->
      placeStudentInSeat now classroom studentId seatIndex timeMode = classroom) /\
     (0 <= seatIndex < len /\ studentId ∈ rosterIds (Classroom.students classroom) ->
      Classroom.updatedAt (placeStudentInSeat now classroom studentId seatIndex timeMode) = now)) /\
  (getAssignedCount (getConfig classroom timeMode) <= 1 ->
   rotateSeatsOnce now classroom timeMode = classroom) /\
  (1 < getAssignedCount (getConfig classroom timeMode) ->
   Classroom.updatedAt (rotateSeatsOnce now classroom timeMode) = now).
Proof.
  intros len. repeat split.
  - intros Hnoop. unfold swapSeatAssignments. fold len.
    destruct (Z.eqb_spec first second); [done|].
    destruct (Z.ltb_spec first 0); [done|]. destruct (Z.ltb_spec second 0); [done|].
    destruct (Z.leb_spec len first); [done|]. destruct (Z.leb_spec len second); [done|]. lia.
  - intros (Hne & Hf & Hs). unfold swapSeatAssignments. fold len.
    destruct (Z.eqb_spec first second); [done|].
    destruct (Z.ltb_spec first 0); [lia|]. destruct (Z.ltb_spec second 0); [lia|].
    destruct (Z.leb_spec len first); [lia|]. destruct (Z.leb_spec len second); [lia|]. done.
  - intros Hnoop. unfold clearSeat. fold len.
    destruct (Z.ltb_spec seatIndex 0); [done|]. destruct (Z.leb_spec len seatIndex); [done|]. lia.
  - intros Hi. unfold clearSeat. fold len.
    destruct (Z.ltb_spec seatIndex 0); [lia|]. destruct (Z.leb_spec len seatIndex); [lia|]. done.
  - intros Hnoop. unfold placeStudentInSeat. fold len.
    destruct (Z.ltb_spec seatIndex 0); [done|]. destruct (Z.leb_spec len seatIndex); [done|].
    cbn [orb]. destruct (existsb _ _) eqn:Hex; [|done]. exfalso.
    destruct Hnoop as [?|[?|Hnotin]]; [lia|lia|]. apply Hnotin.
    apply existsb_exists in Hex as (student & Hin & Heq).
    apply String.eqb_eq in Heq. subst studentId.
    apply list_elem_of_fmap. exists student. split; [done|]. by apply list_elem_of_In.
  - intros (Hi & Hin). unfold placeStudentInSeat. fold len.
    destruct (Z.ltb_spec seatIndex 0); [lia|]. destruct (Z.leb_spec len seatIndex); [lia|].
    cbn [orb]. destruct (existsb _ _) eqn:Hex; [done|]. exfalso.
    apply list_elem_of_fmap in Hin as (student & -> & Hin).
    apply not_true_iff_false in Hex. apply Hex, existsb_exists.
    exists student. split; [by apply list_elem_of_In|apply String.eqb_refl].
  - apply rotateSeatsOnce_guarded.
  - intros Hguard. rewrite rotateSeatsOnce_eq.
    by destruct (Z.leb_spec (getAssignedCount (getConfig classroom timeMode)) 1); [lia|].
Qed.

(** C5, as the code has it: a classroom without duplicate ids (pairwise
    distinct roster ids, and in each time mode no id in two seats) stays so
    under every public operation; [replaceStudents] needs the ids that
    [createId] returns during the call to be pairwise distinct. *)
Theorem operations_keep_ids_unique (now : string) (classroom : Classroom.t)
    (timeMode : TimeMode.t) :
  classroomUnique classroom ->
  (forall createId names,
     NoDup (createId <$> seq 0 (Z.to_nat MAX_STUDENTS)) ->
     classroomUnique (replaceStudents createId now classroom names timeMode)) /\
  (forall layoutMode, classroomUnique (changeLayoutMode now classroom layoutMode timeMode)) /\
  (forall first second,
     classroomUnique (swapSeatAssignments now classroom first second timeMode)) /\
  (forall seatIndex, classroomUnique (clearSeat now classroom seatIndex timeMode)) /\
  (forall studentId seatIndex,
     classroomUnique (placeStudentInSeat now classroom studentId seatIndex timeMode)) /\
  classroomUnique (rotateSeatsOnce now classroom timeMode) /\
  (forall draw, classroomUnique (randomizeSeats draw now classroom timeMode)).
Proof.
  intros Hu. refine (conj _ (conj _ (conj _ (conj _ (conj _ (conj _ _)))))).
  - intros createId names Hfresh. apply replaceStudents_unique; [done|apply Hu].
  - intros layoutMode. by apply changeLayoutMode_unique.
  - intros first second. by apply swapSeatAssignments_unique.
  - intros seatIndex. by apply clearSeat_unique.
  - intros studentId seatIndex. by apply placeStudentInSeat_unique.
  - by apply rotateSeatsOnce_unique.
  - intros draw. by apply randomizeSeats_classroomUnique.
Qed.

Lemma filter_nil_forall {A} (P : A -> Prop) `{forall x, Decision (P x)} (l : list A) :
  (forall x, x ∈ l -> ~ P x) -> filter P l = [].
Proof.
  induction l as [|x l IH]; intros Hl; [done|].
  rewrite filter_cons_False by (apply Hl; left).
  apply IH. intros y Hy. apply Hl. by right.
Qed.

Lemma assigned_truthyIds (seats : list Seat) :
  omap id (filter (fun seat => truthy seat = true) seats) = truthyIds seats.
Proof.
  induction seats as [|seat seats IH]; [done|]. unfold truthyIds. cbn [omap list_omap].
  destruct (truthy seat) eqn:Hseat.
  - rewrite filter_cons_True by done. cbn [omap list_omap].
    destruct seat as [s|]; [|done]. cbn. f_equal. apply IH.
  - rewrite filter_cons_False by (by rewrite Hseat). destruct seat; apply IH.
Qed.

(** C9, as the code has it: when the chosen config has at least two occupied
    seats, the roster fits the layout's capacity and no roster id is the empty
    string, [rotateSeatsOnce] leaves no student unassigned. *)
Theorem rotateSeatsOnce_reseats_roster (now : string) (classroom : Classroom.t)
    (timeMode : TimeMode.t) :
  let config := getConfig classroom timeMode in
  let students := Classroom.students classroom in
  1 < getAssignedCount config ->
  Z.of_nat (length students) <=
    LayoutMetrics.capacity
      (getLayoutMetrics (TimeModeConfig.layoutMode config) (Z.of_nat (length students))) ->
  (forall student, student ∈ students -> Student.id student <> "") ->
  getUnassignedStudents (rotateSeatsOnce now classroom timeMode) timeMode = [].
Proof.
  intros config students Hguard Hcap Hnonempty.
  unfold getUnassignedStudents. rewrite rotateSeatsOnce_eq. fold config students.
  destruct (Z.leb_spec (getAssignedCount config) 1); [lia|].
  rewrite getConfig_setUpdatedAt, getConfig_setConfig, decide_True by done.
  rewrite students_setUpdatedAt, students_setConfig. fold students.
  rewrite assigned_truthyIds.
  apply filter_nil_forall. intros student Hin Hnot. apply Hnot.
  apply elem_of_list_to_set, elem_of_truthyIds. split; [|by apply Hnonempty].
  apply elem_of_occupants. rewrite rotatedConfig_occupants.
  assert (Student.id student ∈ occupants (TimeModeConfig.seats
            (withLayout config (TimeModeConfig.layoutMode config) students))) as Hseated.
  { rewrite withLayout_occupants_all by done.
    apply getOrderedStudentIds_elem, list_elem_of_fmap. by exists student. }
  destruct (TimeModeConfig.layoutMode config) eqn:Hmode; [done|done|].
  rewrite truthyIds_nonempty; [done|].
  intros s Hs. apply elem_of_occupants, withLayout_occupants_roster in Hs.
  apply list_elem_of_fmap in Hs as (student' & -> & Hin'). by apply Hnonempty.
Qed.

End OperationTheorems.

(** ** Import and round trip: the theorems *)

Section StorageTheorems.
Local Open Scope Z_scope.

Variable now : string.
Variable dateValid : string -> bool.















End StorageTheorems.

(** ** Worked examples *)

Section Examples.
Local Open Scope Z_scope.

(** An environment for running the operations: [createId] returns [id-0],
    [id-1], ...; the clock readings are ISO timestamps; a string counts as a
    date when it has the length of one. *)
Definition exampleId (k : nat) : string := "id-" +:+ pretty k.
Definition laterId (k : nat) : string := exampleId (k + 36).
Definition exampleDateValid (s : string) : bool := (String.length s =? 24)%nat.
Definition day1 : string := "2024-03-01T08:00:00.000Z".
Definition day2 : string := "2024-03-02T08:00:00.000Z".
Definition day3 : string := "2024-03-03T08:00:00.000Z".
Definition day4 : string := "2024-03-04T08:00:00.000Z".
Definition day5 : string := "2024-03-05T08:00:00.000Z".

Definition emptyRoom : Classroom.t := createClassroom "c1" day1 "Class A".

(** One student, seated in [GROUPS] layout. *)
Definition soloRoom : Classroom.t :=
  replaceStudents exampleId day2 emptyRoom ["Ada"] TimeMode.weekday.

(** Seven students, seated on weekdays only. *)
Definition groupsRoom : Classroom.t :=
  replaceStudents exampleId day2 emptyRoom
    ["Ada"; "Ben"; "Cy"; "Dee"; "Eli"; "Fay"; "Gus"] TimeMode.weekday.


(** The same class with the weekend config reconciled as well. *)
Definition settledRoom : Classroom.t :=
  changeLayoutMode day3 groupsRoom LayoutMode.GROUPS TimeMode.weekend.

(** Two students seated in both time modes, then the roster replaced on
    weekdays: the weekend seats still hold the old ids. *)
Definition staleRoom : Classroom.t :=
  replaceStudents laterId day4
    (changeLayoutMode day3
       (replaceStudents exampleId day2 emptyRoom ["Ada"; "Ben"] TimeMode.weekday)
       LayoutMode.GROUPS TimeMode.weekend)
    ["Cy"; "Dee"] TimeMode.weekday.

(** A roster in which two students share an id, as a backup file may hold. *)
Definition twinRoom : Classroom.t :=
  let config :=
    {| TimeModeConfig.layoutMode := LayoutMode.GROUPS;
       TimeModeConfig.rows := 9;
       TimeModeConfig.cols := 2;
       TimeModeConfig.seats := Some "a" :: replicate 35 None;
       TimeModeConfig.rotationCount := 0;
       TimeModeConfig.weekLabel := "第1周";
       TimeModeConfig.classTime := "" |} in
  {| Classroom.id := "c2";
     Classroom.name := "Class B";
     Classroom.students := [Student.mk "a" "Ann"; Student.mk "a" "Abe"];
     Classroom.campus := "";
     Classroom.building := "";
     Classroom.room := "";
     Classroom.sideNotes := "";
     Classroom.updatedAt := day1;
     Classroom.weekday := config;
     Classroom.weekend := config |}.

Definition twinRoomJson : json :=
  JObj [("id", JStr "c2"); ("name", JStr "Class B");
        ("students",
         JArr [JObj [("id", JStr "a"); ("name", JStr "Ann")];
               JObj [("id", JStr "a"); ("name", JStr "Abe")]]);
        ("updatedAt", JStr day1)].

(** A roster with a student whose id is the empty string. *)
Definition blankRoom : Classroom.t :=
  let config :=
    {| TimeModeConfig.layoutMode := LayoutMode.GROUPS;
       TimeModeConfig.rows := 9;
       TimeModeConfig.cols := 2;
       TimeModeConfig.seats := Some "" :: Some "a" :: Some "b" :: replicate 33 None;
       TimeModeConfig.rotationCount := 0;
       TimeModeConfig.weekLabel := "第1周";
       TimeModeConfig.classTime := "" |} in
  {| Classroom.id := "c3";
     Classroom.name := "Class C";
     Classroom.students := [Student.mk "" "Zed"; Student.mk "a" "Ann"; Student.mk "b" "Bea"];
     Classroom.campus := "";
     Classroom.building := "";
     Classroom.room := "";
     Classroom.sideNotes := "";
     Classroom.updatedAt := day1;
     Classroom.weekday := config;
     Classroom.weekend := config |}.

Definition blankRoomJson : json :=
  JObj [("id", JStr "c3"); ("name", JStr "Class C");
        ("students",
         JArr [JObj [("id", JStr ""); ("name", JStr "Zed")];
               JObj [("id", JStr "a"); ("name", JStr "Ann")];
               JObj [("id", JStr "b"); ("name", JStr "Bea")]]);
        ("updatedAt", JStr day1)].

Definition stateOf (classroom : Classroom.t) : AppState.t :=
  {| AppState.version := APP_VERSION;
     AppState.classrooms := [classroom];
     AppState.activeClassroomId := Some (Classroom.id classroom);
     AppState.activeTimeMode := TimeMode.weekday |}.

(** Both odd rosters are what importing the backup gives. *)
Lemma twinRoom_imported (now : string) (dateValid : string -> bool) :
  dateValid day1 = true ->
  normalizeClassroom now dateValid twinRoomJson = Some twinRoom.
Proof.
  intros Hdate. unfold normalizeClassroom, twinRoomJson.
  cbn [isObject prop lookupField String.eqb Ascii.eqb Bool.eqb toStudents omap list_omap
       toStudent length Nat.eqb jsTruthy negb andb normalizeTimeModeConfig default from_option
       normalizeUpdatedAt].
  rewrite Hdate. by vm_compute.
Qed.

Lemma blankRoom_imported (now : string) (dateValid : string -> bool) :
  dateValid day1 = true ->
  normalizeClassroom now dateValid blankRoomJson = Some blankRoom.
Proof.
  intros Hdate. unfold normalizeClassroom, blankRoomJson.
  cbn [isObject prop lookupField String.eqb Ascii.eqb Bool.eqb toStudents omap list_omap
       toStudent length Nat.eqb jsTruthy negb andb normalizeTimeModeConfig default from_option
       normalizeUpdatedAt].
  rewrite Hdate. by vm_compute.
Qed.

Lemma exampleId_fresh : NoDup (exampleId <$> seq 0 (Z.to_nat MAX_STUDENTS)).
Proof. apply (bool_decide_unpack _). by vm_compute. Qed.

Lemma groupsRoom_unique : classroomUnique groupsRoom.
Proof.
  split; [apply (bool_decide_unpack _); by vm_compute|].
  intros []; apply seatsUnique_NoDup; apply (bool_decide_unpack _); by vm_compute.
Qed.




(** *** C4 on [soloRoom]. *)
Lemma rotateSeatsOnce_noop_witness :
  getAssignedCount (getConfig soloRoom TimeMode.weekday) = 1 /\
  rotateSeatsOnce day3 soloRoom TimeMode.weekday = soloRoom.
Proof.
  split; [by vm_compute|].
  apply (rotateSeatsOnce_noop day3 soloRoom TimeMode.weekday). by vm_compute.
Defined.

(** *** C5: every operation on [groupsRoom]; and the roster of [twinRoom],
    whose seats hold no id twice until [randomizeSeats] copies the roster. *)
Lemma operations_keep_ids_unique_witness :
  classroomUnique (rotateSeatsOnce day3 groupsRoom TimeMode.weekday) /\
  classroomUnique (randomizeSeats (fun i => 7 * i + 3)%nat day3 groupsRoom TimeMode.weekday) /\
  classroomUnique (replaceStudents laterId day3 groupsRoom ["Hal"; "Ivy"] TimeMode.weekend).
Proof.
  pose proof (operations_keep_ids_unique day3 groupsRoom TimeMode.weekday groupsRoom_unique)
    as (_ & _ & _ & _ & _ & Hrotate & Hrandom).
  pose proof (operations_keep_ids_unique day3 groupsRoom TimeMode.weekend groupsRoom_unique)
    as (Hreplace & _).
  split; [exact Hrotate|]. split; [apply Hrandom|].
  apply Hreplace. apply (bool_decide_unpack _). by vm_compute.
Defined.

Lemma randomizeSeats_duplicates_twins :
  (forall tm, seatsUnique (TimeModeConfig.seats (getConfig twinRoom tm))) /\
  ~ seatsUnique
      (TimeModeConfig.seats
         (getConfig (randomizeSeats (fun _ => 0%nat) day2 twinRoom TimeMode.weekday)
            TimeMode.weekday)).
Proof.
  split.
  - intros []; apply seatsUnique_NoDup; apply (bool_decide_unpack _); by vm_compute.
  - intros Hu. by specialize (Hu 0%nat 1%nat "a" eq_refl eq_refl).
Qed.

(** *** C8: a swap of a seat with itself keeps the old timestamp. *)
Lemma updatedAt_refreshed_unless_noop_witness :
  Classroom.updatedAt (clearSeat day3 groupsRoom 0 TimeMode.weekday) = day3 /\
  Classroom.updatedAt (swapSeatAssignments day3 groupsRoom 0 9 TimeMode.weekday) = day3 /\
  swapSeatAssignments day3 groupsRoom 2 2 TimeMode.weekday = groupsRoom.
Proof.
  pose proof (updatedAt_refreshed_unless_noop day3 groupsRoom TimeMode.weekday)
    as (_ & _ & _ & Hswap & Hclear & _).
  split; [apply Hclear; by vm_compute|].
  split; [apply Hswap; by vm_compute|].
  apply Hswap. by left.
Defined.

Lemma swapSeatAssignments_keeps_updatedAt :
  Classroom.updatedAt (swapSeatAssignments day3 groupsRoom 2 2 TimeMode.weekday) = day2 /\
  Classroom.updatedAt (swapSeatAssignments day3 groupsRoom 2 2 TimeMode.weekday) <> day3.
Proof. by split. Qed.

(** *** C9: a cleared student is seated again; a student with the empty id
    never counts as assigned. *)
Lemma rotateSeatsOnce_reseats_roster_witness :
  getUnassignedStudents (clearSeat day3 groupsRoom 0 TimeMode.weekday) TimeMode.weekday =
    [Student.mk "id-0" "Ada"] /\
  getUnassignedStudents
    (rotateSeatsOnce day4 (clearSeat day3 groupsRoom 0 TimeMode.weekday) TimeMode.weekday)
    TimeMode.weekday = [].
Proof.
  split; [by vm_compute|].
  apply (rotateSeatsOnce_reseats_roster day4
           (clearSeat day3 groupsRoom 0 TimeMode.weekday) TimeMode.weekday).
  - by vm_compute.
  - by vm_compute.
  - apply Forall_forall. apply (bool_decide_unpack _). by vm_compute.
Defined.

Lemma rotateSeatsOnce_leaves_blank_id_unassigned :
  1 < getAssignedCount (getConfig blankRoom TimeMode.weekday) /\
  Z.of_nat (length (Classroom.students blankRoom)) <=
    LayoutMetrics.capacity
      (getLayoutMetrics (TimeModeConfig.layoutMode (getConfig blankRoom TimeMode.weekday))
         (Z.of_nat (length (Classroom.students blankRoom)))) /\
  getUnassignedStudents (rotateSeatsOnce day2 blankRoom TimeMode.weekday) TimeMode.weekday =
    [Student.mk "" "Zed"].
Proof. by vm_compute. Qed.

(** C10, as the code has it: the guard of [rotateSeatsOnce] counts the
    truthy seat entries (not null and not the empty string) whatever the
    roster is: with at most one of them the call returns the classroom, with
    two or more it rotates. In [staleRoom] the weekend config holds two ids,
    none of them in the roster (the second [replaceStudents] touched weekdays
    only); [rotateSeatsOnce] is then no no-op: it adds 1 to [rotationCount]
    and rebuilds the seats from the current roster. *)
Theorem rotateSeatsOnce_counts_stale_ids :
  let before := getConfig staleRoom TimeMode.weekend in
  let after := getConfig (rotateSeatsOnce day5 staleRoom TimeMode.weekend) TimeMode.weekend in
  (forall config,
     getAssignedCount config = Z.of_nat (length (truthyIds (TimeModeConfig.seats config)))) /\
  (forall now classroom timeMode,
     let seats := TimeModeConfig.seats (getConfig classroom timeMode) in
     ((length (truthyIds seats) <= 1)%nat ->
      rotateSeatsOnce now classroom timeMode = classroom) /\
     ((2 <= length (truthyIds seats))%nat ->
      getConfig (rotateSeatsOnce now classroom timeMode) timeMode =
        rotatedConfig (getConfig classroom timeMode) (Classroom.students classroom) /\
      Classroom.updatedAt (rotateSeatsOnce now classroom timeMode) = now)) /\
  TimeModeConfig.seats before = Some "id-0" :: Some "id-1" :: replicate 34 None /\
  rosterIds (Classroom.students staleRoom) = ["id-36"; "id-37"] /\
  Forall (fun s => s ∉ rosterIds (Classroom.students staleRoom))
    (occupants (TimeModeConfig.seats before)) /\
  getAssignedCount before = 2 /\
  rotateSeatsOnce day5 staleRoom TimeMode.weekend <> staleRoom /\
  TimeModeConfig.rotationCount after = TimeModeConfig.rotationCount before + 1 /\
  TimeModeConfig.seats after = Some "id-37" :: Some "id-36" :: replicate 34 None /\
  Forall (fun s => s ∈ rosterIds (Classroom.students staleRoom))
    (occupants (TimeModeConfig.seats after)).
Proof.
  cbv zeta. split; [apply getAssignedCount_count|].
  split.
  { intros now classroom timeMode. rewrite rotateSeatsOnce_eq, getAssignedCount_count.
    split; intros Hcount.
    - destruct (Z.leb_spec (Z.of_nat (length (truthyIds
          (TimeModeConfig.seats (getConfig classroom timeMode))))) 1); [done|lia].
    - destruct (Z.leb_spec (Z.of_nat (length (truthyIds
          (TimeModeConfig.seats (getConfig classroom timeMode))))) 1); [lia|].
      rewrite getConfig_setUpdatedAt, getConfig_setConfig, decide_True by done.
      by rewrite updatedAt_setUpdatedAt. }
  split; [by vm_compute|]. split; [by vm_compute|].
  split; [apply (bool_decide_unpack _); by vm_compute|].
  split; [by vm_compute|].
  split.
  { intros H. apply (f_equal (fun c => TimeModeConfig.rotationCount (Classroom.weekend c))) in H.
    by vm_compute in H. }
  split; [by vm_compute|]. split; [by vm_compute|].
  apply (bool_decide_unpack _). by vm_compute.
Qed.

(** A seat that holds the empty id is not null and is not counted: in
    [blankRoom] with the seat of [b] cleared, two seats are not null, the
    guard counts one, and the rotation returns the classroom. *)
Lemma rotateSeatsOnce_skips_blank_seat :
  let room := clearSeat day2 blankRoom 2 TimeMode.weekday in
  let config := getConfig room TimeMode.weekday in
  nonNull (TimeModeConfig.seats config) = [Some ""; Some "a"] /\
  getAssignedCount config = 1 /\
  rotateSeatsOnce day3 room TimeMode.weekday = room.
Proof. cbv zeta. repeat split; by vm_compute. Qed.


(** Nor does a classroom created with a name that starts with an
    ideographic space: normalization trims the name. *)
Lemma roundtrip_trims_wide_name :
  ~ exists now dateValid,
      normalizeState now dateValid
        (stateToJson (stateOf (createClassroom "c1" day1 "　Class A"))) =
      Some (stateOf (createClassroom "c1" day1 "　Class A")).
Proof.
  intros (now & dateValid & H).
  apply (f_equal (fun result : option AppState.t =>
           result ≫= fun state => Classroom.name <$> head (AppState.classrooms state))) in H.
  by vm_compute in H.
Qed.

(** The arc layout is not a fixed point of the reconciler either: reading
    the centered rows from left to right reorders the ids, so a class of seven
    put in [ARC] layout by [changeLayoutMode] is reseated by the next
    normalization. *)
Lemma arc_layout_not_reconciled :
  ~ reconciled (changeLayoutMode day3 groupsRoom LayoutMode.ARC TimeMode.weekday)
      TimeMode.weekday.
Proof.
  unfold reconciled. cbv zeta. intros H.
  apply (f_equal TimeModeConfig.seats) in H. by vm_compute in H.
Qed.

(** *** C7: the text [{}] parses, and [parseBackup] returns null for it. *)
Definition emptyObjectParser (rawText : string) : option json :=
  if String.eqb rawText "{}" then Some (JObj []) else None.

Lemma parseBackup_rejects_empty_object :
  ~ exists (now : string) (dateValid : string -> bool) (JSON_parse : string -> option json),
      JSON_parse "{}" = Some (JObj []) /\
      parseBackup now dateValid JSON_parse "{}" <> None.
Proof.
  intros (now & dateValid & JSON_parse & Hparse & Hnot).
  apply Hnot. unfold parseBackup. by rewrite Hparse.
Qed.

End Examples.


(** * Further coverage of [classroom.ts], [storage.ts] and [App.tsx] *)

(** Case analysis on an integer [x] known to lie in [[lo, hi]]. *)
Ltac enumerate x lo hi :=
  let rec go k n :=
    lazymatch n with
    | O => exfalso; lia
    | S ?n' =>
        let H := fresh "Hcase" in
        destruct (decide (x = k)) as [H|H];
        [subst x | go ltac:(eval vm_compute in (k + 1)%Z) n']
    end in
  go lo ltac:(eval vm_compute in (Z.to_nat (hi - lo + 1))).

(** ** Render-time helpers of the rotation: [getRotationMapping] and
    [getThreeRowsColorOrder] *)

Section RenderHelpers.
Local Open Scope Z_scope.





(** One execution of the loop body of [getThreeRowsColorOrder]; [order]
    always holds six numbers. *)
Definition colorShift (order : list Z) : list Z :=
  [order !!! 2%nat; order !!! 3%nat; order !!! 4%nat; order !!! 5%nat;
   order !!! 0%nat; order !!! 1%nat].


End RenderHelpers.

Section RenderHelperFacts.
Local Open Scope Z_scope.











Lemma colorShift_thrice (a b c d e f : Z) :
  colorShift (colorShift (colorShift [a; b; c; d; e; f])) = [a; b; c; d; e; f].
Proof. reflexivity. Qed.



End RenderHelperFacts.


(** ** GROUPS rotation, group by group *)

Section GroupRotationFacts.
Local Open Scope Z_scope.

(** The six seats of group [g]. *)
Definition groupSeats (seats : list Seat) (g : nat) : list Seat :=
  take 6 (drop (6 * g) seats).

Lemma rotateGroup_group (seats : list Seat) (g h : nat) :
  (6 * g + 6 <= length seats)%nat ->
  groupSeats (rotateGroup seats (Z.of_nat g)) h =
  if decide (h = g) then shiftOccupants (groupSeats seats g) else groupSeats seats h.
Proof.
  intros Hlen. rewrite rotateGroup_eq by done. unfold groupSeats.
  set (shifted := shiftOccupants (take 6 (drop (6 * g) seats))).
  assert (length shifted = 6%nat) as Hshifted.
  { unfold shifted. rewrite shiftOccupants_length, length_take, length_drop. lia. }
  assert (length (take (6 * g) seats) = (6 * g)%nat) as Htake
    by (rewrite length_take; lia).
  destruct (decide (h = g)) as [->|Hne].
  - rewrite drop_app_length' by done. by rewrite take_app_length' by done.
  - apply list_eq. intros i.
    destruct (decide (i < 6)%nat) as [Hi|Hi].
    2:{ by rewrite !lookup_take_ge by lia. }
    rewrite !lookup_take_lt, !lookup_drop by done.
    destruct (decide (h < g)%nat).
    + rewrite lookup_app_l by lia. by rewrite lookup_take_lt by lia.
    + rewrite lookup_app_r by lia. rewrite lookup_app_r by lia.
      rewrite lookup_drop. f_equal. lia.
Qed.

Lemma rotateGroups_group (groups : list Z) : forall (seats : list Seat) (h : nat),
  length seats = 36%nat ->
  NoDup groups ->
  (forall g, g ∈ groups -> 0 <= g <= 5) ->
  groupSeats (foldl rotateGroup seats groups) h =
  if bool_decide (Z.of_nat h ∈ groups) then shiftOccupants (groupSeats seats h)
  else groupSeats seats h.
Proof.
  induction groups as [|g groups IH]; intros seats h Hlen Hnd Hg; cbn [foldl]; [done|].
  apply NoDup_cons in Hnd as [Hnotin Hnd].
  pose proof (Hg g ltac:(left)) as Hg0.
  destruct (Z_of_nat_complete g ltac:(lia)) as [k ->].
  destruct (rotateGroup_inv seats k ltac:(lia)) as [Hlen' _].
  rewrite IH; [|by rewrite Hlen'|done|by intros g' Hg'; apply Hg; right].
  rewrite !rotateGroup_group by lia.
  destruct (decide (h = k)) as [->|Hne].
  - rewrite (bool_decide_eq_false_2 (Z.of_nat k ∈ groups)) by done.
    by rewrite bool_decide_eq_true_2 by left.
  - destruct (decide (Z.of_nat h ∈ groups)) as [Hin|Hout].
    + rewrite !bool_decide_eq_true_2; [done|by right|done].
    + rewrite !bool_decide_eq_false_2; [done| |done].
      rewrite elem_of_cons. intros [Heq|?]; [lia|done].
Qed.


Lemma withLayout_groups_length (config : TimeModeConfig.t) (students : list Student.t) :
  length (TimeModeConfig.seats (withLayout config LayoutMode.GROUPS students)) = 36%nat.
Proof. by rewrite withLayout_seats_length. Qed.


Lemma getOrderedStudentIds_perm (students : list Student.t) (seats : list Seat) :
  NoDup (rosterIds students) ->
  getOrderedStudentIds students seats ≡ₚ rosterIds students.
Proof.
  intros Hnd. apply NoDup_Permutation; [apply getOrderedStudentIds_NoDup|done|].
  intros x. apply getOrderedStudentIds_elem.
Qed.

Lemma withLayout_groups_seats (config : TimeModeConfig.t) (students : list Student.t) :
  let ordered := getOrderedStudentIds students (TimeModeConfig.seats config) in
  TimeModeConfig.seats (withLayout config LayoutMode.GROUPS students) =
  (Some <$> take 36 ordered) ++ replicate (36 - length ordered) None.
Proof. cbv zeta. rewrite withLayout_seats. apply (buildSeatsFromOrder_eq _ 36). Qed.

(** X4: with 19 to 24 students (four groups) the reconciled GROUPS layout
    seats students in the seats 18..23, the group of index 3, and leaves the
    group of index 4 empty; the rotation works on the groups of index 0, 1, 2
    and 4, so it never moves the students of the seats 18..23. *)
Theorem rotateGroupLayout_skips_fourth_group (config : TimeModeConfig.t)
    (students : list Student.t) :
  18 < Z.of_nat (length students) <= 24 ->
  NoDup (rosterIds students) ->
  let normalized := withLayout config LayoutMode.GROUPS students in
  let rotated := rotateGroupLayout config students in
  getActiveGroupIndices (getGroupCountBySize (Z.of_nat (length students))) = [0; 1; 2; 4] /\
  (exists s, TimeModeConfig.seats normalized !! 18%nat = Some (Some s) /\
             s ∈ rosterIds students) /\
  groupSeats (TimeModeConfig.seats rotated) 3 = groupSeats (TimeModeConfig.seats normalized) 3 /\
  groupSeats (TimeModeConfig.seats normalized) 4 = replicate 6 None /\
  groupSeats (TimeModeConfig.seats rotated) 4 = replicate 6 None.
Proof.
  intros Hn Hnd normalized rotated.
  assert (getGroupCountBySize (Z.of_nat (length students)) = 4) as Hgc.
  { unfold getGroupCountBySize, MIN_GROUPS, MAX_GROUPS, GROUP_CAPACITY.
    destruct (Z.leb_spec (Z.of_nat (length students)) 0); [lia|].
    pose proof (ceilDiv_bounds (Z.of_nat (length students)) 6 ltac:(lia)). lia. }
  assert (forall g : nat,
            groupSeats (TimeModeConfig.seats rotated) g =
            if bool_decide (Z.of_nat g ∈ [0; 1; 2; 4])
            then shiftOccupants (groupSeats (TimeModeConfig.seats normalized) g)
            else groupSeats (TimeModeConfig.seats normalized) g) as Hgroups.
  { intros g. subst rotated normalized. rewrite rotateGroupLayout_seats, Hgc.
    change (getActiveGroupIndices 4) with [0; 1; 2; 4].
    apply rotateGroups_group; [apply withLayout_groups_length| |].
    - by apply (bool_decide_unpack _); vm_compute.
    - intros g' Hg'. repeat (apply elem_of_cons in Hg' as [->|Hg']; [lia|]).
      by apply elem_of_nil in Hg'. }
  pose proof (Hgroups 3%nat) as H3.
  pose proof (Hgroups 4%nat) as H4.
  cbn [bool_decide] in H3, H4.
  rewrite bool_decide_eq_false_2 in H3 by (by apply (bool_decide_unpack _); vm_compute).
  rewrite bool_decide_eq_true_2 in H4 by (by apply (bool_decide_unpack _); vm_compute).
  pose proof (Permutation_length
    (getOrderedStudentIds_perm students (TimeModeConfig.seats config) Hnd)) as Hlen.
  unfold rosterIds in Hlen. rewrite length_fmap in Hlen.
  pose proof (withLayout_groups_seats config students) as Hseats. cbv zeta in Hseats.
  set (ordered := getOrderedStudentIds students (TimeModeConfig.seats config)) in *.
  assert (groupSeats (TimeModeConfig.seats normalized) 4 = replicate 6 None) as Hempty.
  { subst normalized. rewrite Hseats. unfold groupSeats.
    rewrite (take_ge ordered) by lia.
    rewrite drop_app_ge by (rewrite length_fmap; lia).
    rewrite drop_replicate, take_replicate. f_equal. rewrite length_fmap. lia. }
  rewrite Hgc. split; [done|]. split; [|split; [done|split; [done|]]].
  - destruct (lookup_lt_is_Some_2 ordered 18 ltac:(lia)) as [s Hs].
    exists s. split.
    + subst normalized. rewrite Hseats, (take_ge ordered) by lia.
      rewrite lookup_app_l by (rewrite length_fmap; lia).
      by rewrite list_lookup_fmap, Hs.
    + apply (getOrderedStudentIds_elem students (TimeModeConfig.seats config)).
      by apply list_elem_of_lookup_2 in Hs.
  - subst rotated. rewrite H4. fold normalized. rewrite Hempty. reflexivity.
Qed.

End GroupRotationFacts.

(** ** The seats that the layout renderers show ([App.tsx]) *)

Section RenderedSeats.
Local Open Scope Z_scope.




(** [renderThreeRowsLayout]: the [seatIndex] arguments of its calls of
    [renderSeat]; the right half of a row is rendered from its last seat to
    its first. *)
Definition renderThreeRowsLayout (classroom : Classroom.t) : list Z :=
  let metrics :=
    getLayoutMetrics LayoutMode.THREE_ROWS (Z.of_nat (length (Classroom.students classroom))) in
  let cols := LayoutMetrics.cols metrics in
  let leftSize := ceilDiv cols 2 in
  let rightSize := cols - leftSize in
  row ← [0; 1; 2];
  ((fun c => row * cols + c) <$> range leftSize) ++
  ((fun i => row * cols + (leftSize + (rightSize - 1 - i))) <$> range rightSize).

(** [renderArcLayout]: the [seatIndex] arguments of its calls of [renderSeat]. *)
Definition renderArcLayout : list Z :=
  rowIdx ← [0; 1];
  (fun i => rowIdx * ARC_COLS + i) <$> range ARC_COLS.

End RenderedSeats.

Section RenderedSeatsFacts.
Local Open Scope Z_scope.





(** The seats shown by [renderThreeRowsLayout] for a given number of columns. *)
Definition threeRowsShown (cols : Z) : list Z :=
  let leftSize := ceilDiv cols 2 in
  let rightSize := cols - leftSize in
  row ← [0; 1; 2];
  ((fun c => row * cols + c) <$> range leftSize) ++
  ((fun i => row * cols + (leftSize + (rightSize - 1 - i))) <$> range rightSize).

(** X6: the THREE_ROWS and ARC renderers show every seat of the layout
    computed for the roster exactly once: the indices 0 .. capacity-1
    (the right half of a row in reverse order), and 0 .. 35. *)
Theorem renderers_show_every_seat (classroom : Classroom.t) :
  let n := Z.of_nat (length (Classroom.students classroom)) in
  renderThreeRowsLayout classroom ≡ₚ
    range (LayoutMetrics.capacity (getLayoutMetrics LayoutMode.THREE_ROWS n)) /\
  renderArcLayout = range (LayoutMetrics.capacity (getLayoutMetrics LayoutMode.ARC n)).
Proof.
  intros n. split; [|reflexivity].
  change (renderThreeRowsLayout classroom) with
    (threeRowsShown (LayoutMetrics.cols (getLayoutMetrics LayoutMode.THREE_ROWS n))).
  rewrite three_rows_capacity.
  assert (1 <= LayoutMetrics.cols (getLayoutMetrics LayoutMode.THREE_ROWS n) <= 12) as Hcols.
  { cbn. unfold MIN_SIZE, MAX_THREE_ROW_COLS. lia. }
  revert Hcols. generalize (LayoutMetrics.cols (getLayoutMetrics LayoutMode.THREE_ROWS n)).
  intros cols Hcols.
  enumerate cols 1 12; by apply (bool_decide_unpack _); vm_compute.
Qed.

Definition bigRoster : list Student.t :=
  (fun k => Student.mk (exampleId k) (pretty k)) <$> seq 0 20.

Lemma rotateGroupLayout_skips_fourth_group_witness :
  let normalized := withLayout (createEmptyConfig LayoutMode.GROUPS 0) LayoutMode.GROUPS bigRoster in
  let rotated := rotateGroupLayout (createEmptyConfig LayoutMode.GROUPS 0) bigRoster in
  TimeModeConfig.seats normalized !! 18%nat = Some (Some "id-18") /\
  groupSeats (TimeModeConfig.seats rotated) 3 = [Some "id-18"; Some "id-19"; None; None; None; None] /\
  groupSeats (TimeModeConfig.seats rotated) 4 = replicate 6 None.
Proof.
  destruct (rotateGroupLayout_skips_fourth_group (createEmptyConfig LayoutMode.GROUPS 0) bigRoster)
    as (_ & _ & Hthird & _ & Hfourth).
  - vm_compute. split; [done|]. discriminate.
  - apply (bool_decide_unpack _). by vm_compute.
  - split; [by vm_compute|]. split; [|exact Hfourth].
    rewrite Hthird. by vm_compute.
Defined.

End RenderedSeatsFacts.


(** ** The reconciler keeps the seating order *)

Section ReconcileFacts.
Local Open Scope Z_scope.

Lemma filter_ext_in {A} (P Q : A -> Prop) `{forall x, Decision (P x)} `{forall x, Decision (Q x)}
    (l : list A) :
  (forall x, x ∈ l -> P x <-> Q x) -> filter P l = filter Q l.
Proof.
  induction l as [|x l IH]; intros HPQ; [done|].
  rewrite !filter_cons.
  rewrite IH by (intros y Hy; apply HPQ; by right).
  destruct (decide (P x)) as [HP|HP], (decide (Q x)) as [HQ|HQ]; try done.
  - by apply (HPQ x ltac:(left)) in HP.
  - by apply (HPQ x ltac:(left)) in HQ.
Qed.

Lemma filter_all {A} (P : A -> Prop) `{forall x, Decision (P x)} (l : list A) :
  (forall x, x ∈ l -> P x) -> filter P l = l.
Proof.
  induction l as [|x l IH]; intros HP; [done|].
  rewrite filter_cons, decide_True by (apply HP; left).
  f_equal. apply IH. intros y Hy. apply HP. by right.
Qed.

Lemma truthyIds_cons_truthy (s : string) (seats : list Seat) :
  truthy (Some s) = true -> truthyIds (Some s :: seats) = s :: truthyIds seats.
Proof. intros Hs. unfold truthyIds. cbn [omap list_omap]. by rewrite Hs. Qed.

Lemma truthyIds_cons_falsy (seat : Seat) (seats : list Seat) :
  truthy seat = false -> truthyIds (seat :: seats) = truthyIds seats.
Proof. intros Hs. unfold truthyIds. cbn [omap list_omap]. by rewrite Hs. Qed.

(** The first loop of [getOrderedStudentIds] appends the seated ids that are
    valid and new, in seat order. *)
Lemma orderSeat_loop_ids (validIds : gset string) (seats : list Seat) :
  forall (ordered : list string) (seen : gset string),
  orderAcc (ordered, seen) ->
  NoDup (truthyIds seats) ->
  (foldl (orderSeat validIds) (ordered, seen) seats).1 =
  ordered ++ filter (fun s => s ∈ validIds /\ s ∉ ordered) (truthyIds seats).
Proof.
  induction seats as [|seat seats IH]; intros ordered seen Hacc Hnd; cbn [foldl].
  - cbn. by rewrite app_nil_r.
  - destruct (truthy seat) eqn:Htruthy.
    2:{ rewrite truthyIds_cons_falsy in * by done.
        assert (orderSeat validIds (ordered, seen) seat = (ordered, seen)) as ->.
        { unfold orderSeat. destruct seat as [s|]; [|done]. by rewrite Htruthy. }
        by apply IH. }
    destruct seat as [s|]; [|done].
    rewrite truthyIds_cons_truthy in * by done.
    apply NoDup_cons in Hnd as [Hs Hnd].
    assert (s ∈ seen <-> s ∈ ordered) as Hseen.
    { pose proof Hacc as [Hset _]. cbn in Hset. rewrite Hset. apply elem_of_list_to_set. }
    pose proof (orderSeat_step validIds (ordered, seen) (Some s) Hacc) as (Hacc' & _).
    unfold orderSeat in *. rewrite Htruthy in *. cbn [andb] in *.
    rewrite filter_cons.
    destruct (decide (s ∈ validIds /\ s ∉ ordered)) as [[Hv Hn]|Hno].
    + rewrite bool_decide_eq_true_2 in * by done.
      rewrite bool_decide_eq_false_2 in * by (by rewrite Hseen).
      cbn [andb negb] in *.
      rewrite IH by done. rewrite <- app_assoc. cbn [app]. do 2 f_equal.
      apply filter_ext_in. intros x Hx. rewrite elem_of_app, list_elem_of_singleton.
      assert (x <> s) by (by intros ->). tauto.
    + assert (bool_decide (s ∈ validIds) && negb (bool_decide (s ∈ seen)) = false) as Hb.
      { apply andb_false_iff.
        destruct (decide (s ∈ validIds)).
        - right. apply negb_false_iff, bool_decide_eq_true_2. apply Hseen.
          destruct (decide (s ∈ ordered)); [done|]. exfalso. by apply Hno.
        - left. by apply bool_decide_eq_false_2. }
      rewrite Hb in *. by apply IH.
Qed.

(** Its second loop appends the ids of the roster that are new, in roster
    order. *)
Lemma orderStudent_loop_ids (students : list Student.t) :
  forall (ordered : list string) (seen : gset string),
  orderAcc (ordered, seen) ->
  NoDup (rosterIds students) ->
  (foldl orderStudent (ordered, seen) students).1 =
  ordered ++ filter (fun s => s ∉ ordered) (rosterIds students).
Proof.
  induction students as [|student students IH]; intros ordered seen Hacc Hnd; cbn [foldl].
  - cbn. by rewrite app_nil_r.
  - unfold rosterIds in *. cbn [fmap list_fmap] in *.
    apply NoDup_cons in Hnd as [Hs Hnd].
    assert (Student.id student ∈ seen <-> Student.id student ∈ ordered) as Hseen.
    { pose proof Hacc as [Hset _]. cbn in Hset. rewrite Hset. apply elem_of_list_to_set. }
    pose proof (orderStudent_step (ordered, seen) student Hacc) as (Hacc' & _).
    unfold orderStudent in *. rewrite filter_cons.
    destruct (decide (Student.id student ∉ ordered)) as [Hn|Hin].
    + rewrite bool_decide_eq_false_2 in * by (by rewrite Hseen). cbn [negb] in *.
      rewrite IH by done. rewrite <- app_assoc. cbn [app]. do 2 f_equal.
      apply filter_ext_in. intros x Hx. rewrite elem_of_app, list_elem_of_singleton.
      assert (x <> Student.id student) by (by intros ->). tauto.
    + assert (Student.id student ∈ ordered) as Hin'
        by (destruct (decide (Student.id student ∈ ordered)); [done|by exfalso; apply Hin]).
      rewrite bool_decide_eq_true_2 in * by (by rewrite Hseen). cbn [negb] in *.
      by apply IH.
Qed.

Lemma getOrderedStudentIds_closed (students : list Student.t) (seats : list Seat) :
  NoDup (rosterIds students) ->
  NoDup (truthyIds seats) ->
  getOrderedStudentIds students seats =
  filter (fun s => s ∈ rosterIds students) (truthyIds seats) ++
  filter (fun s => s ∉ truthyIds seats) (rosterIds students).
Proof.
  intros Hroster Hseats. unfold getOrderedStudentIds. cbv zeta.
  set (validIds := list_to_set (Student.id <$> students) : gset string).
  pose proof (orderSeat_loop validIds seats _ orderAcc_init) as (Hacc & _).
  destruct (foldl (orderSeat validIds) ([], ∅) seats) as [ordered seen] eqn:Hfold.
  pose proof (orderSeat_loop_ids validIds seats [] ∅ orderAcc_init Hseats) as Hordered.
  rewrite Hfold in Hordered. cbn [fst app] in Hordered.
  rewrite orderStudent_loop_ids by done.
  assert (ordered = filter (fun s => s ∈ rosterIds students) (truthyIds seats)) as Hkept.
  { rewrite Hordered. apply filter_ext_in. intros x _. unfold validIds, rosterIds.
    rewrite elem_of_list_to_set, elem_of_nil. tauto. }
  rewrite <- Hkept. f_equal.
  apply filter_ext_in. intros x Hx. rewrite Hkept, list_elem_of_filter. tauto.
Qed.

Lemma truthyIds_NoDup (seats : list Seat) :
  seatsUnique seats -> NoDup (truthyIds seats).
Proof.
  intros Hu. apply seatsUnique_NoDup in Hu.
  apply (sublist_NoDup _ _ Hu), truthyIds_sublist.
Qed.

(** X7: reconciling a config with distinct roster ids and no id in two seats
    keeps the seating order: the students already seated (ids of the roster in
    truthy seats) come first, in seat order, and the unseated students follow
    in roster order; ids that are not in the roster are dropped. In GROUPS and
    THREE_ROWS mode these ids fill the seats from seat 0 without a gap, up to
    the capacity; in ARC mode they are placed centered in two rows. *)
Theorem withLayout_keeps_seat_order (config : TimeModeConfig.t) (layoutMode : LayoutMode.t)
    (students : list Student.t) :
  NoDup (rosterIds students) ->
  seatsUnique (TimeModeConfig.seats config) ->
  let seats := TimeModeConfig.seats config in
  let kept := filter (fun s => s ∈ rosterIds students) (truthyIds seats) in
  let added := filter (fun s => s ∉ truthyIds seats) (rosterIds students) in
  let capacity :=
    Z.to_nat (LayoutMetrics.capacity
                (getLayoutMetrics layoutMode (Z.of_nat (length students)))) in
  getOrderedStudentIds students seats = kept ++ added /\
  TimeModeConfig.seats (withLayout config layoutMode students) =
    match layoutMode with
    | LayoutMode.ARC => arcFill (kept ++ added)
    | _ => (Some <$> take capacity (kept ++ added)) ++
           replicate (capacity - length (kept ++ added)) None
    end.
Proof.
  intros Hroster Hunique seats kept added capacity.
  pose proof (getOrderedStudentIds_closed students seats Hroster (truthyIds_NoDup _ Hunique))
    as Hclosed.
  fold kept added in Hclosed. split; [done|].
  rewrite withLayout_seats. fold seats. rewrite Hclosed.
  destruct layoutMode; [| |done].
  - rewrite capacity_nat. apply buildSeatsFromOrder_eq.
  - rewrite capacity_nat. apply buildSeatsFromOrder_eq.
Qed.

(** The second loop adds nothing when every id of the roster was seen. *)
Lemma orderStudent_loop_done (students : list Student.t) (ordered : list string)
    (seen : gset string) :
  (forall x, x ∈ rosterIds students -> x ∈ seen) ->
  foldl orderStudent (ordered, seen) students = (ordered, seen).
Proof.
  induction students as [|student students IH]; intros Hall; cbn [foldl]; [done|].
  unfold orderStudent at 2.
  rewrite bool_decide_eq_true_2 by (apply Hall; left). cbn [negb].
  apply IH. intros x Hx. apply Hall. by right.
Qed.

Lemma truthyIds_Some (ids : list string) :
  "" ∉ ids -> truthyIds (Some <$> ids) = ids.
Proof.
  induction ids as [|x ids IH]; intros Hne; [done|].
  cbn [fmap list_fmap]. rewrite truthyIds_cons_truthy.
  - f_equal. apply IH. intros Hin. apply Hne. by right.
  - cbn. apply negb_true_iff, String.eqb_neq. intros ->. apply Hne. left.
Qed.

Lemma truthyIds_replicate_None (n : nat) : truthyIds (replicate n None) = [].
Proof. induction n as [|n IH]; [done|]. cbn [replicate]. by rewrite truthyIds_cons_falsy. Qed.

(** Seats that hold the ordered ids from the front are ordered as before. *)
Lemma getOrderedStudentIds_fixed (students : list Student.t) (ids : list string) (k : nat) :
  NoDup ids -> "" ∉ ids ->
  (forall x, x ∈ ids <-> x ∈ rosterIds students) ->
  getOrderedStudentIds students ((Some <$> ids) ++ replicate k None) = ids.
Proof.
  intros Hnd Hne Hids. unfold getOrderedStudentIds. cbv zeta.
  set (validIds := list_to_set (Student.id <$> students) : gset string).
  set (seats := (Some <$> ids) ++ replicate k None).
  assert (truthyIds seats = ids) as Htruthy.
  { unfold seats. by rewrite truthyIds_app, truthyIds_Some, truthyIds_replicate_None, app_nil_r. }
  pose proof (orderSeat_loop validIds seats _ orderAcc_init) as (Hacc & _).
  pose proof (orderSeat_loop_ids validIds seats [] ∅ orderAcc_init) as Hordered.
  rewrite Htruthy in Hordered. specialize (Hordered Hnd). cbn [app] in Hordered.
  destruct (foldl (orderSeat validIds) ([], ∅) seats) as [ordered seen] eqn:Hfold.
  cbn [fst] in Hordered.
  assert (ordered = ids) as ->.
  { rewrite Hordered. apply filter_all. intros x Hx. unfold validIds.
    rewrite elem_of_list_to_set, elem_of_nil. apply Hids in Hx. unfold rosterIds in Hx. tauto. }
  rewrite orderStudent_loop_done; [done|].
  intros x Hx. destruct Hacc as [Hset _]. cbn in Hset. rewrite Hset.
  apply elem_of_list_to_set. by apply Hids.
Qed.

(** Every layout has room for a roster of at most 36 students. *)
Lemma capacity_covers (layoutMode : LayoutMode.t) (n : Z) :
  0 <= n <= 36 -> n <= LayoutMetrics.capacity (getLayoutMetrics layoutMode n).
Proof.
  intros Hn. destruct layoutMode; cbn.
  - unfold THREE_ROWS, MIN_SIZE, MAX_THREE_ROW_COLS, DEFAULT_THREE_ROW_COLS.
    destruct (Z.ltb_spec 0 n) as [Hpos|Hz]; [|lia].
    pose proof (ceilDiv_bounds n 3 ltac:(lia)). lia.
  - unfold MAX_GROUPS, GROUP_CAPACITY. lia.
  - unfold ARC_ROWS, ARC_COLS. lia.
Qed.

Lemma buildSeats_ordered_fixed (students : list Student.t) (seats : list Seat) (capacity : nat) :
  (length students <= capacity)%nat ->
  (forall student, student ∈ students -> Student.id student <> "") ->
  getOrderedStudentIds students
    (buildSeatsFromOrder (getOrderedStudentIds students seats) (Z.of_nat capacity)) =
  getOrderedStudentIds students seats.
Proof.
  intros Hcap Hne.
  pose proof (getOrderedStudentIds_length students seats) as Hlen.
  rewrite buildSeatsFromOrder_eq, take_ge by lia.
  apply getOrderedStudentIds_fixed.
  - apply getOrderedStudentIds_NoDup.
  - intros Hin. apply getOrderedStudentIds_elem in Hin.
    unfold rosterIds in Hin. apply list_elem_of_fmap in Hin as (student & Hid & Hin).
    by apply (Hne student Hin).
  - intros x. apply getOrderedStudentIds_elem.
Qed.

Lemma withLayout_twice (config : TimeModeConfig.t) (layoutMode : LayoutMode.t)
    (students : list Student.t) :
  layoutMode <> LayoutMode.ARC ->
  Z.of_nat (length students) <= 36 ->
  (forall student, student ∈ students -> Student.id student <> "") ->
  withLayout (withLayout config layoutMode students) layoutMode students =
  withLayout config layoutMode students.
Proof.
  intros Hmode Hn Hne.
  pose proof (capacity_covers layoutMode (Z.of_nat (length students)) ltac:(lia)) as Hcap.
  assert (getOrderedStudentIds students
            (TimeModeConfig.seats (withLayout config layoutMode students)) =
          getOrderedStudentIds students (TimeModeConfig.seats config)) as Hfixed.
  { rewrite withLayout_seats.
    destruct layoutMode; [| |done]; rewrite capacity_nat;
      apply buildSeats_ordered_fixed; (done || lia). }
  destruct layoutMode; [| |done]; unfold withLayout at 1; cbv zeta; rewrite Hfixed; reflexivity.
Qed.

(** X8: in GROUPS and THREE_ROWS mode, reconciling a roster of at most 36
    students with non-empty ids is idempotent: applying the same layout a
    second time changes nothing, and [changeLayoutMode] with the mode already
    applied only refreshes [updatedAt]. *)
Theorem withLayout_idempotent (now now' : string) (classroom : Classroom.t)
    (layoutMode : LayoutMode.t) (timeMode : TimeMode.t) :
  layoutMode <> LayoutMode.ARC ->
  Z.of_nat (length (Classroom.students classroom)) <= 36 ->
  (forall student, student ∈ Classroom.students classroom -> Student.id student <> "") ->
  (forall config,
     withLayout (withLayout config layoutMode (Classroom.students classroom)) layoutMode
       (Classroom.students classroom) =
     withLayout config layoutMode (Classroom.students classroom)) /\
  changeLayoutMode now' (changeLayoutMode now classroom layoutMode timeMode) layoutMode timeMode =
  setUpdatedAt (changeLayoutMode now classroom layoutMode timeMode) now'.
Proof.
  intros Hmode Hn Hne. split; [intros config; by apply withLayout_twice|].
  unfold changeLayoutMode.
  rewrite getConfig_setUpdatedAt, getConfig_setConfig, decide_True by done.
  rewrite students_setUpdatedAt, students_setConfig.
  rewrite withLayout_twice by done.
  by destruct classroom, timeMode.
Qed.

End ReconcileFacts.

(** ** [compactSeatsToFront] and the import of a roster *)

Section ImportRoster.
Local Open Scope Z_scope.

(** [compactSeatsToFront]: the two loops are those of [getOrderedStudentIds]. *)
Definition compactSeatsToFront (seats : list Seat) (students : list Student.t) : list Seat :=
  let validIds : gset string := list_to_set (Student.id <$> students) in
  let afterSeats := foldl (orderSeat validIds) ([], ∅) seats in
  let afterStudents := foldl orderStudent afterSeats students in
  buildSeatsFromOrder (fst afterStudents) (Z.of_nat (length seats)).

(** The classroom updater of [importStudentsFromText] ([App.tsx]): the roster
    is replaced by the imported names, then the chosen layout is applied.
    [now] and [now'] are the two readings of the clock. *)
Definition importStudents (createId : nat -> string) (now now' : string)
    (classroom : Classroom.t) (trimmedNames : list string) (importLayout : LayoutMode.t)
    (activeTimeMode : TimeMode.t) : Classroom.t :=
  let replaced := replaceStudents createId now classroom trimmedNames activeTimeMode in
  changeLayoutMode now' replaced importLayout activeTimeMode.

End ImportRoster.

Section ImportRosterFacts.
Local Open Scope Z_scope.

(** X9: [compactSeatsToFront] keeps the number of seats; the result holds
    the ordered ids of the roster from seat 0 on without a gap, never an id
    twice and never an id that is not in the roster; when the roster has at
    most as many students as there are seats, every id of the roster is
    seated, and, if no id is the empty string, compacting again changes
    nothing. *)
Theorem compactSeatsToFront_spec (seats : list Seat) (students : list Student.t) :
  let compacted := compactSeatsToFront seats students in
  let ordered := getOrderedStudentIds students seats in
  length compacted = length seats /\
  compacted =
    (Some <$> take (length seats) ordered) ++ replicate (length seats - length ordered) None /\
  NoDup (occupants compacted) /\
  (forall s, Some s ∈ compacted -> s ∈ rosterIds students) /\
  ((length students <= length seats)%nat ->
   (forall s, s ∈ rosterIds students -> Some s ∈ compacted) /\
   ((forall student, student ∈ students -> Student.id student <> "") ->
    compactSeatsToFront compacted students = compacted)).
Proof.
  intros compacted ordered.
  assert (compacted = buildSeatsFromOrder ordered (Z.of_nat (length seats))) as Hdef
    by reflexivity.
  assert (length compacted = length seats) as Hlen
    by (rewrite Hdef; apply buildSeatsFromOrder_length).
  assert (occupants compacted = take (length seats) ordered) as Hocc
    by (rewrite Hdef; apply occupants_buildSeats).
  split; [done|]. split; [rewrite Hdef; apply buildSeatsFromOrder_eq|].
  split; [|split].
  - rewrite Hocc. apply (sublist_NoDup _ ordered); [apply getOrderedStudentIds_NoDup|].
    apply sublist_take.
  - intros s Hs. apply elem_of_occupants in Hs. rewrite Hocc in Hs.
    apply subseteq_take in Hs. by apply getOrderedStudentIds_elem in Hs.
  - intros Hfit.
    pose proof (getOrderedStudentIds_length students seats) as Hle. fold ordered in Hle.
    split.
    + intros s Hs. apply elem_of_occupants. rewrite Hocc, take_ge by lia.
      by apply getOrderedStudentIds_elem.
    + intros Hne.
      change (compactSeatsToFront compacted students) with
        (buildSeatsFromOrder (getOrderedStudentIds students compacted)
           (Z.of_nat (length compacted))).
      rewrite Hlen, Hdef. subst ordered. by rewrite buildSeats_ordered_fixed.
Qed.

Lemma roster_ids_nonempty (createId : nat -> string) (names : list string) :
  (length names <= 36)%nat ->
  (forall k, (k < 36)%nat -> createId k <> "") ->
  "" ∉ rosterIds (imap (fun k name => Student.mk (createId k) name) names).
Proof.
  intros Hlen Hne Hin. unfold rosterIds in Hin. rewrite fmap_id_imap in Hin.
  apply list_elem_of_fmap in Hin as (k & Hk & Hin). apply elem_of_seq in Hin.
  apply (Hne k); [lia|done].
Qed.

Lemma replaceStudents_config (createId : nat -> string) (now : string)
    (classroom : Classroom.t) (names : list string) (timeMode : TimeMode.t) :
  let classroom' := replaceStudents createId now classroom names timeMode in
  let students := Classroom.students classroom' in
  let config := getConfig classroom timeMode in
  let capacity :=
    Z.to_nat (LayoutMetrics.capacity
                (getLayoutMetrics (TimeModeConfig.layoutMode config)
                   (Z.of_nat (length students)))) in
  students =
    imap (fun k name => Student.mk (createId k) name) (take 36 (uniqueNames names)) /\
  (length students <= 36)%nat /\
  (length students <= capacity)%nat /\
  TimeModeConfig.seats (getConfig classroom' timeMode) =
    (Some <$> rosterIds students) ++ replicate (capacity - length students) None.
Proof.
  intros classroom' students config capacity.
  assert (students =
          imap (fun k name => Student.mk (createId k) name) (take 36 (uniqueNames names)))
    as Hstudents.
  { subst students classroom'. unfold replaceStudents.
    rewrite students_setUpdatedAt, students_setConfig. cbn [Classroom.students setStudents].
    by rewrite slice_take by done. }
  assert (length students <= 36)%nat as Hlen.
  { rewrite Hstudents, length_imap, length_take. lia. }
  pose proof (capacity_covers (TimeModeConfig.layoutMode config)
                (Z.of_nat (length students)) ltac:(lia)) as Hcap.
  split; [done|]. split; [done|]. split; [subst capacity; lia|].
  subst classroom'. unfold replaceStudents.
  rewrite getConfig_setUpdatedAt, getConfig_setConfig, decide_True by done.
  cbn [TimeModeConfig.seats]. rewrite slice_take by done.
  change (Z.to_nat MAX_STUDENTS) with 36%nat. rewrite <- Hstudents.
  fold config. rewrite capacity_nat. fold capacity.
  rewrite buildSeatsFromOrder_eq. unfold rosterIds.
  rewrite take_ge by (rewrite length_fmap; lia). by rewrite length_fmap.
Qed.

(** X10: [replaceStudents] makes the roster the first 36 distinct sanitized
    names, one student per name with the ids that [createId] returns, and in
    the chosen time mode seats them in roster order from seat 0 on, the other
    seats empty, with rotation count 0 and the layout mode as before; the
    config of the other time mode is not changed. When [createId] never
    returns the empty string, every student is assigned and nobody is
    unassigned in the chosen time mode. *)
Theorem replaceStudents_seats_roster_in_order (createId : nat -> string) (now : string)
    (classroom : Classroom.t) (names : list string) (timeMode : TimeMode.t) :
  let classroom' := replaceStudents createId now classroom names timeMode in
  let students := Classroom.students classroom' in
  let config := getConfig classroom timeMode in
  let config' := getConfig classroom' timeMode in
  let capacity :=
    Z.to_nat (LayoutMetrics.capacity
                (getLayoutMetrics (TimeModeConfig.layoutMode config)
                   (Z.of_nat (length students)))) in
  students =
    imap (fun k name => Student.mk (createId k) name) (take 36 (uniqueNames names)) /\
  (length students <= 36)%nat /\
  TimeModeConfig.seats config' =
    (Some <$> rosterIds students) ++ replicate (capacity - length students) None /\
  TimeModeConfig.rotationCount config' = 0 /\
  TimeModeConfig.layoutMode config' = TimeModeConfig.layoutMode config /\
  (forall tm, tm <> timeMode -> getConfig classroom' tm = getConfig classroom tm) /\
  ((forall k, (k < 36)%nat -> createId k <> "") ->
   getAssignedCount config' = Z.of_nat (length students) /\
   getUnassignedStudents classroom' timeMode = []).
Proof.
  intros classroom' students config config' capacity.
  destruct (replaceStudents_config createId now classroom names timeMode)
    as (Hstudents & Hlen & Hcap & Hseats).
  fold classroom' in Hstudents, Hlen, Hcap, Hseats.
  fold students in Hstudents, Hlen, Hcap, Hseats.
  fold config capacity in Hcap, Hseats. fold config' in Hseats.
  split; [done|]. split; [done|]. split; [done|].
  split; [|split; [|split]].
  - subst config' classroom'. unfold replaceStudents.
    by rewrite getConfig_setUpdatedAt, getConfig_setConfig, decide_True by done.
  - subst config' classroom'. unfold replaceStudents.
    by rewrite getConfig_setUpdatedAt, getConfig_setConfig, decide_True by done.
  - intros tm Htm. subst classroom'. unfold replaceStudents.
    rewrite getConfig_setUpdatedAt, getConfig_setConfig, decide_False by done.
    apply getConfig_setStudents.
  - intros Hne.
    assert ("" ∉ rosterIds students) as Hids.
    { rewrite Hstudents. apply roster_ids_nonempty; [|done]. rewrite length_take. lia. }
    assert (truthyIds (TimeModeConfig.seats config') = rosterIds students) as Htruthy.
    { by rewrite Hseats, truthyIds_app, truthyIds_Some, truthyIds_replicate_None, app_nil_r. }
    split.
    + rewrite getAssignedCount_count, Htruthy. unfold rosterIds. by rewrite length_fmap.
    + unfold getUnassignedStudents. fold config' students.
      rewrite assigned_truthyIds, Htruthy.
      apply filter_nil_forall. intros student Hin Hnot. apply Hnot.
      apply elem_of_list_to_set, list_elem_of_fmap. by exists student.
Qed.

Lemma fmap_name_imap (createId : nat -> string) (names : list string) :
  Student.name <$> imap (fun k name => Student.mk (createId k) name) names = names.
Proof.
  apply list_eq. intros i. rewrite list_lookup_fmap, list_lookup_imap.
  by destruct (names !! i).
Qed.

Lemma roster_ids_NoDup (createId : nat -> string) (names : list string) :
  (length names <= 36)%nat ->
  NoDup (createId <$> seq 0 36) ->
  NoDup (rosterIds (imap (fun k name => Student.mk (createId k) name) names)).
Proof.
  intros Hlen Hfresh. unfold rosterIds. rewrite fmap_id_imap.
  apply (sublist_NoDup _ _ Hfresh).
  replace 36%nat with (length names + (36 - length names))%nat at 1 by lia.
  rewrite seq_app, fmap_app. by apply sublist_inserts_r.
Qed.

(** X11: importing a list of names (the roster is replaced, then the chosen
    layout is applied), with ids from [createId] that are distinct and not
    empty, gives a roster with the first 36 distinct sanitized names in order,
    the chosen layout mode with rotation count 0, and seats every student: in
    GROUPS and THREE_ROWS mode in roster order from seat 0 on, in ARC mode
    centered in two rows; nobody is left unassigned. *)
Theorem importStudents_seats_everyone (createId : nat -> string) (now now' : string)
    (classroom : Classroom.t) (trimmedNames : list string) (importLayout : LayoutMode.t)
    (activeTimeMode : TimeMode.t) :
  NoDup (createId <$> seq 0 36) ->
  (forall k, (k < 36)%nat -> createId k <> "") ->
  let classroom' :=
    importStudents createId now now' classroom trimmedNames importLayout activeTimeMode in
  let students := Classroom.students classroom' in
  let config' := getConfig classroom' activeTimeMode in
  let capacity :=
    Z.to_nat (LayoutMetrics.capacity
                (getLayoutMetrics importLayout (Z.of_nat (length students)))) in
  Student.name <$> students = take 36 (uniqueNames trimmedNames) /\
  rosterIds students = createId <$> seq 0 (length students) /\
  TimeModeConfig.layoutMode config' = importLayout /\
  TimeModeConfig.rotationCount config' = 0 /\
  TimeModeConfig.seats config' =
    match importLayout with
    | LayoutMode.ARC => arcFill (rosterIds students)
    | _ => (Some <$> rosterIds students) ++ replicate (capacity - length students) None
    end /\
  getUnassignedStudents classroom' activeTimeMode = [].
Proof.
  intros Hfresh Hne classroom' students config' capacity.
  set (replaced := replaceStudents createId now classroom trimmedNames activeTimeMode).
  destruct (replaceStudents_config createId now classroom trimmedNames activeTimeMode)
    as (Hstudents & Hlen & Hcap & Hseats).
  fold replaced in Hstudents, Hlen, Hcap, Hseats.
  assert (students = Classroom.students replaced) as Hsame.
  { subst students classroom'. unfold importStudents, changeLayoutMode.
    by rewrite students_setUpdatedAt, students_setConfig. }
  rewrite <- Hsame in Hstudents, Hlen, Hcap, Hseats.
  assert (config' =
          withLayout (getConfig replaced activeTimeMode) importLayout students) as Hconfig.
  { subst config' classroom'. unfold importStudents, changeLayoutMode. fold replaced.
    rewrite getConfig_setUpdatedAt, getConfig_setConfig, decide_True by done.
    by rewrite Hsame. }
  assert (NoDup (rosterIds students)) as Hnd.
  { rewrite Hstudents. apply roster_ids_NoDup; [|done]. rewrite length_take. lia. }
  assert ("" ∉ rosterIds students) as Hids.
  { rewrite Hstudents. apply roster_ids_nonempty; [|done]. rewrite length_take. lia. }
  assert (getOrderedStudentIds students (TimeModeConfig.seats (getConfig replaced activeTimeMode))
          = rosterIds students) as Hordered.
  { rewrite Hseats. by apply getOrderedStudentIds_fixed. }
  assert (length (rosterIds students) = length students) as Hlenids
    by (unfold rosterIds; by rewrite length_fmap).
  pose proof (capacity_covers importLayout (Z.of_nat (length students)) ltac:(lia)) as Hfit.
  assert (TimeModeConfig.seats config' =
          match importLayout with
          | LayoutMode.ARC => arcFill (rosterIds students)
          | _ => (Some <$> rosterIds students) ++ replicate (capacity - length students) None
          end) as Hseats'.
  { rewrite Hconfig, withLayout_seats, Hordered.
    destruct importLayout; [| |done]; rewrite capacity_nat, buildSeatsFromOrder_eq; fold capacity;
      rewrite take_ge by lia; by rewrite Hlenids. }
  split; [rewrite Hstudents; apply fmap_name_imap|].
  split; [rewrite Hstudents at 1; unfold rosterIds; rewrite fmap_id_imap;
          by rewrite Hstudents, length_imap|].
  split; [rewrite Hconfig; apply withLayout_layoutMode|].
  split.
  { rewrite Hconfig, withLayout_rotationCount. subst replaced. unfold replaceStudents.
    by rewrite getConfig_setUpdatedAt, getConfig_setConfig, decide_True by done. }
  split; [done|].
  unfold getUnassignedStudents. fold config' students.
  rewrite assigned_truthyIds.
  apply filter_nil_forall. intros student Hin Hnot. apply Hnot.
  assert (Student.id student ∈ rosterIds students) as Hid
    by (apply list_elem_of_fmap; by exists student).
  apply elem_of_list_to_set, elem_of_truthyIds.
  split; [|by intros Heq; rewrite Heq in Hid].
  apply elem_of_occupants. rewrite Hseats'.
  destruct importLayout.
  - rewrite occupants_app, occupants_Some, occupants_replicate_None. by rewrite app_nil_r.
  - rewrite occupants_app, occupants_Some, occupants_replicate_None. by rewrite app_nil_r.
  - rewrite arcFill_all by lia. done.
Qed.

End ImportRosterFacts.

Section ImportRosterExamples.
Local Open Scope Z_scope.

Lemma exampleId_nonempty (k : nat) : exampleId k <> "".
Proof. unfold exampleId. discriminate. Qed.

Lemma withLayout_keeps_seat_order_witness :
  TimeModeConfig.seats
    (withLayout (getConfig (clearSeat day3 groupsRoom 0 TimeMode.weekday) TimeMode.weekday)
       LayoutMode.GROUPS (Classroom.students groupsRoom)) =
  (Some <$> ["id-1"; "id-2"; "id-3"; "id-4"; "id-5"; "id-6"; "id-0"]) ++ replicate 29 None.
Proof.
  destruct (withLayout_keeps_seat_order
              (getConfig (clearSeat day3 groupsRoom 0 TimeMode.weekday) TimeMode.weekday)
              LayoutMode.GROUPS (Classroom.students groupsRoom)) as [_ Hseats].
  - apply (bool_decide_unpack _). by vm_compute.
  - apply seatsUnique_NoDup. apply (bool_decide_unpack _). by vm_compute.
  - rewrite Hseats. by vm_compute.
Defined.

Lemma withLayout_idempotent_witness :
  changeLayoutMode day4 settledRoom LayoutMode.GROUPS TimeMode.weekend =
  setUpdatedAt settledRoom day4.
Proof.
  apply (withLayout_idempotent day3 day4 groupsRoom LayoutMode.GROUPS TimeMode.weekend).
  - discriminate.
  - by vm_compute.
  - apply Forall_forall. apply (bool_decide_unpack _). by vm_compute.
Defined.

Lemma replaceStudents_seats_roster_in_order_witness :
  TimeModeConfig.seats (getConfig groupsRoom TimeMode.weekday) =
    (Some <$> ["id-0"; "id-1"; "id-2"; "id-3"; "id-4"; "id-5"; "id-6"]) ++ replicate 29 None /\
  getUnassignedStudents groupsRoom TimeMode.weekday = [].
Proof.
  destruct (replaceStudents_seats_roster_in_order exampleId day2 emptyRoom
              ["Ada"; "Ben"; "Cy"; "Dee"; "Eli"; "Fay"; "Gus"] TimeMode.weekday)
    as (_ & _ & Hseats & _ & _ & _ & _ & Hnone).
  - intros k _. apply exampleId_nonempty.
  - split; [exact Hseats|exact Hnone].
Defined.

Lemma importStudents_seats_everyone_witness :
  let imported :=
    importStudents exampleId day2 day3 emptyRoom ["Ada"; " Ben "; "Ada"; "Cy"]
      LayoutMode.ARC TimeMode.weekday in
  Student.name <$> Classroom.students imported = ["Ada"; "Ben"; "Cy"] /\
  getUnassignedStudents imported TimeMode.weekday = [].
Proof.
  destruct (importStudents_seats_everyone exampleId day2 day3 emptyRoom
              ["Ada"; " Ben "; "Ada"; "Cy"] LayoutMode.ARC TimeMode.weekday)
    as (Hnames & _ & _ & _ & _ & Hnone).
  - exact exampleId_fresh.
  - intros k _. apply exampleId_nonempty.
  - split; [exact Hnames|exact Hnone].
Defined.

End ImportRosterExamples.


(** ** The manual seat operations: what they do to the seats *)

Section SeatOperationFacts.
Local Open Scope Z_scope.

Lemma arrayRead_lookup (l : list Seat) (k : nat) (x : Seat) :
  l !! k = Some x -> arrayRead l (Z.of_nat k) = x.
Proof. intros Hk. by rewrite arrayRead_nat, Hk. Qed.

Lemma arrayRead_outside (l : list Seat) (k : Z) :
  k < 0 \/ Z.of_nat (length l) <= k -> arrayRead l k = None.
Proof.
  intros Hk. unfold arrayRead. destruct (Z.ltb_spec k 0); [done|].
  rewrite lookup_ge_None_2; [done|lia].
Qed.

Lemma arrayRead_insert (l : list Seat) (i : nat) (v : Seat) (k : Z) :
  (i < length l)%nat ->
  arrayRead (<[i := v]> l) k = if decide (k = Z.of_nat i) then v else arrayRead l k.
Proof.
  intros Hi. destruct (decide (k = Z.of_nat i)) as [->|Hne].
  - by rewrite arrayRead_nat, list_lookup_insert_eq.
  - unfold arrayRead. destruct (Z.ltb_spec k 0); [done|].
    rewrite list_lookup_insert_ne; [done|lia].
Qed.

Lemma arrayRead_Some_lookup (l : list Seat) (k : Z) (s : string) :
  arrayRead l k = Some s <-> 0 <= k /\ l !! Z.to_nat k = Some (Some s).
Proof.
  unfold arrayRead. destruct (Z.ltb_spec k 0); [split; [done|lia]|].
  destruct (l !! Z.to_nat k) as [x|]; cbn; split; try done; try lia.
  - intros ->. split; [lia|done].
  - intros [_ Heq]. by simplify_eq.
  - intros [_ ?]. done.
Qed.

(** The seats after the two writes of [swapSeatAssignments]. *)
Lemma swap_writes (seats : list Seat) (first second : Z) :
  0 <= first < Z.of_nat (length seats) -> 0 <= second < Z.of_nat (length seats) ->
  arrayWrite (arrayWrite seats first (arrayRead seats second)) second (arrayRead seats first) =
  <[Z.to_nat second := arrayRead seats first]>
    (<[Z.to_nat first := arrayRead seats second]> seats).
Proof.
  intros Hf Hs. rewrite (arrayWrite_in_range seats) by done.
  by rewrite arrayWrite_in_range by (by rewrite length_insert).
Qed.

Lemma truthyIds_perm (l k : list Seat) : l ≡ₚ k -> truthyIds l ≡ₚ truthyIds k.
Proof. intros Hlk. unfold truthyIds. by rewrite Hlk. Qed.

Lemma getUnassignedStudents_seats (classroom : Classroom.t) (timeMode : TimeMode.t) :
  getUnassignedStudents classroom timeMode =
  filter (fun student =>
      Student.id student ∉
        (list_to_set (truthyIds (TimeModeConfig.seats (getConfig classroom timeMode)))
           : gset string))
    (Classroom.students classroom).
Proof. unfold getUnassignedStudents. by rewrite assigned_truthyIds. Qed.

(** X12: swapping two different seats of the array exchanges their contents
    and touches no other seat; the number of assigned seats and the list of
    unassigned students stay the same, and swapping the same two seats again
    restores the classroom, up to [updatedAt]. *)
Theorem swapSeatAssignments_exchanges (now now' : string) (classroom : Classroom.t)
    (first second : Z) (timeMode : TimeMode.t) :
  let seats := TimeModeConfig.seats (getConfig classroom timeMode) in
  let swapped := swapSeatAssignments now classroom first second timeMode in
  let seats' := TimeModeConfig.seats (getConfig swapped timeMode) in
  first <> second ->
  0 <= first < Z.of_nat (length seats) ->
  0 <= second < Z.of_nat (length seats) ->
  arrayRead seats' first = arrayRead seats second /\
  arrayRead seats' second = arrayRead seats first /\
  (forall k, k <> first -> k <> second -> arrayRead seats' k = arrayRead seats k) /\
  getAssignedCount (getConfig swapped timeMode) = getAssignedCount (getConfig classroom timeMode) /\
  getUnassignedStudents swapped timeMode = getUnassignedStudents classroom timeMode /\
  swapSeatAssignments now' swapped first second timeMode = setUpdatedAt classroom now'.
Proof.
  intros seats swapped seats' Hne Hf Hs.
  set (a := Z.to_nat first). set (b := Z.to_nat second).
  destruct (lookup_lt_is_Some_2 seats a ltac:(lia)) as [x Hx].
  destruct (lookup_lt_is_Some_2 seats b ltac:(lia)) as [y Hy].
  assert (arrayRead seats first = x) as Hrx
    by (rewrite <- (Z2Nat.id first) by lia; by apply arrayRead_lookup).
  assert (arrayRead seats second = y) as Hry
    by (rewrite <- (Z2Nat.id second) by lia; by apply arrayRead_lookup).
  assert (swapped =
          setUpdatedAt
            (setConfig classroom timeMode
               (setSeats (getConfig classroom timeMode) (<[b := x]> (<[a := y]> seats))))
            now) as Hswapped.
  { subst swapped. unfold swapSeatAssignments. fold seats.
    destruct (Z.eqb_spec first second); [done|].
    destruct (Z.ltb_spec first 0); [lia|]. destruct (Z.ltb_spec second 0); [lia|].
    destruct (Z.leb_spec (Z.of_nat (length seats)) first); [lia|].
    destruct (Z.leb_spec (Z.of_nat (length seats)) second); [lia|].
    cbn [orb]. rewrite swap_writes by done. by rewrite Hrx, Hry. }
  assert (seats' = <[b := x]> (<[a := y]> seats)) as Hseats'.
  { subst seats'. rewrite Hswapped.
    by rewrite getConfig_setUpdatedAt, getConfig_setConfig, decide_True by done. }
  assert (seats' ≡ₚ seats) as Hperm by (rewrite Hseats'; by apply swap_perm).
  split; [|split; [|split; [|split; [|split]]]].
  - rewrite Hseats', !arrayRead_insert by (rewrite ?length_insert; lia).
    rewrite decide_False by lia. rewrite decide_True by lia. done.
  - rewrite Hseats', !arrayRead_insert by (rewrite ?length_insert; lia).
    rewrite decide_True by lia. done.
  - intros k Hk1 Hk2.
    rewrite Hseats', !arrayRead_insert by (rewrite ?length_insert; lia).
    by rewrite !decide_False by lia.
  - rewrite !getAssignedCount_count. fold seats seats'.
    by rewrite (Permutation_length (truthyIds_perm _ _ Hperm)).
  - rewrite !getUnassignedStudents_seats. fold seats seats'.
    assert ((list_to_set (truthyIds seats') : gset string) = list_to_set (truthyIds seats))
      as -> by (apply list_to_set_perm_L; by apply truthyIds_perm).
    rewrite Hswapped at 1. by rewrite students_setUpdatedAt, students_setConfig.
  - unfold swapSeatAssignments. fold seats'.
    assert (length seats' = length seats) as Hlen by (by rewrite Hperm).
    rewrite Hlen.
    destruct (Z.eqb_spec first second); [done|].
    destruct (Z.ltb_spec first 0); [lia|]. destruct (Z.ltb_spec second 0); [lia|].
    destruct (Z.leb_spec (Z.of_nat (length seats)) first); [lia|].
    destruct (Z.leb_spec (Z.of_nat (length seats)) second); [lia|].
    cbn [orb]. rewrite swap_writes by lia.
    assert (<[Z.to_nat second := arrayRead seats' first]>
              (<[Z.to_nat first := arrayRead seats' second]> seats') = seats) as ->.
    { fold a b. rewrite Hseats'.
      rewrite !arrayRead_insert by (rewrite ?length_insert; lia).
      rewrite (decide_False (P := first = Z.of_nat b)) by lia.
      rewrite !decide_True by lia.
      apply list_eq. intros k.
      destruct (decide (k = b)) as [->|Hkb].
      - by rewrite list_lookup_insert_eq by (rewrite !length_insert; lia).
      - rewrite list_lookup_insert_ne by done.
        destruct (decide (k = a)) as [->|Hka].
        + by rewrite list_lookup_insert_eq by (rewrite !length_insert; lia).
        + by rewrite !list_lookup_insert_ne by done. }
    rewrite Hswapped. subst seats. by destruct classroom, timeMode;
      cbn; destruct weekday, weekend.
Qed.

Lemma roster_guard (students : list Student.t) (studentId : string) :
  studentId ∈ rosterIds students ->
  existsb (fun student => String.eqb (Student.id student) studentId) students = true.
Proof.
  intros Hin. apply list_elem_of_fmap in Hin as (student & -> & Hin).
  apply existsb_exists. exists student.
  split; [by apply list_elem_of_In|apply String.eqb_refl].
Qed.

Lemma unseated_is_unassigned (classroom : Classroom.t) (timeMode : TimeMode.t)
    (student : Student.t) :
  student ∈ Classroom.students classroom ->
  Some (Student.id student) ∉ TimeModeConfig.seats (getConfig classroom timeMode) ->
  student ∈ getUnassignedStudents classroom timeMode.
Proof.
  intros Hin Hnot. rewrite getUnassignedStudents_seats.
  apply list_elem_of_filter. split; [|done].
  rewrite elem_of_list_to_set, elem_of_truthyIds. by intros [? _].
Qed.

(** X13: [placeStudentInSeat] with a seat index of the array and an id of
    the roster leaves the student in the chosen seat and in no other seat;
    seats that held other students keep them, except the chosen seat: when no
    id is in two seats, the student who sat there is in no seat afterwards
    and, being in the roster, is listed as unassigned (the occupant is
    evicted, not swapped). *)
Theorem placeStudentInSeat_moves_student (now : string) (classroom : Classroom.t)
    (studentId : string) (seatIndex : Z) (timeMode : TimeMode.t) :
  let seats := TimeModeConfig.seats (getConfig classroom timeMode) in
  let placed := placeStudentInSeat now classroom studentId seatIndex timeMode in
  let seats' := TimeModeConfig.seats (getConfig placed timeMode) in
  0 <= seatIndex < Z.of_nat (length seats) ->
  studentId ∈ rosterIds (Classroom.students classroom) ->
  length seats' = length seats /\
  (forall k, arrayRead seats' k = Some studentId <-> k = seatIndex) /\
  (forall k, k <> seatIndex -> arrayRead seats k <> Some studentId ->
     arrayRead seats' k = arrayRead seats k) /\
  (forall evicted,
     seatsUnique seats -> evicted ∈ Classroom.students classroom ->
     arrayRead seats seatIndex = Some (Student.id evicted) ->
     Student.id evicted <> studentId ->
     (Some (Student.id evicted) ∉ seats') /\
     evicted ∈ getUnassignedStudents placed timeMode).
Proof.
  intros seats placed seats' Hi Hroster.
  set (vacated :=
    (fun seat : Seat => if decide (seat = Some studentId) then None else seat) <$> seats).
  set (i := Z.to_nat seatIndex).
  assert (placed =
          setUpdatedAt
            (setConfig classroom timeMode
               (setSeats (getConfig classroom timeMode) (<[i := Some studentId]> vacated)))
            now) as Hplaced.
  { subst placed. unfold placeStudentInSeat. fold seats.
    destruct (Z.ltb_spec seatIndex 0); [lia|].
    destruct (Z.leb_spec (Z.of_nat (length seats)) seatIndex); [lia|].
    cbn [orb]. rewrite roster_guard by done. cbn [negb]. fold vacated.
    by rewrite arrayWrite_in_range by (unfold vacated; by rewrite length_fmap). }
  assert (seats' = <[i := Some studentId]> vacated) as Hseats'.
  { subst seats'. rewrite Hplaced.
    by rewrite getConfig_setUpdatedAt, getConfig_setConfig, decide_True by done. }
  assert (length vacated = length seats) as Hlen by (unfold vacated; by rewrite length_fmap).
  assert (forall k, arrayRead vacated k =
            if decide (arrayRead seats k = Some studentId) then None else arrayRead seats k)
    as Hvacated.
  { intros k. unfold arrayRead. destruct (Z.ltb_spec k 0); [by rewrite decide_False|].
    unfold vacated. rewrite list_lookup_fmap.
    destruct (seats !! Z.to_nat k) as [seat|]; cbn; [|by rewrite decide_False].
    by repeat case_decide. }
  split; [by rewrite Hseats', length_insert|]. split; [|split].
  - intros k. rewrite Hseats', arrayRead_insert by lia.
    destruct (decide (k = Z.of_nat i)) as [->|Hne]; [split; [lia|done]|].
    rewrite Hvacated. case_decide; split; try done; lia.
  - intros k Hk Hother. rewrite Hseats', arrayRead_insert by lia.
    rewrite decide_False by lia. rewrite Hvacated. by rewrite decide_False.
  - intros evicted Hunique Hin Hwas Hdiff.
    assert (Some (Student.id evicted) ∉ seats') as Hgone.
    { intros Hstill. apply list_elem_of_lookup in Hstill as [k Hk].
      rewrite Hseats' in Hk.
      destruct (decide (k = i)) as [->|Hne].
      - rewrite list_lookup_insert_eq in Hk by lia. by simplify_eq.
      - rewrite list_lookup_insert_ne in Hk by done.
        unfold vacated in Hk. rewrite list_lookup_fmap in Hk.
        destruct (seats !! k) as [seat|] eqn:Hseat; cbn in Hk; [|done].
        case_decide; simplify_eq.
        apply arrayRead_Some_lookup in Hwas as [_ Hwas].
        pose proof (Hunique k i _ Hseat Hwas). done. }
    split; [done|].
    apply unseated_is_unassigned; [|done].
    rewrite Hplaced. by rewrite students_setUpdatedAt, students_setConfig.
Qed.

Lemma truthyIds_insert_None (seats : list Seat) (i : nat) (x : Seat) :
  seats !! i = Some x ->
  (length (truthyIds (<[i := None]> seats)) + (if truthy x then 1 else 0))%nat =
  length (truthyIds seats).
Proof.
  intros Hx. pose proof (lookup_lt_Some _ _ _ Hx) as Hlt.
  rewrite insert_take_drop by done.
  rewrite <- (take_drop_middle seats i x Hx) at 3.
  rewrite !truthyIds_app, !length_app.
  rewrite (truthyIds_cons_falsy None) by done.
  destruct (truthy x) eqn:Htruthy.
  - destruct x as [s|]; [|done]. rewrite truthyIds_cons_truthy by done. cbn [length]. lia.
  - rewrite truthyIds_cons_falsy by done. lia.
Qed.

(** X14: [clearSeat] with a seat index of the array empties that seat and
    touches no other; the number of assigned seats goes down by one when the
    seat held a non-empty id and stays the same otherwise; when no id is in
    two seats, a student of the roster who sat there is listed as unassigned
    afterwards. *)
Theorem clearSeat_unseats_student (now : string) (classroom : Classroom.t)
    (seatIndex : Z) (timeMode : TimeMode.t) :
  let seats := TimeModeConfig.seats (getConfig classroom timeMode) in
  let cleared := clearSeat now classroom seatIndex timeMode in
  let seats' := TimeModeConfig.seats (getConfig cleared timeMode) in
  0 <= seatIndex < Z.of_nat (length seats) ->
  length seats' = length seats /\
  arrayRead seats' seatIndex = None /\
  (forall k, k <> seatIndex -> arrayRead seats' k = arrayRead seats k) /\
  getAssignedCount (getConfig cleared timeMode) =
    getAssignedCount (getConfig classroom timeMode) -
    (if truthy (arrayRead seats seatIndex) then 1 else 0) /\
  (forall student,
     seatsUnique seats -> student ∈ Classroom.students classroom ->
     arrayRead seats seatIndex = Some (Student.id student) ->
     student ∈ getUnassignedStudents cleared timeMode).
Proof.
  intros seats cleared seats' Hi.
  set (i := Z.to_nat seatIndex).
  assert (cleared =
          setUpdatedAt
            (setConfig classroom timeMode
               (setSeats (getConfig classroom timeMode) (<[i := None]> seats)))
            now) as Hcleared.
  { subst cleared. unfold clearSeat. fold seats.
    destruct (Z.ltb_spec seatIndex 0); [lia|].
    destruct (Z.leb_spec (Z.of_nat (length seats)) seatIndex); [lia|].
    cbn [orb]. by rewrite arrayWrite_in_range by done. }
  assert (seats' = <[i := None]> seats) as Hseats'.
  { subst seats'. rewrite Hcleared.
    by rewrite getConfig_setUpdatedAt, getConfig_setConfig, decide_True by done. }
  destruct (lookup_lt_is_Some_2 seats i ltac:(lia)) as [x Hx].
  assert (arrayRead seats seatIndex = x) as Hrx
    by (rewrite <- (Z2Nat.id seatIndex) by lia; by apply arrayRead_lookup).
  split; [by rewrite Hseats', length_insert|]. split; [|split; [|split]].
  - rewrite Hseats', arrayRead_insert by lia. by rewrite decide_True by lia.
  - intros k Hk. rewrite Hseats', arrayRead_insert by lia. by rewrite decide_False by lia.
  - rewrite !getAssignedCount_count. fold seats seats'. rewrite Hseats', Hrx.
    pose proof (truthyIds_insert_None seats i x Hx). destruct (truthy x); lia.
  - intros student Hunique Hin Hwas.
    apply unseated_is_unassigned;
      [rewrite Hcleared; by rewrite students_setUpdatedAt, students_setConfig|].
    fold seats'. rewrite Hseats'. intros Hstill.
    apply list_elem_of_lookup in Hstill as [k Hk].
    destruct (decide (k = i)) as [->|Hne].
    + by rewrite list_lookup_insert_eq in Hk by lia.
    + rewrite list_lookup_insert_ne in Hk by done.
      apply arrayRead_Some_lookup in Hwas as [_ Hwas].
      pose proof (Hunique k i _ Hk Hwas). done.
Qed.

Lemma filter_split_length {A} (P : A -> Prop) `{forall x, Decision (P x)} (l : list A) :
  (length (filter P l) + length (filter (fun x => ~ P x) l))%nat = length l.
Proof.
  induction l as [|x l IH]; [done|].
  rewrite !filter_cons. destruct (decide (P x)) as [HP|HP].
  - rewrite decide_False by (by intros Hn). cbn [length]. lia.
  - rewrite decide_True by done. cbn [length]. lia.
Qed.

Lemma filter_fmap_length {A B} (f : A -> B) (P : B -> Prop) `{forall x, Decision (P x)}
    (l : list A) :
  length (filter (fun x => P (f x)) l) = length (filter P (f <$> l)).
Proof.
  induction l as [|x l IH]; [done|].
  cbn [fmap list_fmap]. rewrite !filter_cons.
  destruct (decide (P (f x))); cbn [length]; by rewrite IH.
Qed.

(** X15: in a classroom with pairwise distinct roster ids, where in the
    chosen time mode no id is in two seats and every seated id is in the
    roster, the number of assigned seats and the number of unassigned students
    add up to the size of the roster. *)
Theorem assigned_and_unassigned_partition_roster (classroom : Classroom.t)
    (timeMode : TimeMode.t) :
  let students := Classroom.students classroom in
  let config := getConfig classroom timeMode in
  NoDup (rosterIds students) ->
  seatsUnique (TimeModeConfig.seats config) ->
  (forall s, Some s ∈ TimeModeConfig.seats config -> s ∈ rosterIds students) ->
  getAssignedCount config + Z.of_nat (length (getUnassignedStudents classroom timeMode)) =
  Z.of_nat (length students).
Proof.
  intros students config Hroster Hunique Hvalid.
  rewrite getAssignedCount_count, getUnassignedStudents_seats. fold config students.
  set (assigned := truthyIds (TimeModeConfig.seats config)).
  assert (NoDup assigned) as Hnd by (by apply truthyIds_NoDup).
  assert (forall s, s ∈ assigned -> s ∈ rosterIds students) as Hsub.
  { intros s Hs. apply elem_of_truthyIds in Hs as [Hs _]. by apply Hvalid. }
  pose proof (filter_fmap_length Student.id
                (fun s => s ∉ (list_to_set assigned : gset string)) students) as Hids.
  cbv beta in Hids. rewrite Hids. clear Hids. fold (rosterIds students).
  assert (filter (fun s => s ∈ (list_to_set assigned : gset string)) (rosterIds students)
          ≡ₚ assigned) as Hperm.
  { apply NoDup_Permutation; [by apply NoDup_filter|done|].
    intros s. rewrite list_elem_of_filter, elem_of_list_to_set. split; [tauto|].
    intros Hs. split; [done|by apply Hsub]. }
  pose proof (filter_split_length (fun s => s ∈ (list_to_set assigned : gset string))
                (rosterIds students)) as Hsplit.
  rewrite (Permutation_length Hperm) in Hsplit.
  unfold rosterIds in Hsplit at 2. rewrite length_fmap in Hsplit. fold students in Hsplit.
  lia.
Qed.

(** X16: [randomizeSeats] keeps the roster, the layout mode, the rotation
    count and the other time mode's config, and, whatever the random draws
    are, seats a roster of at most 36 students completely: the occupants of
    the new seats are the ids of the roster, each as often as in the roster
    (in GROUPS and THREE_ROWS mode a permutation of them from seat 0 on, the
    other seats empty); when no id is the empty string nobody is unassigned. *)
Theorem randomizeSeats_seats_whole_roster (draw : nat -> nat) (now : string)
    (classroom : Classroom.t) (timeMode : TimeMode.t) :
  let students := Classroom.students classroom in
  let config := getConfig classroom timeMode in
  let shuffled := randomizeSeats draw now classroom timeMode in
  let config' := getConfig shuffled timeMode in
  let capacity :=
    Z.to_nat (LayoutMetrics.capacity
                (getLayoutMetrics (TimeModeConfig.layoutMode config)
                   (Z.of_nat (length students)))) in
  Z.of_nat (length students) <= 36 ->
  Classroom.students shuffled = students /\
  TimeModeConfig.layoutMode config' = TimeModeConfig.layoutMode config /\
  TimeModeConfig.rotationCount config' = TimeModeConfig.rotationCount config /\
  (forall tm, tm <> timeMode -> getConfig shuffled tm = getConfig classroom tm) /\
  length (TimeModeConfig.seats config') = capacity /\
  occupants (TimeModeConfig.seats config') ≡ₚ rosterIds students /\
  (TimeModeConfig.layoutMode config <> LayoutMode.ARC ->
   exists ids, ids ≡ₚ rosterIds students /\
     TimeModeConfig.seats config' =
       (Some <$> ids) ++ replicate (capacity - length students) None) /\
  ((forall student, student ∈ students -> Student.id student <> "") ->
   getUnassignedStudents shuffled timeMode = []).
Proof.
  intros students config shuffled config' capacity Hn.
  set (ids := shuffleFrom draw (length students - 1)%nat (rosterIds students)).
  assert (ids ≡ₚ rosterIds students) as Hperm by apply shuffleFrom_perm.
  assert (length ids = length students) as Hlen
    by (rewrite Hperm; unfold rosterIds; by rewrite length_fmap).
  pose proof (capacity_covers (TimeModeConfig.layoutMode config)
                (Z.of_nat (length students)) ltac:(lia)) as Hcap.
  pose proof (randomizeSeats_seats draw now classroom timeMode) as Hseats.
  cbv zeta in Hseats. fold students config shuffled config' ids in Hseats.
  assert (Classroom.students shuffled = students) as Hstudents.
  { subst shuffled. unfold randomizeSeats.
    by rewrite students_setUpdatedAt, students_setConfig. }
  assert (occupants (TimeModeConfig.seats config') ≡ₚ rosterIds students) as Hocc.
  { rewrite Hseats. destruct (TimeModeConfig.layoutMode config).
    - rewrite capacity_nat, occupants_buildSeats. fold capacity.
      by rewrite take_ge by lia.
    - rewrite capacity_nat, occupants_buildSeats. fold capacity.
      by rewrite take_ge by lia.
    - by rewrite arcFill_all by lia. }
  split; [done|]. split; [|split; [|split; [|split; [|split; [done|split]]]]].
  - subst config' shuffled. unfold randomizeSeats.
    rewrite getConfig_setUpdatedAt, getConfig_setConfig, decide_True by done.
    cbn [setSeats TimeModeConfig.layoutMode]. apply withLayout_layoutMode.
  - subst config' shuffled. unfold randomizeSeats.
    rewrite getConfig_setUpdatedAt, getConfig_setConfig, decide_True by done.
    cbn [setSeats TimeModeConfig.rotationCount]. apply withLayout_rotationCount.
  - intros tm Htm. subst shuffled. unfold randomizeSeats.
    by rewrite getConfig_setUpdatedAt, getConfig_setConfig, decide_False by done.
  - rewrite Hseats. subst capacity. destruct (TimeModeConfig.layoutMode config).
    + rewrite capacity_nat at 1. apply buildSeatsFromOrder_length.
    + rewrite capacity_nat at 1. apply buildSeatsFromOrder_length.
    + by destruct (arcFill_spec ids).
  - intros Hmode. exists ids. split; [done|]. rewrite Hseats.
    destruct (TimeModeConfig.layoutMode config); [| |done];
      rewrite capacity_nat, buildSeatsFromOrder_eq; fold capacity;
      rewrite take_ge by lia; by rewrite Hlen.
  - intros Hne. rewrite getUnassignedStudents_seats. fold config'. rewrite Hstudents.
    apply filter_nil_forall. intros student Hin Hnot. apply Hnot.
    apply elem_of_list_to_set, elem_of_truthyIds. split; [|by apply Hne].
    apply elem_of_occupants. rewrite Hocc.
    apply list_elem_of_fmap. by exists student.
Qed.

End SeatOperationFacts.

Section SeatOperationExamples.
Local Open Scope Z_scope.

Lemma swapSeatAssignments_exchanges_witness :
  TimeModeConfig.seats
    (getConfig (swapSeatAssignments day3 groupsRoom 0 9 TimeMode.weekday) TimeMode.weekday) =
    [None; Some "id-1"; Some "id-2"; Some "id-3"; Some "id-4"; Some "id-5"; Some "id-6";
     None; None; Some "id-0"] ++ replicate 26 None /\
  swapSeatAssignments day4 (swapSeatAssignments day3 groupsRoom 0 9 TimeMode.weekday) 0 9
    TimeMode.weekday = setUpdatedAt groupsRoom day4.
Proof.
  destruct (swapSeatAssignments_exchanges day3 day4 groupsRoom 0 9 TimeMode.weekday)
    as (_ & _ & _ & _ & _ & Hback).
  - lia.
  - by vm_compute.
  - by vm_compute.
  - split; [by vm_compute|exact Hback].
Defined.

Lemma placeStudentInSeat_moves_student_witness :
  let placed := placeStudentInSeat day3 groupsRoom "id-0" 3 TimeMode.weekday in
  TimeModeConfig.seats (getConfig placed TimeMode.weekday) =
    [None; Some "id-1"; Some "id-2"; Some "id-0"; Some "id-4"; Some "id-5"; Some "id-6"]
    ++ replicate 29 None /\
  Student.mk "id-3" "Dee" ∈ getUnassignedStudents placed TimeMode.weekday.
Proof.
  destruct (placeStudentInSeat_moves_student day3 groupsRoom "id-0" 3 TimeMode.weekday)
    as (_ & _ & _ & Hevict).
  - by vm_compute.
  - apply (bool_decide_unpack _). by vm_compute.
  - split; [by vm_compute|].
    apply (Hevict (Student.mk "id-3" "Dee")).
    + apply groupsRoom_unique.
    + apply (bool_decide_unpack _). by vm_compute.
    + by vm_compute.
    + discriminate.
Defined.

Lemma clearSeat_unseats_student_witness :
  let cleared := clearSeat day3 groupsRoom 2 TimeMode.weekday in
  getAssignedCount (getConfig cleared TimeMode.weekday) = 6 /\
  Student.mk "id-2" "Cy" ∈ getUnassignedStudents cleared TimeMode.weekday.
Proof.
  destruct (clearSeat_unseats_student day3 groupsRoom 2 TimeMode.weekday)
    as (_ & _ & _ & Hcount & Hlisted).
  - by vm_compute.
  - split; [rewrite Hcount; by vm_compute|].
    apply (Hlisted (Student.mk "id-2" "Cy")).
    + apply groupsRoom_unique.
    + apply (bool_decide_unpack _). by vm_compute.
    + by vm_compute.
Defined.

Lemma assigned_and_unassigned_partition_roster_witness :
  getAssignedCount (getConfig (clearSeat day3 groupsRoom 2 TimeMode.weekday) TimeMode.weekday) +
  Z.of_nat (length (getUnassignedStudents (clearSeat day3 groupsRoom 2 TimeMode.weekday)
                      TimeMode.weekday)) = 7.
Proof.
  apply (assigned_and_unassigned_partition_roster
           (clearSeat day3 groupsRoom 2 TimeMode.weekday) TimeMode.weekday).
  - apply (bool_decide_unpack _). by vm_compute.
  - apply seatsUnique_NoDup. apply (bool_decide_unpack _). by vm_compute.
  - intros s Hs. apply elem_of_occupants in Hs. revert s Hs. apply Forall_forall.
    apply (bool_decide_unpack _). by vm_compute.
Defined.

Lemma randomizeSeats_seats_whole_roster_witness :
  occupants
    (TimeModeConfig.seats
       (getConfig (randomizeSeats (fun i => 7 * i + 3)%nat day3 groupsRoom TimeMode.weekday)
          TimeMode.weekday)) ≡ₚ
  ["id-0"; "id-1"; "id-2"; "id-3"; "id-4"; "id-5"; "id-6"].
Proof.
  destruct (randomizeSeats_seats_whole_roster (fun i => 7 * i + 3)%nat day3 groupsRoom
              TimeMode.weekday) as (_ & _ & _ & _ & _ & Hocc & _).
  - by vm_compute.
  - exact Hocc.
Defined.

End SeatOperationExamples.


(** ** Centered placement, column by column *)

Section CenteredRows.
Local Open Scope Z_scope.

(** The rank (0 for the first id placed) of the id that [placeCentered] puts
    in column [c] of a row: the inverse of [centeredColumn]. *)
Definition centeredRank (rowWidth c : Z) : Z :=
  let centerLeft := (rowWidth - 1) / 2 in
  if c <=? centerLeft then 2 * (centerLeft - c) else 2 * (c - centerLeft) - 1.

Lemma centeredRank_range (rowWidth c : Z) :
  0 <= c < rowWidth -> 0 <= centeredRank rowWidth c < rowWidth.
Proof.
  intros Hc. unfold centeredRank.
  destruct (Z.leb_spec c ((rowWidth - 1) / 2)); Z.to_euclidean_division_equations; lia.
Qed.

Lemma centeredColumn_rank (rowWidth c : Z) :
  0 <= c < rowWidth -> centeredColumn rowWidth (Z.to_nat (centeredRank rowWidth c)) = c.
Proof.
  intros Hc. pose proof (centeredRank_range rowWidth c Hc) as Hr.
  unfold centeredColumn. rewrite Z2Nat.id by lia. unfold centeredRank in *.
  destruct (Z.leb_spec c ((rowWidth - 1) / 2));
    match goal with |- context [?a =? 0] => destruct (Z.eqb_spec a 0) end;
    Z.to_euclidean_division_equations; lia.
Qed.

(** The columns of the ranks below [n] are one block around the centre. *)
Lemma centeredRank_block (rowWidth c n : Z) :
  0 <= c < rowWidth -> 0 <= n ->
  centeredRank rowWidth c < n <->
  (rowWidth - 1) / 2 + 1 - (n + 1) / 2 <= c <= (rowWidth - 1) / 2 + n / 2.
Proof.
  intros Hc Hn. unfold centeredRank.
  destruct (Z.leb_spec c ((rowWidth - 1) / 2)); Z.to_euclidean_division_equations; lia.
Qed.

(** What the writes of [placeCentered] leave in the array. *)
Lemma placeWrites_lookup (ids : list string) (start : nat) (rowWidth : nat) (n : nat) :
  forall (k : nat) (l : list Seat),
  (start + rowWidth <= length l)%nat ->
  (k + n <= Nat.min (length ids) rowWidth)%nat ->
  let l' := placeWrites ids (Z.of_nat start) (Z.of_nat rowWidth) l k n in
  length l' = length l /\
  (forall j, (k <= j < k + n)%nat ->
     l' !! Z.to_nat (Z.of_nat start + centeredColumn (Z.of_nat rowWidth) j) = Some (ids !! j)) /\
  (forall i : nat,
     (forall j, (k <= j < k + n)%nat ->
        i <> Z.to_nat (Z.of_nat start + centeredColumn (Z.of_nat rowWidth) j)) ->
     l' !! i = l !! i).
Proof.
  induction n as [|n IH]; intros k l Hlen Hkn; cbn zeta.
  - unfold placeWrites. cbn [seq foldl]. split; [done|]. split; [intros j Hj; lia|done].
  - rewrite placeWrites_S.
    pose proof (centeredColumn_range (Z.of_nat rowWidth) k ltac:(lia)) as Hcol.
    rewrite arrayWrite_in_range by lia.
    set (ck := Z.to_nat (Z.of_nat start + centeredColumn (Z.of_nat rowWidth) k)).
    specialize (IH (S k) (<[ck := ids !! k]> l)).
    destruct IH as (Hlen' & Hplaced & Hother).
    { by rewrite length_insert. }
    { lia. }
    assert (forall j, (S k <= j < S k + n)%nat ->
              ck <> Z.to_nat (Z.of_nat start + centeredColumn (Z.of_nat rowWidth) j)) as Hfresh.
    { intros j Hj. unfold ck. intros Heq.
      pose proof (centeredColumn_range (Z.of_nat rowWidth) j ltac:(lia)).
      assert (centeredColumn (Z.of_nat rowWidth) k = centeredColumn (Z.of_nat rowWidth) j)
        as Hc by lia.
      apply centeredColumn_inj in Hc. lia. }
    split; [by rewrite Hlen', length_insert|]. split.
    + intros j Hj. destruct (decide (j = k)) as [->|Hne].
      * fold ck. rewrite Hother by done. apply list_lookup_insert_eq. unfold ck. lia.
      * apply Hplaced. lia.
    + intros i Hi. rewrite Hother by (intros j Hj; apply Hi; lia).
      apply list_lookup_insert_ne. intros <-. by apply (Hi k ltac:(lia)).
Qed.

Lemma placeCentered_row (seats : list Seat) (ids : list string) (start rowWidth : nat) :
  (start + rowWidth <= length seats)%nat ->
  let seats' := placeCentered seats ids (Z.of_nat start) (Z.of_nat rowWidth) in
  length seats' = length seats /\
  (forall c, 0 <= c < Z.of_nat rowWidth ->
     arrayRead seats' (Z.of_nat start + c) =
     match ids !! Z.to_nat (centeredRank (Z.of_nat rowWidth) c) with
     | Some studentId => Some studentId
     | None => arrayRead seats (Z.of_nat start + c)
     end) /\
  (forall i : nat, (i < start \/ start + rowWidth <= i)%nat -> seats' !! i = seats !! i).
Proof.
  intros Hlen. cbn zeta. rewrite placeCentered_writes, Nat2Z.id.
  destruct (placeWrites_lookup ids start rowWidth (Nat.min (length ids) rowWidth) 0%nat seats)
    as (Hlen' & Hplaced & Hother); [done|lia|].
  split; [done|]. split.
  - intros c Hc.
    pose proof (centeredRank_range (Z.of_nat rowWidth) c Hc) as Hr.
    pose proof (centeredColumn_rank (Z.of_nat rowWidth) c Hc) as Hcr.
    set (r := Z.to_nat (centeredRank (Z.of_nat rowWidth) c)) in *.
    replace (Z.of_nat start + c) with (Z.of_nat (Z.to_nat (Z.of_nat start + c))) by lia.
    rewrite !arrayRead_nat.
    destruct (ids !! r) as [studentId|] eqn:Hid.
    + pose proof (lookup_lt_Some _ _ _ Hid) as Hlt.
      rewrite <- Hcr at 1. rewrite Hplaced by lia. by rewrite Hid.
    + apply lookup_ge_None in Hid. rewrite Hother; [done|].
      intros j Hj Heq.
      pose proof (centeredColumn_range (Z.of_nat rowWidth) j ltac:(lia)).
      assert (centeredColumn (Z.of_nat rowWidth) j = centeredColumn (Z.of_nat rowWidth) r)
        as Hsame by lia.
      apply centeredColumn_inj in Hsame. lia.
  - intros i Hi. apply Hother. intros j Hj.
    pose proof (centeredColumn_range (Z.of_nat rowWidth) j ltac:(lia)). lia.
Qed.

(** X17: [placeCentered] on a row that lies inside the array fills one
    contiguous block of columns around the centre and nothing else: column [c]
    of the row receives the id of rank [centeredRank c] (ranks 0, 2, 4, ...
    going left from [centerLeft], ranks 1, 3, 5, ... going right from
    [centerLeft + 1]) when there is such an id, and keeps its content
    otherwise; the columns that receive an id are those from
    [centerLeft + 1 - ceil(n/2)] to [centerLeft + floor(n/2)], for [n] the
    number of ids placed; seats outside the row are not touched. *)
Theorem placeCentered_fills_centered_block (seats : list Seat) (ids : list string)
    (start rowWidth : nat) :
  (start + rowWidth <= length seats)%nat ->
  let seats' := placeCentered seats ids (Z.of_nat start) (Z.of_nat rowWidth) in
  let n := Z.of_nat (Nat.min (length ids) rowWidth) in
  let centerLeft := (Z.of_nat rowWidth - 1) / 2 in
  length seats' = length seats /\
  (forall c, 0 <= c < Z.of_nat rowWidth ->
     arrayRead seats' (Z.of_nat start + c) =
     if decide (centerLeft + 1 - (n + 1) / 2 <= c <= centerLeft + n / 2)
     then ids !! Z.to_nat (centeredRank (Z.of_nat rowWidth) c)
     else arrayRead seats (Z.of_nat start + c)) /\
  (forall c, centerLeft + 1 - (n + 1) / 2 <= c <= centerLeft + n / 2 ->
     0 <= c < Z.of_nat rowWidth /\
     is_Some (ids !! Z.to_nat (centeredRank (Z.of_nat rowWidth) c))) /\
  (forall i : nat, (i < start \/ start + rowWidth <= i)%nat -> seats' !! i = seats !! i).
Proof.
  intros Hlen seats' n centerLeft.
  destruct (placeCentered_row seats ids start rowWidth Hlen) as (Hlen' & Hrow & Hother).
  fold seats' in Hlen', Hrow, Hother.
  assert (forall c, 0 <= c < Z.of_nat rowWidth ->
            centerLeft + 1 - (n + 1) / 2 <= c <= centerLeft + n / 2 <->
            is_Some (ids !! Z.to_nat (centeredRank (Z.of_nat rowWidth) c))) as Hblock.
  { intros c Hc. unfold centerLeft.
    rewrite <- (centeredRank_block (Z.of_nat rowWidth) c n) by lia.
    pose proof (centeredRank_range (Z.of_nat rowWidth) c Hc).
    rewrite lookup_lt_is_Some. lia. }
  split; [done|]. split; [|split; [|done]].
  - intros c Hc. rewrite Hrow by done.
    destruct (decide (centerLeft + 1 - (n + 1) / 2 <= c <= centerLeft + n / 2)) as [Hin|Hout].
    + apply Hblock in Hin as [studentId Hid]; [|done]. by rewrite Hid.
    + destruct (ids !! Z.to_nat (centeredRank (Z.of_nat rowWidth) c)) eqn:Hid; [|done].
      exfalso. apply Hout, Hblock; done.
  - intros c Hc.
    assert (0 <= c < Z.of_nat rowWidth) as Hrange.
    { subst n centerLeft. Z.to_euclidean_division_equations. lia. }
    split; [done|]. by apply Hblock.
Qed.

(** Two rows of ids placed centered on 36 empty seats. *)
Lemma two_rows_placed (ids0 ids1 : list string) :
  let seats :=
    placeCentered (placeCentered (replicate 36 None) ids0 0 ARC_COLS) ids1 ARC_COLS ARC_COLS in
  length seats = 36%nat /\
  (forall c, 0 <= c < 18 ->
     arrayRead seats c = ids0 !! Z.to_nat (centeredRank 18 c) /\
     arrayRead seats (18 + c) = ids1 !! Z.to_nat (centeredRank 18 c)).
Proof.
  cbn zeta.
  destruct (placeCentered_row (replicate 36 None) ids0 0 18) as (Hlen0 & Hrow0 & Hother0).
  { rewrite length_replicate. lia. }
  change (Z.of_nat 0) with 0 in *. change (Z.of_nat 18) with ARC_COLS in *.
  set (seats0 := placeCentered (replicate 36 None) ids0 0 ARC_COLS) in *.
  destruct (placeCentered_row seats0 ids1 18 18) as (Hlen1 & Hrow1 & Hother1).
  { rewrite Hlen0, length_replicate. lia. }
  change (Z.of_nat 18) with ARC_COLS in *.
  set (seats1 := placeCentered seats0 ids1 ARC_COLS ARC_COLS) in *.
  rewrite length_replicate in Hlen0.
  split; [by rewrite Hlen1|].
  intros c Hc. unfold ARC_COLS in *.
  assert (forall k, 0 <= k < 36 -> arrayRead (replicate 36 (@None string)) k = None) as Hempty.
  { intros k Hk. unfold arrayRead. destruct (Z.ltb_spec k 0); [done|].
    rewrite lookup_replicate_2; [done|lia]. }
  assert (forall (l : list Seat) k, 0 <= k -> arrayRead l k = default None (l !! Z.to_nat k))
    as Hread.
  { intros l k Hk. unfold arrayRead. by destruct (Z.ltb_spec k 0); [lia|]. }
  split.
  - rewrite (Hread seats1) by lia. rewrite Hother1 by lia. rewrite <- Hread by lia.
    specialize (Hrow0 c Hc). rewrite Z.add_0_l in Hrow0. rewrite Hrow0.
    rewrite Hempty by lia. by destruct (ids0 !! _).
  - rewrite Hrow1 by done.
    rewrite (Hread seats0) by lia. rewrite Hother0 by lia. rewrite <- Hread by lia.
    rewrite Hempty by lia. by destruct (ids1 !! _).
Qed.

(** X18: the ARC layout of the reconciler, column by column. The ordered
    ids are split into a first row with the first [ceil(m/2)] of them and a
    second row with the others; column [c] of a row holds the id of rank
    [centeredRank 18 c] of that row, and is empty when the row has no id of
    that rank (so each row is one centered block, filled outward from the
    columns 8 and 9). *)
Theorem withLayout_arc_rows (config : TimeModeConfig.t) (students : list Student.t) :
  let ordered := getOrderedStudentIds students (TimeModeConfig.seats config) in
  let half := Z.to_nat (ceilDiv (Z.of_nat (length ordered)) 2) in
  let seats := TimeModeConfig.seats (withLayout config LayoutMode.ARC students) in
  length seats = 36%nat /\
  (forall c, 0 <= c < 18 ->
     arrayRead seats c = take half ordered !! Z.to_nat (centeredRank 18 c) /\
     arrayRead seats (18 + c) = drop half ordered !! Z.to_nat (centeredRank 18 c)).
Proof.
  intros ordered half seats. subst seats. rewrite withLayout_seats. fold ordered.
  unfold arcFill.
  assert (0 <= ceilDiv (Z.of_nat (length ordered)) 2) as Hhalf.
  { pose proof (ceilDiv_bounds (Z.of_nat (length ordered)) 2 ltac:(lia)). lia. }
  rewrite slice_take, sliceFrom_drop by done. fold half.
  apply two_rows_placed.
Qed.

(** X19: an ARC rotation keeps every student in their row. With
    [rowStudents] the non-empty ids of a row of the reconciled layout, read
    from column 0 to column 17, the rotated row holds, centered, the same ids
    with the first one moved behind the last (the ids themselves when there
    is at most one): column [c] holds the id of rank [centeredRank 18 c] of
    that list. *)
Theorem rotateArcLayout_rotates_inside_rows (config : TimeModeConfig.t)
    (students : list Student.t) :
  let normalized := TimeModeConfig.seats (withLayout config LayoutMode.ARC students) in
  let rotated := TimeModeConfig.seats (rotateArcLayout config students) in
  let moved (rowStudents : list string) :=
    if 1 <? Z.of_nat (length rowStudents) then firstToLast rowStudents else rowStudents in
  length rotated = 36%nat /\
  (forall c, 0 <= c < 18 ->
     arrayRead rotated c =
       moved (truthyIds (take 18 normalized)) !! Z.to_nat (centeredRank 18 c) /\
     arrayRead rotated (18 + c) =
       moved (truthyIds (take 18 (drop 18 normalized))) !! Z.to_nat (centeredRank 18 c)).
Proof.
  intros normalized rotated moved. subst rotated.
  unfold rotateArcLayout. cbn [setRotationCount setSeats TimeModeConfig.seats].
  pose proof (withLayout_seats_length config LayoutMode.ARC students) as Hlen.
  change (Z.to_nat _) with 36%nat in Hlen. fold normalized in Hlen |- *.
  rewrite Hlen, createEmptySeats_nat.
  change (range ARC_ROWS) with [Z.of_nat 0; Z.of_nat 1]. cbn [foldl].
  replace (Z.of_nat 0 * ARC_COLS) with (Z.of_nat 0) by done.
  replace (Z.of_nat 1 * ARC_COLS) with (Z.of_nat 18) by done.
  rewrite !collectRow_eq by lia. rewrite drop_0.
  rewrite !if_placeCentered.
  change (Z.of_nat 0) with 0. change (Z.of_nat 18) with ARC_COLS.
  apply (two_rows_placed (moved (truthyIds (take 18 normalized)))
           (moved (truthyIds (take 18 (drop 18 normalized))))).
Qed.

End CenteredRows.

Section CenteredRowsExamples.
Local Open Scope Z_scope.

Lemma placeCentered_fills_centered_block_witness :
  let seats' := placeCentered (replicate 7 None) ["a"; "b"; "c"] 1 5 in
  arrayRead seats' 2 = Some "c" /\ arrayRead seats' 3 = Some "a" /\
  arrayRead seats' 4 = Some "b" /\ arrayRead seats' 5 = None.
Proof.
  destruct (placeCentered_fills_centered_block (replicate 7 None) ["a"; "b"; "c"] 1 5)
    as (_ & Hrow & _).
  - cbn. lia.
  - split; [exact (Hrow 1 ltac:(lia))|].
    split; [exact (Hrow 2 ltac:(lia))|].
    split; [exact (Hrow 3 ltac:(lia))|exact (Hrow 4 ltac:(lia))].
Defined.

End CenteredRowsExamples.


(** ** Name sanitizing *)

(** *** White space *)

Section SpaceFacts.

Lemma isSpace2_high (a b : N) : isSpace2 a b = true -> (128 <= a /\ 128 <= b)%N.
Proof.
  unfold isSpace2. rewrite andb_true_iff, !N.eqb_eq. lia.
Qed.

Lemma isSpace3_high (a b c : N) :
  isSpace3 a b c = true -> (128 <= a /\ 128 <= b /\ 128 <= c)%N.
Proof.
  unfold isSpace3.
  rewrite !orb_true_iff, !andb_true_iff, !orb_true_iff, !andb_true_iff, !N.eqb_eq, !N.leb_le.
  lia.
Qed.

Lemma isSpace1_low (a : N) : isSpace1 a = true -> (a < 128)%N.
Proof.
  unfold isSpace1. rewrite orb_true_iff, andb_true_iff, N.eqb_eq, !N.leb_le. lia.
Qed.

(** A white space character: the bytes are exactly one of the encodings. *)
Definition spaceGlyph (g : list ascii) : Prop :=
  g <> [] /\ spaceWidth g = length g.

Lemma spaceGlyph_isSpace (g : list ascii) : spaceGlyph g -> isSpace g = true.
Proof.
  intros [Hne Hw]. unfold isSpace. rewrite Hw. by destruct g.
Qed.

Lemma spaceGlyph_space : spaceGlyph [" "%char].
Proof. by split. Qed.

Lemma spaceWidth_le (l : list ascii) : (spaceWidth l <= 3)%nat.
Proof.
  unfold spaceWidth. repeat case_match; lia.
Qed.

(** The width is decided by the first bytes. *)
Lemma spaceWidth_app (g rest : list ascii) :
  spaceGlyph g -> spaceWidth (g ++ rest) = length g.
Proof.
  intros [Hne Hw]. rewrite <- Hw.
  destruct g as [|a [|b [|c g]]]; [done| | |]; cbn [app]; unfold spaceWidth in *.
  - destruct (isSpace1 (N_of_ascii a)); [done|]. by cbn in Hw.
  - destruct (isSpace1 (N_of_ascii a)); [done|].
    destruct (isSpace2 (N_of_ascii a) (N_of_ascii b)); [done|]. by cbn in Hw.
  - done.
Qed.

Lemma spaceWidth_take (l : list ascii) :
  spaceWidth l <> 0%nat -> spaceGlyph (take (spaceWidth l) l).
Proof.
  intros Hw. unfold spaceGlyph.
  destruct l as [|a r]; [done|]. unfold spaceWidth in *.
  destruct (isSpace1 (N_of_ascii a)) eqn:H1; [by cbn; rewrite H1|].
  destruct r as [|b r]; [done|].
  destruct (isSpace2 (N_of_ascii a) (N_of_ascii b)) eqn:H2; [by cbn; rewrite H1, H2|].
  destruct r as [|c r]; [done|].
  destruct (isSpace3 (N_of_ascii a) (N_of_ascii b) (N_of_ascii c)) eqn:H3; [|done].
  by cbn; rewrite H1, H2, H3.
Qed.

Lemma spaceWidth_length (l : list ascii) : (spaceWidth l <= length l)%nat.
Proof.
  unfold spaceWidth. repeat case_match; cbn [length]; lia.
Qed.

Lemma glyphs_space (g rest : list ascii) :
  spaceGlyph g -> glyphs (g ++ rest) = g :: glyphs rest.
Proof.
  intros Hg. pose proof (spaceWidth_app g rest Hg) as Hw.
  pose proof (spaceWidth_le (g ++ rest)) as Hle. rewrite Hw in Hle.
  destruct Hg as [Hne _].
  destruct g as [|a [|b [|c [|d g]]]]; [done| | | |cbn in Hle; lia];
    cbn [app] in *; cbn [glyphs]; by rewrite Hw.
Qed.

Lemma glyphs_other (a : ascii) (rest : list ascii) :
  spaceWidth (a :: rest) = 0%nat -> glyphs (a :: rest) = [a] :: glyphs rest.
Proof. intros Hw. cbn [glyphs]. by rewrite Hw. Qed.

(** A string is empty, starts with a byte that begins no white space, or
    starts with a white space character. *)
Lemma glyphs_ind (P : list ascii -> Prop) :
  P [] ->
  (forall a rest, spaceWidth (a :: rest) = 0%nat -> P rest -> P (a :: rest)) ->
  (forall g rest, spaceGlyph g -> P rest -> P (g ++ rest)) ->
  forall l, P l.
Proof.
  intros Hnil Hother Hspace l.
  induction l as [l IH] using (induction_ltof1 _ (@length ascii)). unfold ltof in IH.
  destruct l as [|a rest]; [done|].
  destruct (decide (spaceWidth (a :: rest) = 0%nat)) as [Hw|Hw].
  - apply Hother; [done|]. apply IH. cbn. lia.
  - rewrite <- (take_drop (spaceWidth (a :: rest)) (a :: rest)).
    apply Hspace; [by apply spaceWidth_take|].
    apply IH. rewrite length_drop. cbn [length]. lia.
Qed.

Lemma concat_glyphs (l : list ascii) : concat (glyphs l) = l.
Proof.
  induction l as [|a rest Hw IH|g rest Hg IH] using glyphs_ind; [done| |].
  - rewrite glyphs_other by done. cbn. by rewrite IH.
  - rewrite glyphs_space by done. cbn. by rewrite IH.
Qed.

(** A byte that begins no white space begins none in front of a prefix of
    what followed it. *)
Lemma spaceWidth_prefix (a : ascii) (rest p : list ascii) :
  spaceWidth (a :: rest) = 0%nat -> p `prefix_of` rest -> spaceWidth (a :: p) = 0%nat.
Proof.
  intros Hw [k ->]. unfold spaceWidth in *.
  destruct (isSpace1 (N_of_ascii a)); [done|].
  destruct p as [|b p]; [done|]. cbn [app] in Hw.
  destruct (isSpace2 (N_of_ascii a) (N_of_ascii b)); [done|].
  by destruct p as [|c p].
Qed.

Lemma other_not_space (a : ascii) (rest : list ascii) :
  spaceWidth (a :: rest) = 0%nat -> isSpace [a] = false.
Proof.
  intros Hw. unfold isSpace.
  by rewrite (spaceWidth_prefix a rest []) by (done || apply prefix_nil).
Qed.

(** Nor in front of a space, or of a byte that begins none followed by a
    space: every byte of a longer white space character is above 127. *)
Lemma spaceWidth_before_space (a : ascii) (rest out : list ascii) :
  spaceWidth (a :: rest) = 0%nat -> spaceWidth (a :: " "%char :: out) = 0%nat.
Proof.
  intros Hw. unfold spaceWidth in *.
  destruct (isSpace1 (N_of_ascii a)); [done|].
  destruct (isSpace2 _ _) eqn:H2; [apply isSpace2_high in H2; cbn in H2; lia|].
  destruct out as [|c out]; [done|].
  destruct (isSpace3 _ _ _) eqn:H3; [apply isSpace3_high in H3; cbn in H3; lia|done].
Qed.

Lemma spaceWidth_before_other_space (a b : ascii) (rest out : list ascii) :
  spaceWidth (a :: b :: rest) = 0%nat -> spaceWidth (a :: b :: " "%char :: out) = 0%nat.
Proof.
  intros Hw. unfold spaceWidth in *.
  destruct (isSpace1 (N_of_ascii a)); [done|].
  destruct (isSpace2 _ _); [done|].
  destruct (isSpace3 _ _ _) eqn:H3; [apply isSpace3_high in H3; cbn in H3; lia|done].
Qed.

End SpaceFacts.

Section GlyphLists.

Implicit Types l : list (list ascii).

(** No run of two white space characters, and every white space character is
    a space; [afterSpace] tells whether the character before the list is one. *)
Fixpoint isCollapsed (afterSpace : bool) l : bool :=
  match l with
  | c :: r =>
      if isSpace c then negb afterSpace && bool_decide (c = [" "%char]) && isCollapsed true r
      else isCollapsed false r
  | [] => true
  end.

Lemma collapseRuns_collapsed l : forall inRun,
  isCollapsed inRun (collapseRuns inRun l) = true.
Proof.
  induction l as [|c l IH]; intros inRun; [done|]. cbn [collapseRuns].
  destruct (isSpace c) eqn:Hc.
  - destruct inRun; [apply IH|]. cbn [isCollapsed].
    change (isSpace [" "%char]) with true. cbn. apply IH.
  - cbn [isCollapsed]. rewrite Hc. apply IH.
Qed.

Lemma collapseRuns_fixed l : forall inRun,
  isCollapsed inRun l = true -> collapseRuns inRun l = l.
Proof.
  induction l as [|c l IH]; intros inRun Hl; [done|]. cbn [collapseRuns isCollapsed] in *.
  destruct (isSpace c) eqn:Hc.
  - apply andb_true_iff in Hl as [Hl Hrest]. apply andb_true_iff in Hl as [Hrun Heq].
    apply negb_true_iff in Hrun. subst inRun. apply bool_decide_eq_true in Heq. subst c.
    f_equal. by apply IH.
  - f_equal. by apply IH.
Qed.

Lemma isCollapsed_weaken l :
  isCollapsed true l = true -> isCollapsed false l = true.
Proof.
  destruct l as [|c l]; [done|]. cbn [isCollapsed]. destruct (isSpace c); [|done].
  cbn. discriminate.
Qed.

Lemma dropSpaces_collapsed l : forall afterSpace,
  isCollapsed afterSpace l = true -> isCollapsed false (dropSpaces l) = true.
Proof.
  induction l as [|c l IH]; intros afterSpace Hl; [done|]. cbn [dropSpaces isCollapsed] in *.
  destruct (isSpace c) eqn:Hc.
  - apply andb_true_iff in Hl as [_ Hrest]. by apply (IH true).
  - cbn [isCollapsed]. by rewrite Hc.
Qed.

(** Dropping the trailing white space: [reverse], [dropSpaces], [reverse]. *)
Definition dropEnd l : list (list ascii) := reverse (dropSpaces (reverse l)).

Lemma dropSpaces_app_single (a : list (list ascii)) (c : list ascii) :
  dropSpaces (a ++ [c]) =
  match dropSpaces a with
  | [] => if isSpace c then [] else [c]
  | r => r ++ [c]
  end.
Proof.
  induction a as [|x a IH]; cbn [app dropSpaces]; [by destruct (isSpace c)|].
  destruct (isSpace x); [apply IH|done].
Qed.

Lemma dropEnd_cons (c : list ascii) l :
  dropEnd (c :: l) =
  match dropEnd l with
  | [] => if isSpace c then [] else [c]
  | r => c :: r
  end.
Proof.
  unfold dropEnd. rewrite reverse_cons, dropSpaces_app_single.
  destruct (dropSpaces (reverse l)) as [|x r] eqn:Hr.
  - cbn. by destruct (isSpace c).
  - rewrite reverse_app, reverse_singleton. cbn [app].
    destruct (reverse (x :: r)) eqn:Hrev; [|done].
    apply (f_equal length) in Hrev. by rewrite length_reverse in Hrev.
Qed.

Lemma dropEnd_collapsed l : forall afterSpace,
  isCollapsed afterSpace l = true -> isCollapsed afterSpace (dropEnd l) = true.
Proof.
  induction l as [|c l IH]; intros afterSpace Hl; [done|].
  rewrite dropEnd_cons. cbn [isCollapsed] in Hl.
  destruct (isSpace c) eqn:Hc.
  - apply andb_true_iff in Hl as [Hl Hrest]. specialize (IH true Hrest).
    destruct (dropEnd l) as [|x r]; [done|]. cbn [isCollapsed]. rewrite Hc.
    by rewrite Hl.
  - specialize (IH false Hl).
    destruct (dropEnd l) as [|x r]; cbn [isCollapsed]; by rewrite Hc.
Qed.

Lemma dropSpaces_length l : (length (dropSpaces l) <= length l)%nat.
Proof.
  induction l as [|c l IH]; [done|]. cbn [dropSpaces].
  destruct (isSpace c); cbn [length]; lia.
Qed.

Lemma dropSpaces_idem l : dropSpaces (dropSpaces l) = dropSpaces l.
Proof.
  induction l as [|c l IH]; [done|]. cbn [dropSpaces].
  destruct (isSpace c) eqn:Hc; [done|]. cbn [dropSpaces]. by rewrite Hc.
Qed.

Lemma dropEnd_keeps_head l :
  dropSpaces l = l -> dropSpaces (dropEnd l) = dropEnd l.
Proof.
  destruct l as [|c l]; [done|]. intros Hl. rewrite dropEnd_cons.
  assert (isSpace c = false) as Hc.
  { cbn [dropSpaces] in Hl. destruct (isSpace c); [|done].
    pose proof (dropSpaces_length l) as Hlen. rewrite Hl in Hlen. cbn in Hlen. lia. }
  destruct (dropEnd l); rewrite ?Hc; cbn [dropSpaces]; by rewrite Hc.
Qed.

Lemma dropEnd_idem l : dropEnd (dropEnd l) = dropEnd l.
Proof. unfold dropEnd. by rewrite reverse_involutive, dropSpaces_idem. Qed.

Lemma dropEnd_prefix l : dropEnd l `prefix_of` l.
Proof.
  induction l as [|c l IH]; [done|]. rewrite dropEnd_cons.
  destruct (dropEnd l) as [|x r].
  - destruct (isSpace c); [apply prefix_nil|]. apply prefix_cons, prefix_nil.
  - by apply prefix_cons.
Qed.

Lemma dropSpaces_collapseRuns l : forall inRun,
  dropSpaces (collapseRuns inRun l) = collapseRuns true l.
Proof.
  induction l as [|c l IH]; intros inRun; [done|]. cbn [collapseRuns].
  destruct (isSpace c) eqn:Hc.
  - destruct inRun; [apply IH|]. cbn [dropSpaces].
    change (isSpace [" "%char]) with true. cbn iota. apply IH.
  - cbn [dropSpaces]. by rewrite Hc.
Qed.

(** The sanitizer on lists of characters. *)
Definition sanitizeChars l : list (list ascii) :=
  dropEnd (dropSpaces (collapseRuns false l)).

Lemma sanitizeChars_idem l : sanitizeChars (sanitizeChars l) = sanitizeChars l.
Proof.
  unfold sanitizeChars at 1.
  set (clean := sanitizeChars l).
  assert (isCollapsed false clean = true) as Hcollapsed.
  { apply dropEnd_collapsed, (dropSpaces_collapsed _ false), collapseRuns_collapsed. }
  assert (dropSpaces clean = clean) as Hhead
    by (apply dropEnd_keeps_head, dropSpaces_idem).
  assert (dropEnd clean = clean) as Htail by apply dropEnd_idem.
  by rewrite collapseRuns_fixed, Hhead, Htail.
Qed.

(** *** The words of a list of characters *)

(** The maximal runs of characters that are not white space; [word] holds
    the characters of the run that is being read. *)
Fixpoint splitWords (word : list (list ascii)) l : list (list (list ascii)) :=
  match l with
  | c :: r =>
      if isSpace c then
        match word with
        | [] => splitWords [] r
        | _ => word :: splitWords [] r
        end
      else splitWords (word ++ [c]) r
  | [] =>
      match word with
      | [] => []
      | _ => [word]
      end
  end.

(** The words with one space between two of them. *)
Fixpoint joinWords (ws : list (list (list ascii))) : list (list ascii) :=
  match ws with
  | [] => []
  | w :: rest =>
      match rest with
      | [] => w
      | _ => w ++ [" "%char] :: joinWords rest
      end
  end.

Lemma joinWords_cons (w : list (list ascii)) ws :
  joinWords (w :: ws) = w ++ (match ws with [] => [] | _ => [" "%char] :: joinWords ws end).
Proof. destruct ws; cbn [joinWords]; [by rewrite app_nil_r|done]. Qed.

Lemma splitWords_nonempty l : forall word,
  word <> [] -> splitWords word l <> [].
Proof.
  induction l as [|c l IH]; intros word Hword; cbn [splitWords]; [by destruct word|].
  destruct (isSpace c); [by destruct word|]. apply IH. by destruct word.
Qed.

Lemma dropEnd_other (c : list ascii) l :
  isSpace c = false -> dropEnd (c :: l) = c :: dropEnd l.
Proof. intros Hc. rewrite dropEnd_cons, Hc. by destruct (dropEnd l). Qed.

Lemma collapsed_words l :
  (forall word, word <> [] ->
     word ++ dropEnd (collapseRuns false l) = joinWords (splitWords word l)) /\
  dropEnd (collapseRuns true l) = joinWords (splitWords [] l) /\
  (dropEnd (collapseRuns true l) = [] <-> splitWords [] l = []).
Proof.
  induction l as [|c l (IHword & IHstart & IHnil)].
  - split; [|done]. intros word Hword. cbn. rewrite app_nil_r. by destruct word.
  - cbn [collapseRuns splitWords]. destruct (isSpace c) eqn:Hc.
    + split; [|done]. intros word Hword. destruct word as [|g word]; [done|].
      rewrite joinWords_cons, dropEnd_cons. change (isSpace [" "%char]) with true. cbn iota.
      rewrite <- IHstart.
      destruct (dropEnd (collapseRuns true l)) as [|x r] eqn:Hd.
      * by rewrite (proj1 IHnil).
      * destruct (splitWords [] l) eqn:Hs; [|done].
        by rewrite (proj2 IHnil) in Hd.
    + rewrite !dropEnd_other by done. split; [|split].
      * intros word Hword. rewrite <- IHword by (by destruct word).
        by rewrite <- app_assoc.
      * apply (IHword [c]). done.
      * split; [done|]. intros Hs. by apply splitWords_nonempty in Hs.
Qed.

Lemma sanitizeChars_words l : sanitizeChars l = joinWords (splitWords [] l).
Proof.
  unfold sanitizeChars. rewrite dropSpaces_collapseRuns.
  by destruct (collapsed_words l) as (_ & -> & _).
Qed.

End GlyphLists.

Section Canonical.

Lemma glyphs_case (l : list ascii) :
  l = [] \/
  (exists a rest, l = a :: rest /\ spaceWidth (a :: rest) = 0%nat) \/
  (exists g rest, l = g ++ rest /\ spaceGlyph g).
Proof.
  induction l as [|a rest Hw _|g rest Hg _] using glyphs_ind; [by left| |].
  - right. left. by exists a, rest.
  - right. right. by exists g, rest.
Qed.

Lemma glyphs_dropSpaces (l : list ascii) :
  glyphs (concat (dropSpaces (glyphs l))) = dropSpaces (glyphs l).
Proof.
  induction l as [|a rest Hw IH|g rest Hg IH] using glyphs_ind; [done| |].
  - rewrite glyphs_other by done. cbn [dropSpaces].
    rewrite (other_not_space a rest) by done.
    rewrite <- (glyphs_other a rest) by done. by rewrite concat_glyphs.
  - rewrite glyphs_space by done. cbn [dropSpaces].
    by rewrite spaceGlyph_isSpace by done.
Qed.

Lemma glyphs_dropEnd (l : list ascii) :
  glyphs (concat (dropEnd (glyphs l))) = dropEnd (glyphs l).
Proof.
  induction l as [|a rest Hw IH|g rest Hg IH] using glyphs_ind; [done| |].
  - rewrite glyphs_other by done.
    rewrite dropEnd_other by (by apply (other_not_space a rest)).
    cbn [concat app]. rewrite glyphs_other; [by rewrite IH|].
    apply (spaceWidth_prefix a rest); [done|].
    destruct (dropEnd_prefix (glyphs rest)) as [k Hk].
    exists (concat k). rewrite <- concat_app, <- Hk. by rewrite concat_glyphs.
  - rewrite glyphs_space by done. rewrite dropEnd_cons.
    destruct (dropEnd (glyphs rest)) as [|x r] eqn:Hd.
    + by rewrite spaceGlyph_isSpace by done.
    + change (concat (g :: ?l)) with (g ++ concat l).
      rewrite glyphs_space by done. by rewrite IH.
Qed.

Lemma collapseRuns_head (a : ascii) (rest : list ascii) :
  spaceWidth (a :: rest) = 0%nat ->
  spaceWidth (a :: concat (collapseRuns false (glyphs rest))) = 0%nat.
Proof.
  intros Hw.
  destruct (glyphs_case rest) as [->|[(b & r1 & -> & Hb)|(g & r1 & -> & Hg)]]; [done| |].
  - rewrite glyphs_other by done. cbn [collapseRuns].
    rewrite (other_not_space b r1) by done. cbn [concat app].
    destruct (glyphs_case r1) as [->|[(c & r2 & -> & Hc)|(g & r2 & -> & Hg)]].
    + by apply (spaceWidth_prefix a [b] [b]).
    + rewrite glyphs_other by done. cbn [collapseRuns].
      rewrite (other_not_space c r2) by done. cbn [concat app].
      exact Hw.
    + rewrite glyphs_space by done. cbn [collapseRuns].
      rewrite spaceGlyph_isSpace by done. cbn [concat app].
      by apply (spaceWidth_before_other_space a b (g ++ r2)).
  - rewrite glyphs_space by done. cbn [collapseRuns].
    rewrite spaceGlyph_isSpace by done. cbn [concat app].
    by apply (spaceWidth_before_space a (g ++ r1)).
Qed.

Lemma glyphs_collapseRuns (l : list ascii) : forall inRun,
  glyphs (concat (collapseRuns inRun (glyphs l))) = collapseRuns inRun (glyphs l).
Proof.
  induction l as [|a rest Hw IH|g rest Hg IH] using glyphs_ind; intros inRun; [done| |].
  - rewrite glyphs_other by done. cbn [collapseRuns].
    rewrite (other_not_space a rest) by done. cbn [concat app].
    rewrite glyphs_other by (by apply collapseRuns_head). by rewrite IH.
  - rewrite glyphs_space by done. cbn [collapseRuns].
    rewrite spaceGlyph_isSpace by done.
    destruct inRun; [apply IH|]. cbn [concat].
    rewrite (glyphs_space [" "%char]) by apply spaceGlyph_space. by rewrite IH.
Qed.

(** The characters of a trimmed string and of a sanitized one. *)
Lemma glyphs_trim (s : string) :
  glyphs (String.list_ascii_of_string (trim s)) =
  dropEnd (dropSpaces (glyphs (String.list_ascii_of_string s))).
Proof.
  unfold trim. fold (dropEnd (dropSpaces (glyphs (String.list_ascii_of_string s)))).
  rewrite String.list_ascii_of_string_of_list_ascii.
  rewrite <- glyphs_dropSpaces. apply glyphs_dropEnd.
Qed.

Lemma glyphs_collapseWhitespace (s : string) :
  glyphs (String.list_ascii_of_string (collapseWhitespace s)) =
  collapseRuns false (glyphs (String.list_ascii_of_string s)).
Proof.
  unfold collapseWhitespace. rewrite String.list_ascii_of_string_of_list_ascii.
  apply glyphs_collapseRuns.
Qed.

Lemma trim_idem (s : string) : trim (trim s) = trim s.
Proof.
  unfold trim at 1. rewrite glyphs_trim.
  fold (dropEnd (dropSpaces (dropEnd (dropSpaces (glyphs (String.list_ascii_of_string s)))))).
  rewrite dropEnd_keeps_head by apply dropSpaces_idem. by rewrite dropEnd_idem.
Qed.

Lemma sanitize_chars (s : string) :
  trim (collapseWhitespace s) =
  String.string_of_list_ascii
    (concat (sanitizeChars (glyphs (String.list_ascii_of_string s)))).
Proof.
  unfold trim. by rewrite glyphs_collapseWhitespace.
Qed.

Lemma glyphs_sanitize (s : string) :
  glyphs (String.list_ascii_of_string (trim (collapseWhitespace s))) =
  sanitizeChars (glyphs (String.list_ascii_of_string s)).
Proof. by rewrite glyphs_trim, glyphs_collapseWhitespace. Qed.

Lemma sanitize_idem (s : string) :
  trim (collapseWhitespace (trim (collapseWhitespace s))) = trim (collapseWhitespace s).
Proof.
  rewrite (sanitize_chars (trim _)), glyphs_sanitize, sanitizeChars_idem.
  by rewrite <- sanitize_chars.
Qed.

(** The words of a string, and the words joined by single spaces. *)
Definition words (s : string) : list string :=
  (fun word => String.string_of_list_ascii (concat word)) <$>
  splitWords [] (glyphs (String.list_ascii_of_string s)).

Definition unwords (ws : list string) : string := String.concat " " ws.

Lemma string_of_app (a b : list ascii) :
  String.string_of_list_ascii (a ++ b) =
  (String.string_of_list_ascii a +:+ String.string_of_list_ascii b).
Proof. induction a as [|c a IH]; [done|]. cbn. by rewrite IH. Qed.

Lemma unwords_joinWords (ws : list (list (list ascii))) :
  String.string_of_list_ascii (concat (joinWords ws)) =
  unwords ((fun word => String.string_of_list_ascii (concat word)) <$> ws).
Proof.
  unfold unwords. induction ws as [|w ws IH]; [done|].
  destruct ws as [|v ws]; [done|].
  rewrite (joinWords_cons w (v :: ws)). cbv iota.
  rewrite concat_app, string_of_app.
  change (concat ([" "%char] :: ?l)) with (" "%char :: concat l).
  cbn [String.string_of_list_ascii]. by rewrite IH.
Qed.

(** Sanitizing a name: its words, with one space between two of them. *)
Lemma sanitize_words (s : string) : trim (collapseWhitespace s) = unwords (words s).
Proof.
  by rewrite sanitize_chars, sanitizeChars_words, unwords_joinWords.
Qed.

End Canonical.

Section WideSpaces.

Example trim_wide : trim "　 Class　A 　" = "Class　A".
Proof. by vm_compute. Qed.

Example sanitize_wide : trim (collapseWhitespace "　 Cy　　Dee ") = "Cy Dee".
Proof. by vm_compute. Qed.

Example words_wide : words "　 Cy　　Dee " = ["Cy"; "Dee"].
Proof. by vm_compute. Qed.

(** The bytes of U+00A0, U+1680, U+2000..U+200A, U+2028, U+2029, U+202F,
    U+205F, U+3000 and U+FEFF, and the six white space characters of one byte,
    are trimmed away; U+0085, U+180E, U+200B and U+2060 are no white space. *)
Example white_space_characters :
  let text (bytes : list nat) := String.string_of_list_ascii (ascii_of_nat <$> bytes) in
  Forall (fun bytes => trim (text bytes) = "")
    [[194; 160]; [225; 154; 128]; [226; 128; 128]; [226; 128; 129]; [226; 128; 130];
     [226; 128; 131]; [226; 128; 132]; [226; 128; 133]; [226; 128; 134];
     [226; 128; 135]; [226; 128; 136]; [226; 128; 137]; [226; 128; 138];
     [226; 128; 168]; [226; 128; 169]; [226; 128; 175]; [226; 129; 159];
     [227; 128; 128]; [239; 187; 191];
     [9]; [10]; [11]; [12]; [13]; [32]]%nat /\
  Forall (fun bytes => trim (text bytes) = text bytes)
    [[194; 133]; [225; 160; 142]; [226; 128; 139]; [226; 129; 160]]%nat.
Proof. cbv zeta. split; apply (bool_decide_unpack _); by vm_compute. Qed.

End WideSpaces.

(** *** The loop of [uniqueNames] *)

Section NameFacts.

(** The body of the loop of [uniqueNames]. *)
Definition nameStep : list string * gset string -> string -> list string * gset string :=
  fun '(names, seen) rawName =>
    let name := trim (collapseWhitespace rawName) in
    if String.eqb name "" then (names, seen)
    else if bool_decide (name ∈ seen) then (names, seen)
    else (names ++ [name], {[name]} ∪ seen).

Lemma uniqueNames_fold (input : list string) :
  uniqueNames input = (foldl nameStep ([], ∅) input).1.
Proof. reflexivity. Qed.

Lemma nameStep_loop (input : list string) :
  let acc := foldl nameStep ([], ∅) input in
  acc.2 = list_to_set acc.1 /\
  NoDup acc.1 /\
  (forall name, name ∈ acc.1 <->
     name <> "" /\ exists rawName, rawName ∈ input /\ trim (collapseWhitespace rawName) = name) /\
  acc.1 `sublist_of` ((fun rawName => trim (collapseWhitespace rawName)) <$> input).
Proof.
  induction input as [|rawName input IH] using rev_ind; cbn zeta.
  - cbn. split; [done|]. split; [apply NoDup_nil_2|]. split; [|done].
    intros name. rewrite elem_of_nil. split; [done|].
    intros (_ & raw & Hraw & _). by apply elem_of_nil in Hraw.
  - rewrite foldl_app. cbn [foldl]. cbn zeta in IH.
    destruct (foldl nameStep ([], ∅) input) as [names seen].
    destruct IH as (Hseen & Hnd & Hin & Hsub). cbn [fst snd] in *.
    rewrite fmap_app. cbn [fmap list_fmap].
    unfold nameStep.
    set (name := trim (collapseWhitespace rawName)).
    assert (forall x, (exists raw, raw ∈ input ++ [rawName] /\ trim (collapseWhitespace raw) = x) <->
              (exists raw, raw ∈ input /\ trim (collapseWhitespace raw) = x) \/ x = name) as Hex.
    { intros x. split.
      - intros (raw & Hraw & Hx). apply elem_of_app in Hraw as [Hraw|Hraw].
        + left. by exists raw.
        + apply list_elem_of_singleton in Hraw. subst raw. by right.
      - intros [(raw & Hraw & Hx)| ->].
        + exists raw. split; [|done]. apply elem_of_app. by left.
        + exists rawName. split; [|done]. apply elem_of_app. right. by left. }
    destruct (String.eqb_spec name "") as [Hempty|Hfull]; cbn [fst snd].
    { split; [done|]. split; [done|]. split; [|by apply sublist_inserts_r].
      intros x. rewrite Hin, Hex. split; [tauto|].
      intros [Hx [Hraw| ->]]; [tauto|congruence]. }
    case_bool_decide as Hknown; cbn [fst snd].
    { split; [done|]. split; [done|]. split; [|by apply sublist_inserts_r].
      intros x. rewrite Hin, Hex. split; [tauto|].
      intros [Hx [Hraw| ->]]; [tauto|].
      rewrite Hseen, elem_of_list_to_set, Hin in Hknown. tauto. }
    assert (name ∉ names) as Hnew by (by rewrite Hseen, elem_of_list_to_set in Hknown).
    split; [|split; [|split]].
    + rewrite list_to_set_app_L, Hseen. cbn. rewrite (right_id_L ∅ (∪)). apply (comm_L (∪)).
    + apply NoDup_app. split; [done|]. split; [|apply NoDup_singleton].
      intros x Hx Hx'. apply list_elem_of_singleton in Hx'. by subst x.
    + intros x. rewrite elem_of_app, list_elem_of_singleton, Hin, Hex.
      split; [|tauto]. intros [?| ->]; [tauto|]. split; [done|by right].
    + by apply sublist_app.
Qed.

(** The loop on names that are sanitized, not empty and pairwise distinct. *)
Lemma nameStep_keeps (l : list string) : forall (names : list string),
  NoDup (names ++ l) ->
  (forall name, name ∈ l -> name <> "" /\ trim (collapseWhitespace name) = name) ->
  foldl nameStep (names, list_to_set names) l = (names ++ l, list_to_set (names ++ l)).
Proof.
  induction l as [|x l IH]; intros names Hnd Hl; cbn [foldl].
  - by rewrite app_nil_r.
  - destruct (Hl x ltac:(left)) as [Hne Hfix].
    unfold nameStep at 2. cbv zeta. rewrite Hfix.
    destruct (String.eqb_spec x ""); [done|].
    apply NoDup_app in Hnd as (Hnames & Hdisj & Hxl).
    rewrite bool_decide_eq_false_2.
    2:{ rewrite elem_of_list_to_set. intros Hin. apply (Hdisj x Hin). left. }
    assert (({[x]} ∪ list_to_set names : gset string) = list_to_set (names ++ [x])) as ->.
    { rewrite list_to_set_app_L. cbn. rewrite (right_id_L ∅ (∪)). apply (comm_L (∪)). }
    rewrite IH; [by rewrite <- app_assoc| |by intros name Hname; apply Hl; right].
    rewrite <- app_assoc. cbn [app].
    apply NoDup_app. split; [done|]. split; [done|done].
Qed.

(** X20: [uniqueNames] sanitizes a name by splitting it at white space and
    joining its words with single spaces (white space runs collapsed to one
    space, then trimmed; the white space is that of ECMAScript, U+3000 and
    U+00A0 included), and returns each sanitized name of the input that is not
    empty exactly once, in the order of the input: the result has no duplicate
    and no empty name, a name is in it exactly when it is the sanitized form
    of some input entry and is not empty, and the result is a subsequence of
    the sanitized input. Every name of the result has at least one word and is
    its own sanitized form, so [uniqueNames] changes nothing when it is given
    its own result. *)
Theorem uniqueNames_sanitizes_and_dedupes (input : list string) :
  let sanitize (rawName : string) := unwords (words rawName) in
  let names := uniqueNames input in
  (forall rawName, trim (collapseWhitespace rawName) = sanitize rawName) /\
  NoDup names /\
  ("" ∉ names) /\
  (forall name, name ∈ names <->
     name <> "" /\ exists rawName, rawName ∈ input /\ sanitize rawName = name) /\
  names `sublist_of` (sanitize <$> input) /\
  (length names <= length input)%nat /\
  (forall name, name ∈ names -> words name <> [] /\ sanitize name = name) /\
  uniqueNames names = names.
Proof.
  intros sanitize names. subst names. rewrite !uniqueNames_fold.
  destruct (nameStep_loop input) as (_ & Hnd & Hin & Hsub).
  assert (forall name, name ∈ (foldl nameStep ([], ∅) input).1 ->
            name <> "" /\ trim (collapseWhitespace name) = name) as Hfixed.
  { intros name Hname. apply Hin in Hname as (Hne & rawName & _ & <-).
    split; [done|]. apply sanitize_idem. }
  split; [apply sanitize_words|].
  split; [done|]. split; [|split; [|split; [|split; [|split]]]].
  - rewrite Hin. tauto.
  - intros name. rewrite Hin. unfold sanitize.
    split; intros (Hne & rawName & Hraw & Hname); (split; [done|]); exists rawName;
      (split; [done|]); by rewrite <- Hname, sanitize_words.
  - replace (sanitize <$> input)
      with ((fun rawName => trim (collapseWhitespace rawName)) <$> input); [done|].
    apply list_fmap_ext. intros i rawName _. apply sanitize_words.
  - apply sublist_length in Hsub. by rewrite length_fmap in Hsub.
  - intros name Hname. destruct (Hfixed name Hname) as [Hne Hfix].
    unfold sanitize. rewrite <- sanitize_words. split; [|done].
    intros Hwords. rewrite sanitize_words, Hwords in Hfix. by subst name.
  - change (∅ : gset string) with (list_to_set (@nil string) : gset string) at 1.
    by rewrite nameStep_keeps.
Qed.

(** Names with ideographic and no-break spaces: the two spellings of
    [Ada] are one name, and [Cy Dee] gets a single space. *)
Example uniqueNames_wide_spaces :
  uniqueNames ["　Ada"; "Ada "; " 　 "; "Cy　 Dee"; "Cy Dee"] = ["Ada"; "Cy Dee"].
Proof. by vm_compute. Qed.

End NameFacts.


(** ** The student map and the label of a seat *)

Section SeatLabels.
Local Open Scope Z_scope.

(** [getStudentMap]: [new Map(entries)] sets the entries one after the other,
    so a later student replaces an earlier one with the same id. The map is
    used for lookups only. *)
Definition getStudentMap (classroom : Classroom.t) : gmap string Student.t :=
  foldl (fun map student => <[Student.id student := student]> map) ∅
    (Classroom.students classroom).

(** [studentName] in [renderSeat] ([App.tsx]):
    [studentId ? studentMap.get(studentId)?.name ?? '未知学生' : '空位'],
    for [studentId = activeConfig.seats[seatIndex]]. *)
Definition studentName (classroom : Classroom.t) (activeTimeMode : TimeMode.t)
    (seatIndex : Z) : string :=
  let activeConfig := getConfig classroom activeTimeMode in
  let studentMap := getStudentMap classroom in
  let studentId := arrayRead (TimeModeConfig.seats activeConfig) seatIndex in
  match studentId with
  | Some s =>
      if truthy studentId then
        match studentMap !! s with
        | Some student => Student.name student
        | None => "未知学生"
        end
      else "空位"
  | None => "空位"
  end.

End SeatLabels.

Section SeatLabelFacts.
Local Open Scope Z_scope.

Lemma studentMap_fold (students : list Student.t) :
  forall (map : gmap string Student.t) (s : string),
  foldl (fun map student => <[Student.id student := student]> map) map students !! s =
  match last (filter (fun student => Student.id student = s) students) with
  | Some student => Some student
  | None => map !! s
  end.
Proof.
  induction students as [|student students IH]; intros map s; cbn [foldl]; [done|].
  rewrite IH, filter_cons.
  destruct (decide (Student.id student = s)) as [Heq|Hne].
  - destruct (filter _ students) as [|x l] eqn:Hf.
    + cbn. subst s. apply lookup_insert_eq.
    + change (last (student :: x :: l)) with (last (x :: l)).
      destruct (last (x :: l)) eqn:Hl; [done|]. by apply last_None in Hl.
  - destruct (last _); [done|]. by rewrite lookup_insert_ne.
Qed.

(** X21: the student map finds, for an id, the last student of the roster
    with that id, and nothing for an id that is not in the roster. So with
    pairwise distinct roster ids a seat that holds the non-empty id of a
    roster student is labelled with that student's name; a seat that holds a
    non-empty id that is not in the roster is labelled as an unknown student,
    and a seat that is empty, holds the empty id or lies outside the array is
    labelled as a free seat. *)
Theorem studentName_labels_seat (classroom : Classroom.t) (activeTimeMode : TimeMode.t) :
  let students := Classroom.students classroom in
  let seats := TimeModeConfig.seats (getConfig classroom activeTimeMode) in
  (forall s, getStudentMap classroom !! s =
             last (filter (fun student => Student.id student = s) students)) /\
  (forall s, getStudentMap classroom !! s = None <-> s ∉ rosterIds students) /\
  (NoDup (rosterIds students) ->
   forall seatIndex student,
     student ∈ students -> Student.id student <> "" ->
     arrayRead seats seatIndex = Some (Student.id student) ->
     studentName classroom activeTimeMode seatIndex = Student.name student) /\
  (forall seatIndex s,
     arrayRead seats seatIndex = Some s -> s <> "" -> s ∉ rosterIds students ->
     studentName classroom activeTimeMode seatIndex = "未知学生") /\
  (forall seatIndex,
     truthy (arrayRead seats seatIndex) = false ->
     studentName classroom activeTimeMode seatIndex = "空位").
Proof.
  intros students seats.
  assert (forall s, getStudentMap classroom !! s =
                    last (filter (fun student => Student.id student = s) students)) as Hget.
  { intros s. unfold getStudentMap. rewrite studentMap_fold. by destruct (last _). }
  assert (forall s, getStudentMap classroom !! s = None <-> s ∉ rosterIds students) as Hnone.
  { intros s. rewrite Hget, last_None. split.
    - intros Hnil Hin. apply list_elem_of_fmap in Hin as (student & -> & Hin).
      assert (student ∈ filter (fun student' => Student.id student' = Student.id student) students)
        as Hf by (by apply list_elem_of_filter).
      rewrite Hnil in Hf. by apply elem_of_nil in Hf.
    - intros Hnot. apply filter_nil_forall. intros student Hin Hid. apply Hnot.
      apply list_elem_of_fmap. by exists student. }
  split; [done|]. split; [done|]. split; [|split].
  - intros Hnd seatIndex student Hin Hne Hseat.
    unfold studentName. cbv zeta. fold seats. rewrite Hseat.
    assert (truthy (Some (Student.id student)) = true) as ->.
    { cbn. by apply negb_true_iff, String.eqb_neq. }
    rewrite Hget.
    assert (filter (fun student' => Student.id student' = Student.id student) students = [student])
      as ->; [|done].
    clear Hseat Hget Hnone. subst students. unfold rosterIds in Hnd.
    induction (Classroom.students classroom) as [|x l IH]; [by apply elem_of_nil in Hin|].
    cbn [fmap list_fmap] in Hnd. apply NoDup_cons in Hnd as [Hx Hnd].
    rewrite filter_cons. apply elem_of_cons in Hin as [->|Hin].
    + rewrite decide_True by done. f_equal.
      apply filter_nil_forall. intros y Hy Hid. apply Hx.
      apply list_elem_of_fmap. by exists y.
    + rewrite decide_False; [by apply IH|].
      intros Hid. apply Hx. apply list_elem_of_fmap. by exists student.
  - intros seatIndex s Hseat Hne Hnot.
    unfold studentName. cbv zeta. fold seats. rewrite Hseat.
    assert (truthy (Some s) = true) as ->.
    { cbn. by apply negb_true_iff, String.eqb_neq. }
    by rewrite (proj2 (Hnone s) Hnot).
  - intros seatIndex Hfalsy. unfold studentName. cbv zeta. fold seats.
    destruct (arrayRead seats seatIndex); [|done]. by rewrite Hfalsy.
Qed.

End SeatLabelFacts.

(** ** The state updaters of the application ([App.tsx]) *)

Section StateUpdaters.

(** [{...previous, classrooms, activeClassroomId}]. *)
Definition setClassrooms (previous : AppState.t) (classrooms : list Classroom.t)
    (activeClassroomId : option string) : AppState.t :=
  {| AppState.version := AppState.version previous;
     AppState.classrooms := classrooms;
     AppState.activeClassroomId := activeClassroomId;
     AppState.activeTimeMode := AppState.activeTimeMode previous |}.

(** [updateClassroom]: the state after its [setState]. *)
Definition updateClassroom (previous : AppState.t) (classroomId : string)
    (updater : Classroom.t -> Classroom.t) : AppState.t :=
  setClassrooms previous
    ((fun classroom =>
        if String.eqb (Classroom.id classroom) classroomId then updater classroom
        else classroom) <$> AppState.classrooms previous)
    (AppState.activeClassroomId previous).

(** [handleCreateClassroom]: the state after the handler, for the text
    [newClassName] of the form; [newId] and [now] are the values of
    [createId()] and [now()]. *)
Definition handleCreateClassroom (newId now : string) (newClassName : string)
    (state : AppState.t) : AppState.t :=
  let name := trim newClassName in
  if String.eqb name "" then state
  else
    let classroom := createClassroom newId now name in
    setClassrooms state (AppState.classrooms state ++ [classroom])
      (Some (Classroom.id classroom)).

(** [handleDeleteClassroom]: the state after the handler; [ok] is the answer
    of [window.confirm]. *)
Definition handleDeleteClassroom (ok : bool) (classroomId : string) (state : AppState.t)
    : AppState.t :=
  match find (fun classroom => String.eqb (Classroom.id classroom) classroomId)
          (AppState.classrooms state) with
  | None => state
  | Some target =>
      if negb ok then state
      else
        let classrooms :=
          filter (fun classroom => Classroom.id classroom <> classroomId)
            (AppState.classrooms state) in
        let nextActiveClassroomId :=
          if decide (AppState.activeClassroomId state = Some classroomId)
          then Classroom.id <$> head classrooms
          else AppState.activeClassroomId state in
        setClassrooms state classrooms nextActiveClassroomId
  end.

End StateUpdaters.

Section StateUpdaterFacts.

Lemma activeIdOk_head (previous : AppState.t) (classrooms : list Classroom.t) :
  activeIdOk (setClassrooms previous classrooms (Classroom.id <$> head classrooms)).
Proof. unfold activeIdOk. cbn. apply head_id_ok. Qed.

(** X22: the state updaters keep [activeClassroomId] valid (it names a
    classroom of the list, and is null only when the list is empty): creating
    a classroom with a non-blank name appends it and makes it the active one
    (a blank name changes nothing); deleting a classroom removes every
    classroom with that id, keeps the others in order and, when the active
    classroom was deleted, activates the first one left (null when none is
    left); updating a classroom with an updater that keeps the classroom id,
    as every seat operation does, changes neither the active id nor the ids
    of the list. *)
Theorem state_updaters_keep_active_id (state : AppState.t) :
  activeIdOk state ->
  (forall newId now newClassName,
     let state' := handleCreateClassroom newId now newClassName state in
     activeIdOk state' /\
     (trim newClassName <> "" ->
      AppState.classrooms state' =
        AppState.classrooms state ++ [createClassroom newId now (trim newClassName)] /\
      AppState.activeClassroomId state' = Some newId) /\
     (trim newClassName = "" -> state' = state)) /\
  (forall ok classroomId,
     let state' := handleDeleteClassroom ok classroomId state in
     activeIdOk state' /\
     (ok = true ->
      AppState.classrooms state' =
        filter (fun classroom => Classroom.id classroom <> classroomId)
          (AppState.classrooms state) /\
      (AppState.activeClassroomId state <> Some classroomId ->
       AppState.activeClassroomId state' = AppState.activeClassroomId state) /\
      (AppState.activeClassroomId state = Some classroomId ->
       AppState.activeClassroomId state' = Classroom.id <$> head (AppState.classrooms state'))) /\
     (ok = false -> state' = state)) /\
  (forall classroomId updater,
     (forall classroom, Classroom.id (updater classroom) = Classroom.id classroom) ->
     let state' := updateClassroom state classroomId updater in
     activeIdOk state' /\
     Classroom.id <$> AppState.classrooms state' = Classroom.id <$> AppState.classrooms state) /\
  (forall now timeMode classroom,
     (forall createId names,
        Classroom.id (replaceStudents createId now classroom names timeMode) =
        Classroom.id classroom) /\
     (forall layoutMode,
        Classroom.id (changeLayoutMode now classroom layoutMode timeMode) =
        Classroom.id classroom) /\
     (forall first second,
        Classroom.id (swapSeatAssignments now classroom first second timeMode) =
        Classroom.id classroom) /\
     (forall seatIndex,
        Classroom.id (clearSeat now classroom seatIndex timeMode) = Classroom.id classroom) /\
     (forall studentId seatIndex,
        Classroom.id (placeStudentInSeat now classroom studentId seatIndex timeMode) =
        Classroom.id classroom) /\
     Classroom.id (rotateSeatsOnce now classroom timeMode) = Classroom.id classroom /\
     (forall draw,
        Classroom.id (randomizeSeats draw now classroom timeMode) = Classroom.id classroom)).
Proof.
  intros Hok. split; [|split; [|split]].
  - intros newId now newClassName state'. subst state'. unfold handleCreateClassroom.
    destruct (String.eqb_spec (trim newClassName) "") as [Hblank|Hname].
    + split; [done|]. split; [done|done].
    + split; [|split; [done|done]].
      unfold activeIdOk. cbn. exists (createClassroom newId now (trim newClassName)).
      split; [|done]. apply elem_of_app. right. left.
  - intros ok classroomId state'. subst state'. unfold handleDeleteClassroom.
    destruct (find _ (AppState.classrooms state)) as [target|] eqn:Hfind.
    2:{ split; [done|]. split; [|done]. intros _.
        assert (forall classroom, classroom ∈ AppState.classrooms state ->
                  Classroom.id classroom <> classroomId) as Hnone.
        { intros classroom Hin Hid.
          apply list_elem_of_In in Hin.
          pose proof (find_none _ _ Hfind classroom Hin) as Hf. cbn in Hf.
          by apply String.eqb_neq in Hf. }
        split; [by rewrite filter_all|]. split; [done|].
        intros Hactive. exfalso. unfold activeIdOk in Hok. rewrite Hactive in Hok.
        destruct Hok as (classroom & Hin & Hid). by apply (Hnone classroom). }
    destruct ok; cbn [negb]; [|split; [done|split; [done|done]]].
    split; [|split; [|done]].
    + destruct (decide (AppState.activeClassroomId state = Some classroomId)) as [Hactive|Hother];
        [apply activeIdOk_head|].
      unfold activeIdOk in *. cbn.
      destruct (AppState.activeClassroomId state) as [activeId|] eqn:Hid.
      * destruct Hok as (classroom & Hin & Heq). exists classroom. split; [|done].
        apply list_elem_of_filter. split; [|done]. congruence.
      * by rewrite Hok.
    + intros _. cbn. split; [done|]. split; intros Hactive.
      * by rewrite decide_False.
      * by rewrite decide_True.
  - intros classroomId updater Hid state'. subst state'. unfold updateClassroom.
    assert (Classroom.id <$>
              ((fun classroom =>
                  if String.eqb (Classroom.id classroom) classroomId then updater classroom
                  else classroom) <$> AppState.classrooms state) =
            Classroom.id <$> AppState.classrooms state) as Hids.
    { rewrite <- list_fmap_compose. apply list_fmap_ext. intros _ classroom _. cbn.
      by destruct (String.eqb _ _). }
    split; [|done].
    unfold activeIdOk in *. cbn.
    destruct (AppState.activeClassroomId state) as [activeId|].
    + destruct Hok as (classroom & Hin & Heq).
      assert (activeId ∈ Classroom.id <$> AppState.classrooms state) as Hactive
        by (apply list_elem_of_fmap; by exists classroom).
      rewrite <- Hids in Hactive. apply list_elem_of_fmap in Hactive as (c & Hc & Hin').
      by exists c.
    + by rewrite Hok.
  - intros now timeMode classroom. repeat split.
    + intros createId names. by destruct classroom, timeMode.
    + intros layoutMode. by destruct classroom, timeMode.
    + intros first second. unfold swapSeatAssignments.
      destruct (_ || _); [done|]. by destruct classroom, timeMode.
    + intros seatIndex. unfold clearSeat.
      destruct (_ || _); [done|]. by destruct classroom, timeMode.
    + intros studentId seatIndex. unfold placeStudentInSeat.
      destruct (_ || _); [done|]. destruct (negb _); [done|]. by destruct classroom, timeMode.
    + rewrite rotateSeatsOnce_eq. destruct (_ <=? _)%Z; [done|]. by destruct classroom, timeMode.
    + intros draw. by destruct classroom, timeMode.
Qed.

End StateUpdaterFacts.

Section StateUpdaterExamples.

Lemma state_updaters_keep_active_id_witness :
  handleCreateClassroom "c9" day3 " 　 " (stateOf groupsRoom) = stateOf groupsRoom /\
  handleDeleteClassroom true "c1" (stateOf groupsRoom) =
    setClassrooms (stateOf groupsRoom) [] None /\
  activeIdOk (handleDeleteClassroom true "c1" (stateOf groupsRoom)) /\
  activeIdOk (updateClassroom (stateOf groupsRoom) "c1"
                (fun classroom => rotateSeatsOnce day3 classroom TimeMode.weekday)).
Proof.
  assert (activeIdOk (stateOf groupsRoom)) as Hok.
  { exists groupsRoom. split; [left|done]. }
  destruct (state_updaters_keep_active_id (stateOf groupsRoom) Hok)
    as (Hcreate & Hdelete & Hupdate & Hids).
  split.
  { apply (Hcreate "c9" day3 " 　 "). by vm_compute. }
  split; [reflexivity|]. split; [exact (proj1 (Hdelete true "c1"))|].
  refine (proj1 (Hupdate "c1"
                   (fun classroom => rotateSeatsOnce day3 classroom TimeMode.weekday) _)).
  intros classroom.
  destruct (Hids day3 TimeMode.weekday classroom) as (_ & _ & _ & _ & _ & Hrotate & _).
  exact Hrotate.
Defined.

End StateUpdaterExamples.

(** ** What [normalizeClassroom] accepts and what it rebuilds *)

Section NormalizeClassroomFacts.
Local Open Scope Z_scope.
Variable now : string.
Variable dateValid : string -> bool.

Lemma normalizeTimeModeConfig_falsy (value : option json) (students : list Student.t)
    (fallbackMode : LayoutMode.t) :
  jsTruthy value = false -> normalizeTimeModeConfig value students fallbackMode = None.
Proof.
  intros Hfalsy. unfold normalizeTimeModeConfig.
  destruct value as [[]|]; try done.
Qed.

Lemma rawStudents_eq (candidate : json) :
  match prop candidate "students" with
  | Some (JArr items) => omap toStudent items
  | _ => toStudents (prop candidate "students")
  end = toStudents (prop candidate "students").
Proof. unfold toStudents. by destruct (prop candidate "students") as [[]|]. Qed.

(** The classroom that both branches of [normalizeClassroom] reconcile. *)
Lemma normalizeClassroom_Some (value : json) (classroom : Classroom.t) :
  normalizeClassroom now dateValid value = Some classroom ->
  exists id name weekday weekend,
    isObject value = true /\
    prop value "id" = Some (JStr id) /\ prop value "name" = Some (JStr name) /\
    classroom =
      normalizeClassroomLayout
        (normalizeClassroomLayout
           {| Classroom.id := id;
              Classroom.name := normalizeName name;
              Classroom.students := toStudents (prop value "students");
              Classroom.campus := toStringOrDefault (prop value "campus") "";
              Classroom.building := toStringOrDefault (prop value "building") "";
              Classroom.room := toStringOrDefault (prop value "room") "";
              Classroom.sideNotes := toStringOrDefault (prop value "sideNotes") "";
              Classroom.updatedAt := normalizeUpdatedAt now dateValid (prop value "updatedAt");
              Classroom.weekday := weekday;
              Classroom.weekend := weekend |}
           TimeMode.weekday)
        TimeMode.weekend /\
    (jsTruthy (prop value "weekend") = false ->
     weekend = createDefaultTimeModeConfig (toStudents (prop value "students"))) /\
    (jsTruthy (prop value "weekday") = false ->
     toStudents (prop value "students") <> [] ->
     weekday = createDefaultTimeModeConfig (toStudents (prop value "students"))).
Proof.
  unfold normalizeClassroom. intros H.
  destruct (isObject value); [|done].
  destruct (prop value "id") as [[| | |id| |]|] eqn:Hid; try done.
  destruct (prop value "name") as [[| | |name| |]|] eqn:Hname; try done.
  cbv zeta in H.
  destruct (_ && _) eqn:Hbranch in H.
  - apply andb_true_iff in Hbranch as [Hbranch _].
    apply andb_true_iff in Hbranch as [Hbranch _].
    apply andb_true_iff in Hbranch as [Hempty _].
    apply Nat.eqb_eq in Hempty. apply nil_length_inv in Hempty.
    unfold migrateV2Classroom in H. rewrite Hid, Hname in H. cbv zeta in H.
    rewrite rawStudents_eq in H. apply (inj Some) in H.
    eexists id, name, _, _. split; [done|]. split; [done|]. split; [done|].
    split; [symmetry; exact H|]. split; [done|]. intros _ Hne. by rewrite Hempty in Hne.
  - apply (inj Some) in H.
    eexists id, name, _, _. split; [done|]. split; [done|]. split; [done|].
    split; [symmetry; exact H|]. split.
    + intros Hfalsy. by rewrite normalizeTimeModeConfig_falsy.
    + intros Hfalsy _. by rewrite normalizeTimeModeConfig_falsy.
Qed.

(** X23: [normalizeClassroom] returns null exactly for a value that is not
    an object with a string [id] and a string [name]. Otherwise the classroom
    keeps the id, gets the trimmed name (or the default name), the entries of
    [students] that are students, the string metadata (defaults for the rest)
    and well-formed configs. A time mode without a config object gets a fresh
    GROUPS layout of the roster (for weekdays when there is a student): the
    [seats], [layoutMode] and [rotationCount] of the flat format are not used
    for a classroom that has students. Without a valid student every seat of
    the result is empty. *)
Theorem normalizeClassroom_accepts_and_rebuilds (value : json) :
  let students := toStudents (prop value "students") in
  (normalizeClassroom now dateValid value = None <->
   ~ (isObject value = true /\
      exists id name,
        prop value "id" = Some (JStr id) /\ prop value "name" = Some (JStr name))) /\
  (forall classroom,
     normalizeClassroom now dateValid value = Some classroom ->
     prop value "id" = Some (JStr (Classroom.id classroom)) /\
     (exists name, prop value "name" = Some (JStr name) /\
                   Classroom.name classroom = normalizeName name) /\
     Classroom.students classroom = students /\
     Classroom.campus classroom = toStringOrDefault (prop value "campus") "" /\
     Classroom.building classroom = toStringOrDefault (prop value "building") "" /\
     Classroom.room classroom = toStringOrDefault (prop value "room") "" /\
     Classroom.sideNotes classroom = toStringOrDefault (prop value "sideNotes") "" /\
     Classroom.updatedAt classroom =
       normalizeUpdatedAt now dateValid (prop value "updatedAt") /\
     classroomWellFormed classroom /\
     (jsTruthy (prop value "weekend") = false ->
      Classroom.weekend classroom =
        withLayout (createDefaultTimeModeConfig students) LayoutMode.GROUPS students) /\
     (jsTruthy (prop value "weekday") = false -> students <> [] ->
      Classroom.weekday classroom =
        withLayout (createDefaultTimeModeConfig students) LayoutMode.GROUPS students) /\
     (students = [] ->
      forall tm, occupants (TimeModeConfig.seats (getConfig classroom tm)) = [])).
Proof.
  intros students. split.
  - unfold normalizeClassroom. split.
    + intros Hnone (Hobj & id & name & Hid & Hname).
      rewrite Hobj, Hid, Hname in Hnone. cbv zeta in Hnone.
      destruct (_ && _) in Hnone; [|done].
      unfold migrateV2Classroom in Hnone. by rewrite Hid, Hname in Hnone.
    + intros Hnot. destruct (isObject value); [|done].
      destruct (prop value "id") as [[| | |id| |]|] eqn:Hid; try done.
      destruct (prop value "name") as [[| | |name| |]|] eqn:Hname; try done.
      exfalso. apply Hnot. split; [done|]. by exists id, name.
  - intros classroom Hsome.
    pose proof (normalizeClassroom_wellFormed now dateValid value classroom Hsome) as Hwf.
    destruct (normalizeClassroom_Some value classroom Hsome)
      as (id & name & weekday & weekend & Hobj & Hid & Hname & -> & Hweekend & Hweekday).
    fold students in Hweekend, Hweekday |- *.
    set (raw := Classroom.mk _ _ _ _ _ _ _ _ _ _) in *.
    destruct (normalizeClassroomLayout_twice raw) as (Hst & Hcid & Hcfg).
    cbn [Classroom.students Classroom.id raw] in Hst, Hcid.
    split; [by rewrite Hcid|]. split; [by exists name|]. split; [done|].
    split; [done|]. split; [done|]. split; [done|]. split; [done|]. split; [done|].
    split; [done|]. split; [|split].
    + intros Hfalsy. specialize (Hcfg TimeMode.weekend). cbn [getConfig] in Hcfg.
      rewrite Hcfg. unfold raw. cbn [Classroom.weekend Classroom.students].
      by rewrite (Hweekend Hfalsy).
    + intros Hfalsy Hne. specialize (Hcfg TimeMode.weekday). cbn [getConfig] in Hcfg.
      rewrite Hcfg. unfold raw. cbn [Classroom.weekday Classroom.students].
      by rewrite (Hweekday Hfalsy Hne).
    + intros Hempty tm.
      destruct (Hwf tm) as (_ & _ & _ & _ & Hroster).
      unfold students in Hempty. rewrite Hst, Hempty in Hroster.
      destruct (occupants _) as [|s l] eqn:Hocc; [done|]. exfalso.
      assert (s ∈ occupants (TimeModeConfig.seats
                (getConfig (normalizeClassroomLayout
                   (normalizeClassroomLayout raw TimeMode.weekday) TimeMode.weekend) tm)))
        as Hs by (rewrite Hocc; left).
      apply elem_of_occupants, Hroster in Hs. by apply elem_of_nil in Hs.
Qed.

End NormalizeClassroomFacts.

Section NormalizeClassroomExamples.

(** A classroom whose name is an ideographic space and a no-break space gets
    the default name. *)
Definition blankNameJson : json :=
  JObj [("id", JStr "c4"); ("name", JStr "　 ");
        ("students", JArr [JObj [("id", JStr "s1"); ("name", JStr "Ada")]])].

Lemma normalizeClassroom_accepts_and_rebuilds_witness :
  exists classroom,
    normalizeClassroom day5 exampleDateValid blankNameJson = Some classroom /\
    Classroom.id classroom = "c4" /\
    Classroom.name classroom = "未命名班级" /\
    Classroom.students classroom = [Student.mk "s1" "Ada"] /\
    Classroom.updatedAt classroom = day5.
Proof.
  destruct (normalizeClassroom day5 exampleDateValid blankNameJson) as [classroom|] eqn:Hroom;
    [|by vm_compute in Hroom].
  exists classroom. split; [done|].
  destruct (normalizeClassroom_accepts_and_rebuilds day5 exampleDateValid blankNameJson)
    as [_ Hsome].
  destruct (Hsome classroom Hroom)
    as (Hid & (name & Hname & Hclass) & Hstudents & _ & _ & _ & _ & Hdate & _).
  injection Hid as Hid. injection Hname as Hname.
  rewrite <- Hid, Hclass, <- Hname, Hstudents, Hdate. by vm_compute.
Defined.

End NormalizeClassroomExamples.


(** ** Loading the state and migrating the legacy data ([storage.ts]) *)

Definition STORAGE_KEY : string := "class-sit-table/app-state-v1".
Definition LEGACY_STORAGE_KEY : string := "classSeatingData".

Module LocationInfo.
Record t := mk {
  campus : string;
  floor : string;
  room : string;
  notes : string;
  date : string;
  day : string;
  weekday : string;
  time : string;
}.
End LocationInfo.

Section Legacy.
Local Open Scope Z_scope.

(** The environment: [now] is the value of [new Date().toISOString()],
    [dateValid] the date check of [normalizeClassroom], and
    [createMigrationId k] the value of the [k]-th call of
    [createMigrationId()] during a migration. *)
Variable now : string.
Variable dateValid : string -> bool.
Variable createMigrationId : nat -> string.

(** [Object.entries(value)] of an object or an array; the properties of an
    object are listed in the order in which JavaScript enumerates them. *)
Definition objectEntries (value : json) : list (string * json) :=
  match value with
  | JObj fields => fields
  | JArr items => imap (fun index item => (pretty index, item)) items
  | _ => []
  end.

(** [Array.isArray(value) ? value : []]. *)
Definition arrayOf (value : option json) : list json :=
  match value with
  | Some (JArr items) => items
  | _ => []
  end.

(** [value === s] for a string [s]. *)
Definition isString (value : option json) (s : string) : bool :=
  match value with
  | Some (JStr x) => String.eqb x s
  | _ => false
  end.

(** [names.add(name)] on a [Set<string>], which keeps the insertion order. *)
Definition setAdd (names : list string) (name : string) : list string :=
  if bool_decide (name ∈ names) then names else names ++ [name].

(** [if (typeof name === 'string' && name.trim()) names.add(name.trim())]. *)
Definition addName (names : list string) (name : json) : list string :=
  match name with
  | JStr s => if String.eqb (trim s) "" then names else setAdd names (trim s)
  | _ => names
  end.

(** [if (Array.isArray(group)) for (const name of group) ...]. *)
Definition addNamesOf (names : list string) (group : option json) : list string :=
  match group with
  | Some (JArr items) => foldl addName names items
  | _ => names
  end.

(** [collectNamesFromLegacyMode]: the set after the call. *)
Definition collectNamesFromLegacyMode (modeData : json) (names : list string) : list string :=
  let layout := prop modeData "layout" in
  let names :=
    if isString layout "circular" || negb (jsTruthy layout) then
      match prop modeData "groups" with
      | Some (JArr groups) =>
          foldl (fun names group => addNamesOf names (Some group)) names groups
      | _ => names
      end
    else names in
  let names :=
    if isString layout "rows" then
      let rowGroups := prop modeData "rowGroups" in
      if jsTruthy rowGroups then
        match rowGroups ≫= (fun candidate => prop candidate "rows") with
        | Some (JArr rows) =>
            foldl (fun names row =>
                if isObject row then
                  foldl (fun names side => addNamesOf names (prop row side))
                    names ["left"; "right"]
                else names)
              names rows
        | _ => names
        end
      else names
    else names in
  if isString layout "arc" then
    let arcGroups := prop modeData "arcGroups" in
    if jsTruthy arcGroups then
      match arcGroups ≫= (fun candidate => prop candidate "rows") with
      | Some (JArr rows) => foldl (fun names row => addNamesOf names (Some row)) names rows
      | _ => names
      end
    else names
  else names.

(** [new Map(students.map((s) => [s.name, s.id]))]. *)
Definition nameToIdOf (students : list Student.t) : gmap string string :=
  foldl (fun map student => <[Student.name student := Student.id student]> map) ∅ students.

(** [const name = typeof x === 'string' ? x.trim() : '';
     if (name && nameToId.has(name)) seats[index] = nameToId.get(name)]. *)
Definition seatByName (nameToId : gmap string string) (seats : list Seat) (index : Z)
    (value : option json) : list Seat :=
  let name := match value with Some (JStr s) => trim s | _ => "" end in
  if negb (String.eqb name "") then
    match nameToId !! name with
    | Some id => arrayWrite seats index (Some id)
    | None => seats
    end
  else seats.

(** The body of the loop over a row of [arcGroups]. *)
Definition pushIdOf (nameToId : gmap string string) (rowNames : list string) (name : json)
    : list string :=
  match name with
  | JStr s =>
      if negb (String.eqb (trim s) "") then
        match nameToId !! trim s with
        | Some id => rowNames ++ [id]
        | None => rowNames
        end
      else rowNames
  | _ => rowNames
  end.

Definition emptyLocationInfo : LocationInfo.t :=
  LocationInfo.mk "" "" "" "" "" "" "" "".

Definition getLocationInfo (modeData : option json) : LocationInfo.t :=
  if jsTruthy modeData then
    match modeData ≫= (fun candidate => prop candidate "locationInfo") with
    | Some info =>
        if isObject info then
          {| LocationInfo.campus := toStringOrDefault (prop info "campus") "";
             LocationInfo.floor := toStringOrDefault (prop info "floor") "";
             LocationInfo.room := toStringOrDefault (prop info "room") "";
             LocationInfo.notes := toStringOrDefault (prop info "notes") "";
             LocationInfo.date := toStringOrDefault (prop info "date") "";
             LocationInfo.day := toStringOrDefault (prop info "day") "";
             LocationInfo.weekday := toStringOrDefault (prop info "weekday") "";
             LocationInfo.time := toStringOrDefault (prop info "time") "" |}
        else emptyLocationInfo
    | None => emptyLocationInfo
    end
  else emptyLocationInfo.

(** [[a, b].filter(Boolean).join(' ')]. *)
Definition joinTruthy (a b : string) : string :=
  if String.eqb a "" then b
  else if String.eqb b "" then a
  else a +:+ " " +:+ b.

(** [a || b] on strings. *)
Definition orElse (a b : string) : string := if String.eqb a "" then b else a.

Definition migrateLegacyTimeMode (modeData : option json) (students : list Student.t)
    (nameToId : gmap string string) : TimeModeConfig.t :=
  if negb (jsTruthy modeData) then createDefaultTimeModeConfig students
  else
    let oldLayout := modeData ≫= (fun candidate => prop candidate "layout") in
    let layoutMode :=
      if isString oldLayout "rows" then LayoutMode.THREE_ROWS
      else if isString oldLayout "arc" then LayoutMode.ARC
      else LayoutMode.GROUPS in
    let metrics := getLayoutMetrics layoutMode (Z.of_nat (length students)) in
    let seats : list Seat := replicate (Z.to_nat (LayoutMetrics.capacity metrics)) None in
    let seats :=
      match layoutMode with
      | LayoutMode.GROUPS =>
          match modeData ≫= (fun candidate => prop candidate "groups") with
          | Some (JArr groups) =>
              foldl (fun seats gi =>
                  match groups !! Z.to_nat gi with
                  | Some (JArr group) =>
                      foldl (fun seats si =>
                          seatByName nameToId seats (gi * 6 + si) (group !! Z.to_nat si))
                        seats (range (Z.min (Z.of_nat (length group)) 6))
                  | _ => seats
                  end)
                seats (range (Z.min (Z.of_nat (length groups)) 6))
          | _ => seats
          end
      | LayoutMode.THREE_ROWS =>
          let rowGroups := modeData ≫= (fun candidate => prop candidate "rowGroups") in
          if jsTruthy rowGroups then
            match rowGroups ≫= (fun candidate => prop candidate "rows") with
            | Some (JArr rows) =>
                let cols := LayoutMetrics.cols metrics in
                let leftSize := ceilDiv cols 2 in
                foldl (fun seats row =>
                    let r := rows !! Z.to_nat row in
                    if jsTruthy r then
                      let left_ := arrayOf (r ≫= (fun candidate => prop candidate "left")) in
                      let right_ := arrayOf (r ≫= (fun candidate => prop candidate "right")) in
                      let seats :=
                        foldl (fun seats i =>
                            seatByName nameToId seats (row * cols + i) (left_ !! Z.to_nat i))
                          seats (range (Z.min leftSize (Z.of_nat (length left_)))) in
                      foldl (fun seats i =>
                          seatByName nameToId seats (row * cols + leftSize + i)
                            (right_ !! Z.to_nat i))
                        seats (range (Z.min (cols - leftSize) (Z.of_nat (length right_))))
                    else seats)
                  seats (range (Z.min 3 (Z.of_nat (length rows))))
            | _ => seats
            end
          else seats
      | LayoutMode.ARC =>
          let arcGroups := modeData ≫= (fun candidate => prop candidate "arcGroups") in
          if jsTruthy arcGroups then
            match arcGroups ≫= (fun candidate => prop candidate "rows") with
            | Some (JArr rows) =>
                foldl (fun seats row =>
                    match rows !! Z.to_nat row with
                    | Some (JArr rowData) =>
                        let rowNames := foldl (pushIdOf nameToId) [] rowData in
                        placeCentered seats rowNames (row * 18) 18
                    | _ => seats
                    end)
                  seats (range (Z.min 2 (Z.of_nat (length rows))))
            | _ => seats
            end
          else seats
      end in
    let locationInfo := getLocationInfo modeData in
    let classTime :=
      joinTruthy (LocationInfo.weekday locationInfo) (LocationInfo.time locationInfo) in
    let weekLabel :=
      if negb (String.eqb (LocationInfo.date locationInfo) "")
         && negb (String.eqb (LocationInfo.day locationInfo) "")
      then LocationInfo.date locationInfo +:+ "月" +:+ LocationInfo.day locationInfo +:+ "日"
      else "第1周" in
    {| TimeModeConfig.layoutMode := layoutMode;
       TimeModeConfig.rows := LayoutMetrics.rows metrics;
       TimeModeConfig.cols := LayoutMetrics.cols metrics;
       TimeModeConfig.seats := seats;
       TimeModeConfig.rotationCount :=
         toNumberOrDefault (modeData ≫= (fun candidate => prop candidate "currentArrangement")) 0;
       TimeModeConfig.weekLabel := weekLabel;
       TimeModeConfig.classTime := classTime |}.

(** The body of the loop of [migrateLegacyData] over the classes:
    [None] where the loop continues without a classroom. [counter] is the
    number of ids created so far. *)
Definition migrateLegacyClass (counter : nat) (className : string) (classValue : json)
    : option Classroom.t :=
  if isObject classValue then
    let allNames :=
      foldl (fun names timeKey =>
          match prop classValue timeKey with
          | Some modeData =>
              if jsTruthy (Some modeData) then collectNamesFromLegacyMode modeData names
              else names
          | None => names
          end)
        [] ["weekday"; "weekend"] in
    if (length allNames =? 0)%nat then None
    else
      let students :=
        imap (fun k name => Student.mk (createMigrationId (counter + k)) name) allNames in
      let nameToId := nameToIdOf students in
      let weekday := migrateLegacyTimeMode (prop classValue "weekday") students nameToId in
      let weekend := migrateLegacyTimeMode (prop classValue "weekend") students nameToId in
      let weekdayInfo := getLocationInfo (prop classValue "weekday") in
      let weekendInfo := getLocationInfo (prop classValue "weekend") in
      let classroom :=
        {| Classroom.id := createMigrationId (counter + length allNames);
           Classroom.name := className;
           Classroom.students := students;
           Classroom.campus :=
             orElse (LocationInfo.campus weekdayInfo) (LocationInfo.campus weekendInfo);
           Classroom.building :=
             orElse (LocationInfo.floor weekdayInfo) (LocationInfo.floor weekendInfo);
           Classroom.room :=
             orElse (LocationInfo.room weekdayInfo) (LocationInfo.room weekendInfo);
           Classroom.sideNotes :=
             orElse (LocationInfo.notes weekdayInfo) (LocationInfo.notes weekendInfo);
           Classroom.updatedAt := now;
           Classroom.weekday := weekday;
           Classroom.weekend := weekend |} in
      Some (normalizeClassroomLayout (normalizeClassroomLayout classroom TimeMode.weekday)
              TimeMode.weekend)
  else None.

(** The loop itself: the classrooms pushed so far and the number of ids
    created so far. *)
Definition migrateLegacyClasses (entries : list (string * json)) : list Classroom.t * nat :=
  foldl (fun '(classrooms, counter) '(className, classValue) =>
      match migrateLegacyClass counter className classValue with
      | Some classroom =>
          (classrooms ++ [classroom], counter + length (Classroom.students classroom) + 1)%nat
      | None => (classrooms, counter)
      end)
    ([], 0%nat) entries.

(** [migrateLegacyData]: [window] is [None] where there is no [window], and
    otherwise the [getItem] of its [localStorage]; [JSON_parse raw] is [None]
    when [JSON.parse] throws. *)
Definition migrateLegacyData (window : option (string -> option string))
    (JSON_parse : string -> option json) : option AppState.t :=
  match window with
  | None => None
  | Some getItem =>
      match getItem LEGACY_STORAGE_KEY with
      | Some raw =>
          if String.eqb raw "" then None
          else
            match JSON_parse raw with
            | Some classData =>
                if isObject classData then
                  let classrooms := (migrateLegacyClasses (objectEntries classData)).1 in
                  match classrooms with
                  | first :: _ =>
                      Some {| AppState.version := APP_VERSION;
                              AppState.classrooms := classrooms;
                              AppState.activeClassroomId := Some (Classroom.id first);
                              AppState.activeTimeMode := TimeMode.weekday |}
                  | [] => None
                  end
                else None
            | None => None
            end
      | None => None
      end
  end.

(** [loadState]: the state it returns and, when it saves a migrated state
    under [STORAGE_KEY], that state. Reading and writing [localStorage] are
    taken not to throw; a throwing [JSON.parse] is the [None] of
    [JSON_parse]. *)
Definition loadState (window : option (string -> option string))
    (JSON_parse : string -> option json) : AppState.t * option AppState.t :=
  match window with
  | None => (getEmptyState, None)
  | Some getItem =>
      let raw := getItem STORAGE_KEY in
      if negb (match raw with Some text => negb (String.eqb text "") | None => false end) then
        match migrateLegacyData window JSON_parse with
        | Some migrated => (migrated, Some migrated)
        | None => (getEmptyState, None)
        end
      else
        match raw ≫= JSON_parse with
        | Some parsed => (default getEmptyState (normalizeState now dateValid parsed), None)
        | None => (getEmptyState, None)
        end
  end.

End Legacy.

Section LegacyFacts.
Local Open Scope Z_scope.
Variable now : string.
Variable dateValid : string -> bool.
Variable createMigrationId : nat -> string.

(** The names of a legacy class: pairwise distinct, trimmed and not empty. *)
Definition namesOk (names : list string) : Prop :=
  NoDup names /\ forall name, name ∈ names -> name <> "" /\ trim name = name.

Lemma setAdd_ok (names : list string) (name : string) :
  namesOk names -> name <> "" -> trim name = name -> namesOk (setAdd names name).
Proof.
  intros [Hnd Hall] Hne Htrim. unfold setAdd.
  case_bool_decide as Hin; [done|]. split.
  - apply NoDup_app. split; [done|]. split; [|apply NoDup_singleton].
    intros x Hx Hx'. apply list_elem_of_singleton in Hx'. by subst x.
  - intros x Hx. apply elem_of_app in Hx as [Hx|Hx]; [by apply Hall|].
    apply list_elem_of_singleton in Hx. by subst x.
Qed.

Lemma addName_ok (names : list string) (name : json) :
  namesOk names -> namesOk (addName names name).
Proof.
  intros Hok. unfold addName. destruct name; try done.
  destruct (String.eqb_spec (trim s) ""); [done|].
  apply setAdd_ok; [done|done|apply trim_idem].
Qed.

Lemma foldl_ok {A} (f : list string -> A -> list string) (l : list A) :
  (forall names x, namesOk names -> namesOk (f names x)) ->
  forall names, namesOk names -> namesOk (foldl f names l).
Proof.
  intros Hf. induction l as [|x l IH]; intros names Hok; cbn [foldl]; [done|].
  by apply IH, Hf.
Qed.

Lemma addNamesOf_ok (names : list string) (group : option json) :
  namesOk names -> namesOk (addNamesOf names group).
Proof.
  intros Hok. unfold addNamesOf. destruct group as [[]|]; try done.
  apply foldl_ok; [|done]. intros. by apply addName_ok.
Qed.

Lemma collectNamesFromLegacyMode_ok (modeData : json) (names : list string) :
  namesOk names -> namesOk (collectNamesFromLegacyMode modeData names).
Proof.
  intros Hok. unfold collectNamesFromLegacyMode. cbv zeta.
  set (names1 := if _ || _ then _ else names).
  assert (namesOk names1) as Hok1.
  { unfold names1. destruct (_ || _); [|done].
    destruct (prop modeData "groups") as [[]|]; try done.
    apply foldl_ok; [|done]. intros. by apply addNamesOf_ok. }
  set (names2 := if isString _ "rows" then _ else names1).
  assert (namesOk names2) as Hok2.
  { unfold names2. destruct (isString _ "rows"); [|done].
    destruct (jsTruthy (prop modeData "rowGroups")); [|done].
    destruct (prop modeData "rowGroups" ≫= _) as [[]|]; try done.
    apply foldl_ok; [|done]. intros acc row Hacc.
    destruct (isObject row); [|done].
    apply foldl_ok; [|done]. intros. by apply addNamesOf_ok. }
  destruct (isString _ "arc"); [|done].
  destruct (jsTruthy (prop modeData "arcGroups")); [|done].
  destruct (prop modeData "arcGroups" ≫= _) as [[]|]; try done.
  apply foldl_ok; [|done]. intros. by apply addNamesOf_ok.
Qed.

(** What a migrated classroom looks like. *)
Definition migratedClassroom (counter : nat) (className : string) (classroom : Classroom.t)
    : Prop :=
  let students := Classroom.students classroom in
  students <> [] /\
  namesOk (Student.name <$> students) /\
  rosterIds students = createMigrationId <$> seq counter (length students) /\
  Classroom.id classroom = createMigrationId (counter + length students) /\
  Classroom.name classroom = className /\
  Classroom.updatedAt classroom = now /\
  classroomWellFormed classroom /\
  (forall tm,
     TimeModeConfig.layoutMode (getConfig classroom tm) <> LayoutMode.ARC ->
     exists ids,
       TimeModeConfig.seats (getConfig classroom tm) =
       (Some <$> ids) ++
       replicate (length (TimeModeConfig.seats (getConfig classroom tm)) - length ids) None).

Lemma imap_student_ids (counter : nat) (names : list string) :
  rosterIds (imap (fun k name => Student.mk (createMigrationId (counter + k)) name) names) =
  createMigrationId <$> seq counter (length names).
Proof.
  unfold rosterIds. apply list_eq. intros i.
  rewrite !list_lookup_fmap, list_lookup_imap.
  destruct (names !! i) as [name|] eqn:Hi; cbn.
  - by rewrite lookup_seq_lt by (by apply lookup_lt_Some in Hi).
  - by rewrite lookup_seq_ge by (by apply lookup_ge_None in Hi).
Qed.

Lemma imap_student_names (counter : nat) (names : list string) :
  Student.name <$> imap (fun k name => Student.mk (createMigrationId (counter + k)) name) names
  = names.
Proof.
  apply list_eq. intros i. rewrite list_lookup_fmap, list_lookup_imap.
  by destruct (names !! i).
Qed.

Lemma migrateLegacyClass_Some (counter : nat) (className : string) (classValue : json)
    (classroom : Classroom.t) :
  migrateLegacyClass now createMigrationId counter className classValue = Some classroom ->
  migratedClassroom counter className classroom.
Proof.
  unfold migrateLegacyClass. destruct (isObject classValue); [|done]. cbv zeta.
  set (allNames := foldl _ [] ["weekday"; "weekend"]).
  assert (namesOk allNames) as Hok.
  { unfold allNames. apply foldl_ok.
    - intros names timeKey Hnames. destruct (prop classValue timeKey); [|done].
      destruct (jsTruthy _); [|done]. by apply collectNamesFromLegacyMode_ok.
    - split; [apply NoDup_nil_2|]. intros name Hname. by apply elem_of_nil in Hname. }
  destruct (Nat.eqb_spec (length allNames) 0) as [|Hlen]; [done|].
  intros Hsome. apply (inj Some) in Hsome.
  set (raw := Classroom.mk _ _ _ _ _ _ _ _ _ _) in Hsome.
  destruct (normalizeClassroomLayout_twice raw) as (Hst & Hid & Hcfg).
  rewrite Hsome in Hst, Hid, Hcfg. cbn [raw Classroom.students Classroom.id] in Hst, Hid.
  unfold migratedClassroom. cbv zeta. rewrite Hst.
  rewrite imap_student_names, imap_student_ids, length_imap.
  split; [|split; [done|split; [done|split; [done|split; [|split; [|split]]]]]].
  - intros Hnil. apply Hlen. apply (f_equal length) in Hnil.
    rewrite length_imap in Hnil. exact Hnil.
  - rewrite <- Hsome. reflexivity.
  - rewrite <- Hsome. reflexivity.
  - rewrite <- Hsome. apply normalizeClassroomLayout_twice_wellFormed.
  - intros tm. rewrite Hcfg, withLayout_layoutMode, withLayout_seats. intros Hmode.
    set (ordered := getOrderedStudentIds _ _).
    destruct (Z_of_nat_complete _
                (getLayoutMetrics_capacity_nonneg (TimeModeConfig.layoutMode (getConfig raw tm))
                   (Z.of_nat (length (Classroom.students raw))))) as [capacity Hcap].
    exists (take capacity ordered).
    destruct (TimeModeConfig.layoutMode (getConfig raw tm)); [| |done];
      rewrite Hcap, buildSeatsFromOrder_eq;
      rewrite length_app, length_fmap, length_replicate, length_take; f_equal; f_equal; lia.
Qed.

(** The ids that a list of migrated classrooms has used, in creation order. *)
Definition idsOf (classrooms : list Classroom.t) : list string :=
  classroom ← classrooms; rosterIds (Classroom.students classroom) ++ [Classroom.id classroom].

Lemma migrateLegacyClasses_spec (entries : list (string * json)) :
  let result := migrateLegacyClasses now createMigrationId entries in
  idsOf result.1 = createMigrationId <$> seq 0 result.2 /\
  Forall (fun classroom =>
      exists counter className,
        className ∈ entries.*1 /\ migratedClassroom counter className classroom)
    result.1 /\
  (Classroom.name <$> result.1) `sublist_of` entries.*1.
Proof.
  induction entries as [|[className classValue] entries IH] using rev_ind; cbn zeta.
  - split; [done|]. split; [apply Forall_nil_2|done].
  - unfold migrateLegacyClasses. rewrite foldl_app. cbn [foldl].
    fold (migrateLegacyClasses now createMigrationId entries).
    destruct (migrateLegacyClasses now createMigrationId entries) as [classrooms counter].
    cbn zeta in IH. cbn [fst snd] in IH. destruct IH as (Hids & Hall & Hsub).
    rewrite fmap_app. cbn [fmap list_fmap fst].
    assert (Forall (fun classroom =>
              exists counter' className',
                className' ∈ entries.*1 ++ [className] /\
                migratedClassroom counter' className' classroom) classrooms) as Hall'.
    { apply (Forall_impl _ _ _ Hall). intros classroom (c & n & Hn & Hm).
      exists c, n. split; [|done]. apply elem_of_app. by left. }
    destruct (migrateLegacyClass now createMigrationId counter className classValue)
      as [classroom|] eqn:Hclass; cbn [fst snd].
    + apply migrateLegacyClass_Some in Hclass.
      pose proof Hclass as (_ & _ & Hroster & Hid & Hname & _).
      split; [|split].
      * unfold idsOf in *. rewrite bind_app, Hids. cbn [mbind list_bind app].
        rewrite app_nil_r, Hroster, Hid.
        replace (counter + length (Classroom.students classroom) + 1)%nat
          with (counter + (length (Classroom.students classroom) + 1))%nat by lia.
        rewrite (seq_app counter), (seq_app (length _) 1), !fmap_app. cbn [seq fmap list_fmap].
        by rewrite Nat.add_0_l.
      * apply Forall_app. split; [done|]. apply Forall_singleton.
        exists counter, className. split; [|done]. apply elem_of_app. right. left.
      * rewrite fmap_app. cbn [fmap list_fmap]. rewrite Hname. by apply sublist_app.
    + split; [done|]. split; [done|]. by apply sublist_inserts_r.
Qed.

Lemma migrateLegacyData_wellFormed (window : option (string -> option string))
    (JSON_parse : string -> option json) (state : AppState.t) :
  migrateLegacyData now createMigrationId window JSON_parse = Some state ->
  stateWellFormed state.
Proof.
  unfold migrateLegacyData. intros Hsome.
  destruct window as [getItem|]; [|done].
  destruct (getItem LEGACY_STORAGE_KEY) as [raw|]; [|done].
  destruct (String.eqb raw ""); [done|].
  destruct (JSON_parse raw) as [classData|]; [|done].
  destruct (isObject classData); [|done]. cbv zeta in Hsome.
  destruct (migrateLegacyClasses_spec (objectEntries classData)) as (_ & Hall & _).
  destruct (migrateLegacyClasses now createMigrationId (objectEntries classData))
    as [classrooms counter].
  cbn [fst snd] in *.
  destruct classrooms as [|first rest] eqn:Hclassrooms; [done|].
  apply (inj Some) in Hsome. subst state.
  split; [done|]. split.
  - unfold activeIdOk. cbn. exists first. split; [left|done].
  - cbn. intros classroom Hin. rewrite Forall_forall in Hall.
    destruct (Hall classroom Hin) as (c & n & _ & Hm). apply Hm.
Qed.

(** X24: when [migrateLegacyData] returns a state, the state is well
    formed (version 3, the first classroom active, every config reconciled
    with its roster) with weekdays active and at least one classroom; every
    classroom has a roster that is not empty, whose names are pairwise
    distinct, trimmed and not empty, was stamped with the clock reading and is
    named after a key of the legacy data, in the order of the keys; in GROUPS
    and THREE_ROWS mode its seats are filled from seat 0 on without a gap, so
    the positions of the legacy layout are not kept; and the ids of the
    students and classrooms are the consecutive values of [createMigrationId],
    in creation order. *)
Theorem migrateLegacyData_migrates_classes (window : option (string -> option string))
    (JSON_parse : string -> option json) (state : AppState.t) :
  migrateLegacyData now createMigrationId window JSON_parse = Some state ->
  stateWellFormed state /\
  AppState.activeTimeMode state = TimeMode.weekday /\
  AppState.classrooms state <> [] /\
  AppState.activeClassroomId state = Classroom.id <$> head (AppState.classrooms state) /\
  Forall (fun classroom =>
      let students := Classroom.students classroom in
      students <> [] /\
      NoDup (Student.name <$> students) /\
      (forall student, student ∈ students ->
         Student.name student <> "" /\ trim (Student.name student) = Student.name student) /\
      Classroom.updatedAt classroom = now /\
      (forall tm,
         TimeModeConfig.layoutMode (getConfig classroom tm) <> LayoutMode.ARC ->
         exists ids,
           TimeModeConfig.seats (getConfig classroom tm) =
           (Some <$> ids) ++
           replicate (length (TimeModeConfig.seats (getConfig classroom tm)) - length ids)
             None))
    (AppState.classrooms state) /\
  (exists getItem raw classData,
     window = Some getItem /\ getItem LEGACY_STORAGE_KEY = Some raw /\
     JSON_parse raw = Some classData /\
     (Classroom.name <$> AppState.classrooms state) `sublist_of` (objectEntries classData).*1) /\
  idsOf (AppState.classrooms state) =
    createMigrationId <$> seq 0 (length (idsOf (AppState.classrooms state))).
Proof.
  intros Hsome. pose proof (migrateLegacyData_wellFormed _ _ _ Hsome) as Hwf.
  unfold migrateLegacyData in Hsome.
  destruct window as [getItem|]; [|done].
  destruct (getItem LEGACY_STORAGE_KEY) as [raw|] eqn:Hraw; [|done].
  destruct (String.eqb raw ""); [done|].
  destruct (JSON_parse raw) as [classData|] eqn:Hparse; [|done].
  destruct (isObject classData); [|done]. cbv zeta in Hsome.
  destruct (migrateLegacyClasses_spec (objectEntries classData)) as (Hids & Hall & Hsub).
  destruct (migrateLegacyClasses now createMigrationId (objectEntries classData))
    as [classrooms counter].
  cbn [fst snd] in *.
  destruct classrooms as [|first rest]; [done|].
  apply (inj Some) in Hsome. subst state.
  cbn [AppState.classrooms AppState.activeTimeMode AppState.activeClassroomId].
  split; [done|]. split; [done|]. split; [done|]. split; [done|]. split; [|split].
  - apply (Forall_impl _ _ _ Hall). intros classroom (c & n & _ & Hm).
    destruct Hm as (Hne & [Hnd Hnames] & _ & _ & _ & Hnow & _ & Hcompact).
    cbv zeta. split; [done|]. split; [done|]. split; [|done].
    intros student Hin. apply Hnames, list_elem_of_fmap. by exists student.
  - by exists getItem, raw, classData.
  - rewrite Hids at 1. by rewrite Hids, length_fmap, length_seq.
Qed.

Lemma getEmptyState_wellFormed : stateWellFormed getEmptyState.
Proof.
  split; [done|]. split; [done|]. intros classroom Hin. by apply elem_of_nil in Hin.
Qed.

(** X25: [loadState] always returns a well-formed state. Without a
    [window] it returns the empty state. A non-empty text saved under the
    storage key decides alone: the state is its normalization, or the empty
    state when the text does not parse or is rejected, the legacy data is not
    read and nothing is saved. Otherwise the legacy data is migrated, and the
    migrated state is returned and saved, or the empty state is returned when
    there is nothing to migrate. *)
Theorem loadState_returns_well_formed_state (window : option (string -> option string))
    (JSON_parse : string -> option json) :
  let loaded := loadState now dateValid createMigrationId window JSON_parse in
  stateWellFormed loaded.1 /\
  (window = None -> loaded = (getEmptyState, None)) /\
  (forall getItem raw,
     window = Some getItem -> getItem STORAGE_KEY = Some raw -> raw <> "" ->
     loaded =
       (default getEmptyState (JSON_parse raw ≫= normalizeState now dateValid), None)) /\
  (forall getItem,
     window = Some getItem ->
     getItem STORAGE_KEY = None \/ getItem STORAGE_KEY = Some "" ->
     loaded =
       match migrateLegacyData now createMigrationId window JSON_parse with
       | Some migrated => (migrated, Some migrated)
       | None => (getEmptyState, None)
       end).
Proof.
  intros loaded. subst loaded. unfold loadState.
  split; [|split; [by intros ->|split]].
  - destruct window as [getItem|]; [|apply getEmptyState_wellFormed]. cbv zeta.
    destruct (negb _).
    + destruct (migrateLegacyData _ _ _ _) as [migrated|] eqn:Hmigrated;
        [|apply getEmptyState_wellFormed].
      by apply migrateLegacyData_wellFormed in Hmigrated.
    + destruct (_ ≫= _) as [parsed|]; [|apply getEmptyState_wellFormed]. cbn [fst].
      destruct (normalizeState now dateValid parsed) as [state|] eqn:Hstate;
        [|apply getEmptyState_wellFormed].
      by apply normalizeState_wellFormed in Hstate.
  - intros getItem raw -> Hraw Hne. cbv zeta. rewrite Hraw.
    destruct (String.eqb_spec raw ""); [done|]. cbn [negb mbind option_bind].
    by destruct (JSON_parse raw).
  - intros getItem -> [Hraw|Hraw]; cbv zeta; by rewrite Hraw.
Qed.

End LegacyFacts.

Section LegacyExamples.
Local Open Scope Z_scope.

Definition legacyJson : json :=
  JObj [("Class A",
         JObj [("weekday",
                JObj [("layout", JStr "circular");
                      ("groups", JArr [JArr [JStr "Ada"; JStr "　Ben "];
                                       JArr [JStr "Cy"; JStr "Ada "; JStr "　"]]);
                      ("currentArrangement", JNum 2);
                      ("locationInfo",
                       JObj [("campus", JStr "North"); ("weekday", JStr "Mon");
                             ("time", JStr "9:00")])])]);
        ("Class B", JObj [("weekday", JObj [("layout", JStr "arc")])])].

Definition legacyWindow (key : string) : option string :=
  if String.eqb key LEGACY_STORAGE_KEY then Some "legacy" else None.

Definition legacyParser (rawText : string) : option json :=
  if String.eqb rawText "legacy" then Some legacyJson else None.

Lemma migrateLegacyData_migrates_classes_witness :
  exists state,
    migrateLegacyData day1 exampleId (Some legacyWindow) legacyParser = Some state /\
    Classroom.name <$> AppState.classrooms state = ["Class A"] /\
    (fun classroom => Student.name <$> Classroom.students classroom) <$>
      AppState.classrooms state = [["Ada"; "Ben"; "Cy"]] /\
    (TimeModeConfig.seats ∘ Classroom.weekday) <$> AppState.classrooms state =
      [[Some "id-0"; Some "id-1"; Some "id-2"] ++ replicate 33 None] /\
    stateWellFormed state /\
    idsOf (AppState.classrooms state) = ["id-0"; "id-1"; "id-2"; "id-3"].
Proof.
  eexists. split; [by vm_compute|]. split; [by vm_compute|]. split; [by vm_compute|].
  split; [by vm_compute|].
  match goal with
  | |- stateWellFormed ?state /\ _ =>
      destruct (migrateLegacyData_migrates_classes day1 exampleId (Some legacyWindow)
                  legacyParser state) as (Hwf & _ & _ & _ & _ & _ & Hids)
  end.
  - by vm_compute.
  - split; [exact Hwf|]. rewrite Hids. by vm_compute.
Defined.

End LegacyExamples.


(** ** The round trip through the storage format *)

Section RoundTrip.
Local Open Scope Z_scope.

Variable now : string.
Variable dateValid : string -> bool.












(** *** The backup import *)

(** The entries of [classrooms] that the import keeps: the objects with a
    string [id] and a string [name]. *)
Definition isClassroomEntry (value : json) : bool :=
  isObject value &&
  match prop value "id", prop value "name" with
  | Some (JStr _), Some (JStr _) => true
  | _, _ => false
  end.

Lemma normalizeClassroom_entry (value : json) :
  match normalizeClassroom now dateValid value with
  | Some classroom =>
      isClassroomEntry value = true /\
      prop value "id" = Some (JStr (Classroom.id classroom)) /\
      (exists name, prop value "name" = Some (JStr name) /\
                    Classroom.name classroom = normalizeName name) /\
      Classroom.students classroom = toStudents (prop value "students")
  | None => isClassroomEntry value = false
  end.
Proof.
  destruct (normalizeClassroom now dateValid value) as [classroom|] eqn:Hvalue.
  - destruct (normalizeClassroom_Some now dateValid value classroom Hvalue)
      as (id & name & weekday & weekend & Hobj & Hid & Hname & -> & _).
    unfold isClassroomEntry. rewrite Hobj, Hid, Hname.
    split; [done|]. split; [done|]. split; [by exists name|done].
  - unfold isClassroomEntry. destruct (isObject value) eqn:Hobj; [|done].
    destruct (prop value "id") as [[| | |id| |]|] eqn:Hid; try done.
    destruct (prop value "name") as [[| | |name| |]|] eqn:Hname; try done.
    exfalso. unfold normalizeClassroom in Hvalue. rewrite Hobj, Hid, Hname in Hvalue.
    cbv zeta in Hvalue. destruct (_ && _) in Hvalue; [|done].
    unfold migrateV2Classroom in Hvalue. by rewrite Hid, Hname in Hvalue.
Qed.

Lemma normalizeClassrooms_entries (items : list json) :
  Forall2 (fun entry classroom =>
      normalizeClassroom now dateValid entry = Some classroom /\
      prop entry "id" = Some (JStr (Classroom.id classroom)) /\
      (exists name, prop entry "name" = Some (JStr name) /\
                    Classroom.name classroom = normalizeName name) /\
      Classroom.students classroom = toStudents (prop entry "students"))
    (filter (fun entry => isClassroomEntry entry = true) items)
    (omap (normalizeClassroom now dateValid) items).
Proof.
  induction items as [|entry items IH]; [apply Forall2_nil_2|].
  cbn [omap list_omap]. rewrite filter_cons.
  pose proof (normalizeClassroom_entry entry) as Hentry.
  destruct (normalizeClassroom now dateValid entry) as [classroom|] eqn:Hvalue.
  - destruct Hentry as (Hkept & Hid & Hname & Hstudents).
    rewrite decide_True by done. by apply Forall2_cons.
  - by rewrite decide_False by (by rewrite Hentry).
Qed.

(** C7, as the code has it: [parseBackup] returns [null] exactly when the
    text does not parse or the parsed value is not an object with an array
    under [classrooms]. Every state it returns is well formed: version 3, an
    active id that names one of the classrooms (null only when there is
    none), and every classroom reconciled with its roster in both time modes.
    Its classrooms are the entries of the array that are objects with a string
    id and a string name, in the order of the array, each with the id of its
    entry, the trimmed name (or the default name) and the entries of
    [students] that are students; the other entries of the array are
    dropped. *)
Theorem parseBackup_result (JSON_parse : string -> option json) (rawText : string) :
  (parseBackup now dateValid JSON_parse rawText = None <->
   JSON_parse rawText = None \/
   exists parsed, JSON_parse rawText = Some parsed /\ ~ hasClassroomsArray parsed) /\
  (forall state,
     parseBackup now dateValid JSON_parse rawText = Some state ->
     stateWellFormed state /\
     exists parsed items,
       JSON_parse rawText = Some parsed /\
       prop parsed "classrooms" = Some (JArr items) /\
       Forall2 (fun entry classroom =>
           normalizeClassroom now dateValid entry = Some classroom /\
           prop entry "id" = Some (JStr (Classroom.id classroom)) /\
           (exists name, prop entry "name" = Some (JStr name) /\
                         Classroom.name classroom = normalizeName name) /\
           Classroom.students classroom = toStudents (prop entry "students"))
         (filter (fun entry => isClassroomEntry entry = true) items)
         (AppState.classrooms state)).
Proof.
  unfold parseBackup. split.
  - destruct (JSON_parse rawText) as [parsed|]; [|by split; [left|]].
    rewrite normalizeState_None. split.
    + intros Hnot. right. by exists parsed.
    + intros [?|(parsed' & Heq & Hnot)]; [done|]. by injection Heq as <-.
  - intros state H. destruct (JSON_parse rawText) as [parsed|]; [|done].
    split; [by apply normalizeState_wellFormed in H|].
    exists parsed. unfold normalizeState in H.
    destruct (isObject parsed); [|done].
    destruct (prop parsed "classrooms") as [[| | | |items|]|]; try done.
    exists items. split; [done|]. split; [done|].
    cbv zeta in H. apply (inj Some) in H. rewrite <- H.
    apply normalizeClassrooms_entries.
Qed.

End RoundTrip.

Section RoundTripExamples.
Local Open Scope Z_scope.


(** *** C7: a backup with three entries under [classrooms], of which one is
    a classroom; the text [{}] and a text that does not parse. *)
Definition backupJson : json :=
  JObj [("classrooms",
         JArr [JNum 5;
               JObj [("id", JStr "c1"); ("name", JStr " 　Class A　");
                     ("students",
                      JArr [JObj [("id", JStr "s1"); ("name", JStr "Ada")]; JStr "Ben"])];
               JObj [("id", JNum 2); ("name", JStr "Class B")]])].

Definition backupParser (rawText : string) : option json :=
  if String.eqb rawText "backup" then Some backupJson
  else if String.eqb rawText "{}" then Some (JObj [])
  else None.

Lemma parseBackup_result_witness :
  (exists state,
     parseBackup day5 exampleDateValid backupParser "backup" = Some state /\
     stateWellFormed state /\
     Classroom.id <$> AppState.classrooms state = ["c1"] /\
     Classroom.name <$> AppState.classrooms state = ["Class A"] /\
     Classroom.students <$> AppState.classrooms state = [[Student.mk "s1" "Ada"]]) /\
  parseBackup day5 exampleDateValid backupParser "{}" = None /\
  parseBackup day5 exampleDateValid backupParser "not json" = None.
Proof.
  split; [|split].
  - destruct (parseBackup day5 exampleDateValid backupParser "backup") as [state|] eqn:Hstate;
      [|by vm_compute in Hstate].
    exists state. split; [done|].
    destruct (parseBackup_result day5 exampleDateValid backupParser "backup") as [_ Hsome].
    destruct (Hsome state Hstate) as (Hwf & parsed & items & Hparsed & Hitems & Hrooms).
    split; [exact Hwf|].
    injection Hparsed as <-. injection Hitems as <-.
    rewrite filter_cons, decide_False in Hrooms by done.
    rewrite filter_cons, decide_True in Hrooms by done.
    rewrite filter_cons, decide_False in Hrooms by done.
    apply Forall2_cons_inv_l in Hrooms as (classroom & rest & Hroom & Hrest & ->).
    apply Forall2_nil_inv_l in Hrest as ->.
    destruct Hroom as (_ & Hid & (name & Hname & Hclass) & Hstudents).
    injection Hid as Hid. injection Hname as Hname.
    cbn [fmap list_fmap]. rewrite <- Hid, Hclass, <- Hname, Hstudents. by vm_compute.
  - apply (parseBackup_result day5 exampleDateValid backupParser "{}").
    right. exists (JObj []). split; [done|]. by intros [_ [items Hitems]].
  - apply (parseBackup_result day5 exampleDateValid backupParser "not json"). by left.
Defined.

End RoundTripExamples.
